(** * yolov8trt: the benchmark harness and the YAML command-line entry point

    A shallow embedding of the two scripts of the repository,
    [ultralytics/yolo/utils/benchmarks.py] and [yolo.py], and the
    properties of their control flow.

    Both scripts are glue around an external detection library.  The library
    is not part of the embedding: every call into it is an oracle that
    receives the current state of the outside world and answers with a
    value or a raised exception and a new world.  What the scripts
    themselves do (the order of the calls, which exceptions they catch, what
    they record and what they print) is translated statement by statement. *)

From Stdlib Require Import String Ascii List Bool Arith ZArith QArith Lia.
Import ListNotations.

Close Scope Q_scope.
Open Scope string_scope.
Open Scope list_scope.

(* ===================================================================== *)
(** ** The fragment of Python both scripts rely on                        *)
(* ===================================================================== *)

Module Py.

(** Exception classes.  [AssertionError], [UnboundLocalError], [KeyError],
    [ValueError] and [NameError] are the ones the scripts raise themselves;
    [LibraryError n] is any other subclass of [Exception] coming out of
    the external library (a subclass of AssertionError is one of those: its
    exact type is not AssertionError).  [KeyboardInterrupt] and
    [SystemExit] derive from BaseException only. *)
Inductive exn_class : Type :=
| AssertionError
| UnboundLocalError
| NameError
| KeyError
| ValueError
| LibraryError (name : string)
| KeyboardInterrupt
| SystemExit.

Record exn : Type := mkExn { cls : exn_class; msg : string }.

(** [isinstance(e, Exception)]. *)
Definition is_Exception (e : exn) : bool :=
  match cls e with
  | KeyboardInterrupt | SystemExit => false
  | _ => true
  end.

(** [type(e) is AssertionError]. *)
Definition is_AssertionError (e : exn) : bool :=
  match cls e with
  | AssertionError => true
  | _ => false
  end.

Inductive res (A : Type) : Type :=
| Ret (a : A)
| Raise (e : exn).
Arguments Ret {A} a.
Arguments Raise {A} e.

(** Statements run in a state and either finish or raise; the state
    reached when an exception is raised is kept, as Python keeps the
    assignments and appends made before the raise. *)
Definition M (St A : Type) : Type := St -> res A * St.

Definition ret {St A} (a : A) : M St A := fun s => (Ret a, s).

Definition raise {St A} (e : exn) : M St A := fun s => (Raise e, s).

Definition bind {St A B} (m : M St A) (k : A -> M St B) : M St B :=
  fun s =>
    match m s with
    | (Ret a, s') => k a s'
    | (Raise e, s') => (Raise e, s')
    end.

(** [try: body / except Exception as e: handler e]. *)
Definition try_except_Exception {St A}
    (body : M St A) (handler : exn -> M St A) : M St A :=
  fun s =>
    match body s with
    | (Ret a, s') => (Ret a, s')
    | (Raise e, s') =>
        if is_Exception e then handler e s' else (Raise e, s')
    end.

(** [assert cond, text]. *)
Definition py_assert {St} (cond : bool) (text : string) : M St unit :=
  if cond then ret tt else raise (mkExn AssertionError text).

(** [sub in s] on strings: [sub] occurs somewhere in [s]. *)
Fixpoint contains (sub s : string) : bool :=
  if String.prefix sub s then true
  else match s with
       | EmptyString => false
       | String _ rest => contains sub rest
       end.

Definition is_digit (c : ascii) : bool :=
  let n := nat_of_ascii c in (48 <=? n)%nat && (n <=? 57)%nat.

Fixpoint all_digits (s : string) : bool :=
  match s with
  | EmptyString => true
  | String c rest => is_digit c && all_digits rest
  end.

(** [s.isnumeric()], on ASCII text: at least one character, all digits. *)
Definition isnumeric (s : string) : bool :=
  match s with
  | EmptyString => false
  | _ => all_digits s
  end.

Fixpoint int_acc (acc : N) (s : string) : N :=
  match s with
  | EmptyString => acc
  | String c rest =>
      int_acc (acc * 10 + N.of_nat (nat_of_ascii c - 48))%N rest
  end.

(** [int(s)] for a string of digits. *)
Definition int (s : string) : N := int_acc 0%N s.

(** [d[k]] on a dictionary kept as an association list; a missing key
    raises KeyError, whose text is the quoted key. *)
Fixpoint lookup {V} (d : list (string * V)) (k : string) : option V :=
  match d with
  | [] => None
  | (k', v) :: rest => if String.eqb k' k then Some v else lookup rest k
  end.

Definition getitem {St V} (d : list (string * V)) (k : string) : M St V :=
  match lookup d k with
  | Some v => ret v
  | None => raise (mkExn KeyError ("'" ++ k ++ "'"))
  end.

(** [wp m Qr Qe s]: run from [s], [m] either returns a value and a state
    in [Qr] or raises an exception in a state in [Qe]. *)
Definition wp {St A} (m : M St A)
    (Qr : A -> St -> Prop) (Qe : exn -> St -> Prop) (s : St) : Prop :=
  match m s with
  | (Ret a, s') => Qr a s'
  | (Raise e, s') => Qe e s'
  end.

End Py.

Import Py.

Declare Scope py_scope.
Delimit Scope py_scope with py.
Notation "x <- c ;; k" := (bind c (fun x => k))
  (at level 61, c at next level, right associativity) : py_scope.
Notation "c ;;; k" := (bind c (fun _ => k))
  (at level 61, right associativity) : py_scope.
Open Scope py_scope.

(* ===================================================================== *)
(** ** ultralytics/yolo/utils/benchmarks.py                               *)
(* ===================================================================== *)

Module Benchmarks.

(** [run_benchmarks] is translated line by line.  What is taken from
    outside the file:
    - the table of [export_formats()], which lives in the exporter of the
      library: any list of rows, indexed from 0 as [iterrows] does;
    - the host ([platform.system()]) and every call into torch, the YOLO
      objects, [file_size], [check_yolo] and [eval]: oracles of [library];
    - values have the types the script expects of them (file names are
      strings, sizes, metrics and speeds are numbers), and the attributes
      [task] and [ckpt_path] of a model do not change during a run;
    - floats are rationals, so there is no NaN among the measurements, and
      [round] is left to the library. *)

(** *** Data *)

(** One row of the table [export_formats()] returns:
    (name, format argument, file suffix, CPU flag, GPU flag). *)
Record format_row : Type := mkFormat {
  name : string;
  format : string;
  suffix : string;
  cpu : bool;
  gpu : bool
}.

(** The second field of a result row: the check mark or the cross. *)
Inductive status : Type := Passed | Failed.

Definition mark (st : status) : string :=
  match st with
  | Passed => "✅"
  | Failed => "❌"
  end.

(** A row of [y]: [[name, mark, size, metric, speed]]; [None] is Python's
    None.  Measured quantities are floats in the source and rationals
    here. *)
Record result_row : Type := mkRow {
  r_name : string;
  r_status : status;
  r_size : option Q;
  r_metric : option Q;
  r_speed : option Q
}.

(** The argument of [torch.device]: [int(device)] when the text is
    numeric, the text itself otherwise. *)
Inductive device_arg : Type :=
| DevIndex (n : N)
| DevName (s : string).

Record torch_dev : Type := mkDev { dev_type : string; dev_index : option N }.

(** A [YOLO] object, as far as the script reads it. *)
Record model : Type := mkModel {
  task : string;
  ckpt_path : string;
  ident : nat
}.

(** What [export.val(...)] returns, as far as the script reads it. *)
Record val_results : Type := mkVal {
  results_dict : list (string * Q);
  speed : list (string * Q)
}.

(** The [hard_fail] argument: [False] by default, and whatever the caller
    passes. *)
Inductive hard_fail_arg : Type :=
| HFNone
| HFBool (b : bool)
| HFNum (q : Q)
| HFStr (s : string).

(** [if hard_fail]. *)
Definition truthy (hf : hard_fail_arg) : bool :=
  match hf with
  | HFNone => false
  | HFBool b => b
  | HFNum q => negb (Qeq_bool q 0)
  | HFStr s => negb (String.eqb s "")
  end.

(** [isinstance(hard_fail, str)]. *)
Definition is_str (hf : hard_fail_arg) : bool :=
  match hf with
  | HFStr _ => true
  | _ => false
  end.

Record args : Type := mkArgs {
  a_model : string;
  imgsz : Z;
  half : bool;
  device : string;
  hard_fail : hard_fail_arg
}.

(** The defaults of the signature; [weights] stands for
    [Path(SETTINGS['weights_dir']) / 'yolov8n.pt']. *)
Definition default_args (weights : string) : args :=
  mkArgs weights 640 false "cpu" (HFBool false).

(** A cell of the printed table. *)
Inductive cell : Type :=
| CStr (s : string)
| CNum (q : Q)
| CNull.

Record DataFrame : Type := mkDF {
  columns : list string;
  rows : list (list cell)
}.

(** What the script does to the outside world, in order: calls into the
    library and lines sent to the logger.  The elapsed-time text of the
    completion line is left out. *)
Inductive event : Type :=
| EvTorchDevice (d : device_arg)
| EvYOLO (path : string)
| EvExport (m : model) (imgsz : Z) (fmt : string) (half : bool) (dev : torch_dev)
| EvVal (m : model) (data : string) (imgsz : Z) (half : bool) (dev : torch_dev)
| EvFileSize (filename : string)
| EvWarning (fmt_name : string) (text : string)
| EvInfoBlank
| EvCheckYolo (dev : torch_dev)
| EvInfoComplete (ckpt : string) (data : string) (imgsz : Z)
| EvInfoFrame (df : DataFrame)
| EvEval (expr : string).

(** The external library and the host, over a state [world] of their
    own.  [py_eval] is [eval]: it runs in the scope of the function, so it
    is given the results as well as the world. *)
Record library (world : Type) : Type := mkLibrary {
  export_formats : list format_row;
  platform_system : string;
  torch_device : device_arg -> world -> res torch_dev * world;
  YOLO : string -> world -> res model * world;
  model_export :
    model -> Z -> string -> bool -> torch_dev -> world -> res string * world;
  model_val :
    model -> string -> Z -> bool -> torch_dev -> world ->
    res val_results * world;
  file_size : string -> world -> res Q * world;
  py_round : Q -> Z -> Q;
  float_str : Q -> string;
  check_yolo : torch_dev -> world -> res unit * world;
  py_eval : string -> list result_row -> world -> res Q * world
}.
Arguments export_formats {world}.
Arguments platform_system {world}.
Arguments torch_device {world}.
Arguments YOLO {world}.
Arguments model_export {world}.
Arguments model_val {world}.
Arguments file_size {world}.
Arguments py_round {world}.
Arguments float_str {world}.
Arguments check_yolo {world}.
Arguments py_eval {world}.

(** The state of a run: the world, what was done to it so far, and the
    locals of [run_benchmarks] that live across iterations ([data] and
    [key] are unbound until an iteration assigns them). *)
Record st (world : Type) : Type := mkSt {
  w : world;
  trace : list event;
  y : list result_row;
  data : option string;
  key : option string
}.
Arguments mkSt {world}.
Arguments w {world}.
Arguments trace {world}.
Arguments y {world}.
Arguments data {world}.
Arguments key {world}.

(** *** Name resolution

    The names [run_benchmarks] assigns, the names the module binds, and
    the builtins the function mentions. *)
Definition local_names : list string :=
  ["model"; "imgsz"; "half"; "device"; "hard_fail"; "y"; "t0"; "i"; "name";
   "format"; "suffix"; "cpu"; "gpu"; "filename"; "export"; "data"; "key";
   "results"; "metric"; "speed"; "e"; "c"; "df"; "metrics"; "floor"].

Definition global_names : list string :=
  ["platform"; "time"; "Path"; "pd"; "torch"; "YOLO"; "export_formats";
   "LOGGER"; "SETTINGS"; "check_yolo"; "file_size"; "run_benchmarks"].

Definition builtin_names : list string :=
  ["int"; "str"; "round"; "type"; "isinstance"; "eval"; "all"; "map";
   "AssertionError"; "Exception"].

Inductive binding : Type := Local | Global | Builtin | Unbound.

Definition mem (x : string) (l : list string) : bool :=
  existsb (String.eqb x) l.

(** Local, then module, then builtin scope. *)
Definition resolve (x : string) : binding :=
  if mem x local_names then Local
  else if mem x global_names then Global
  else if mem x builtin_names then Builtin
  else Unbound.


(** *** The run *)

Section Run.

Context {world : Type}.
Variable L : library world.

Local Notation "'St'" := (st world).

(** A call into the library: recorded, then answered by the oracle. *)
Definition call {A} (ev : event) (f : world -> res A * world) : M St A :=
  fun s =>
    let (r, w') := f (w s) in
    (r, mkSt w' (trace s ++ [ev]) (y s) (data s) (key s)).

(** A line sent to [LOGGER]. *)
Definition log (ev : event) : M St unit :=
  fun s => (Ret tt, mkSt (w s) (trace s ++ [ev]) (y s) (data s) (key s)).

(** [y.append(row)]. *)
Definition append_row (row : result_row) : M St unit :=
  fun s => (Ret tt, mkSt (w s) (trace s) (y s ++ [row]) (data s) (key s)).

(** [data, key = d, k]. *)
Definition assign_data_key (d k : string) : M St unit :=
  fun s => (Ret tt, mkSt (w s) (trace s) (y s) (Some d) (Some k)).

Definition unbound (x : string) : exn :=
  mkExn UnboundLocalError
        ("local variable '" ++ x ++ "' referenced before assignment").

Definition read_data : M St string :=
  fun s => match data s with
           | Some d => (Ret d, s)
           | None => (Raise (unbound "data"), s)
           end.

Definition read_key : M St string :=
  fun s => match key s with
           | Some k => (Ret k, s)
           | None => (Raise (unbound "key"), s)
           end.

Definition read_y : M St (list result_row) :=
  fun s => (Ret (y s), s).

(** The body of the [try] for row [i] of the table (lines 51 to 78). *)
Definition attempt (m : model) (dev : torch_dev) (a : args)
    (i : nat) (r : format_row) : M St unit :=
  py_assert (negb ((i =? 9)%nat || (i =? 10)%nat))
            "inference not supported" ;;;
  py_assert (negb (i =? 5)%nat || (platform_system L =? "Darwin"))
            "inference only supported on macOS>=10.13" ;;;
  (if contains "cpu" (dev_type dev)
   then py_assert (cpu r) "inference not supported on CPU"
   else ret tt) ;;;
  (if contains "cuda" (dev_type dev)
   then py_assert (gpu r) "inference not supported on GPU"
   else ret tt) ;;;
  fe <- (if format r =? "-"
         then ret (ckpt_path m, m)
         else
           filename <- call (EvExport m (imgsz a) (format r) (half a) dev)
                         (model_export L m (imgsz a) (format r) (half a) dev) ;;
           export <- call (EvYOLO filename) (YOLO L filename) ;;
           ret (filename, export)) ;;
  let filename := fst fe in
  let export := snd fe in
  py_assert (contains (suffix r) filename) "export failed" ;;;
  (if task m =? "detect"
   then assign_data_key "coco128.yaml" "metrics/mAP50-95(B)"
   else if task m =? "segment"
   then assign_data_key "coco128-seg.yaml" "metrics/mAP50-95(M)"
   else if task m =? "classify"
   then assign_data_key "imagenet100" "metrics/accuracy_top5"
   else ret tt) ;;;
  d <- read_data ;;
  results <- call (EvVal export d (imgsz a) (half a) dev)
               (model_val L export d (imgsz a) (half a) dev) ;;
  k <- read_key ;;
  metric <- getitem (results_dict results) k ;;
  speed_ <- getitem (speed results) "inference" ;;
  size <- call (EvFileSize filename) (file_size L filename) ;;
  append_row (mkRow (name r) Passed
                    (Some (py_round L size 1))
                    (Some (py_round L metric 4))
                    (Some (py_round L speed_ 2))).

Definition failed_row (r : format_row) : result_row :=
  mkRow (name r) Failed None None None.

(** The [except Exception as e] clause (lines 80 to 83). *)
Definition handler (hf : hard_fail_arg) (r : format_row) (e : exn)
    : M St unit :=
  (if truthy hf
   then py_assert (is_AssertionError e)
                  ("Benchmark --hard-fail for " ++ name r ++ ": " ++ msg e)
   else ret tt) ;;;
  log (EvWarning (name r) (msg e)) ;;;
  append_row (failed_row r).

(** One turn of the [for] loop. *)
Definition iteration (m : model) (dev : torch_dev) (a : args)
    (i : nat) (r : format_row) : M St unit :=
  try_except_Exception (attempt m dev a i r) (handler (hard_fail a) r).

(** [iterrows()]: each row with its index, counted from 0. *)
Fixpoint iterrows_from (i : nat) (t : list format_row)
    : list (nat * format_row) :=
  match t with
  | [] => []
  | r :: rest => (i, r) :: iterrows_from (S i) rest
  end.

Definition iterrows (t : list format_row) : list (nat * format_row) :=
  iterrows_from 0 t.

Fixpoint loop (m : model) (dev : torch_dev) (a : args)
    (rows : list (nat * format_row)) : M St unit :=
  match rows with
  | [] => ret tt
  | (i, r) :: rest => iteration m dev a i r ;;; loop m dev a rest
  end.

(** *** The report (lines 86 to 92) *)

(** The truth value of a bare name used as the condition of a conditional
    expression.  A name no scope binds raises NameError; a builtin function
    or class is an object with neither [__bool__] nor [__len__], which is
    true.  No name the function or the module binds is used that way
    ([hard_fail] apart, which is [truthy]), so their values are not kept
    here and reading one is answered like an unbound name. *)
Definition name_condition (x : string) : M St bool :=
  match resolve x with
  | Builtin => ret true
  | Local | Global | Unbound =>
      raise (mkExn NameError ("name '" ++ x ++ "' is not defined"))
  end.

Definition opt_cell (o : option Q) : cell :=
  match o with
  | Some q => CNum q
  | None => CNull
  end.

Definition row_cells (r : result_row) : list cell :=
  [CStr (r_name r); CStr (mark (r_status r));
   opt_cell (r_size r); opt_cell (r_metric r); opt_cell (r_speed r)].

(** [pd.DataFrame(y, columns=c)]: the rows must be as wide as [c]. *)
Definition pd_DataFrame (rows_ : list result_row) (c : list string)
    : M St DataFrame :=
  if forallb (fun r => (length (row_cells r) =? length c)%nat) rows_
  then ret (mkDF c (map row_cells rows_))
  else raise (mkExn ValueError "4 columns passed, passed data had 5 columns").

(** [df.iloc[:, :n]]. *)
Definition iloc_cols (n : nat) (df : DataFrame) : DataFrame :=
  mkDF (firstn n (columns df)) (map (firstn n) (rows df)).

Definition full_columns (k : string) : list string :=
  ["Format"; "Status❔"; "Size (MB)"; k; "Inference time (ms/im)"].

Definition reduced_columns : list string :=
  ["Format"; "Export"; ""; ""].

Definition report (m : model) (dev : torch_dev) (a : args) : M St DataFrame :=
  log EvInfoBlank ;;;
  call (EvCheckYolo dev) (check_yolo L dev) ;;;
  full <- name_condition "map" ;;
  c <- (if full : bool
        then k <- read_key ;; ret (full_columns k)
        else ret reduced_columns) ;;
  rows_ <- read_y ;;
  df <- pd_DataFrame rows_ c ;;
  d <- read_data ;;
  log (EvInfoComplete (ckpt_path m) d (imgsz a)) ;;;
  full' <- name_condition "map" ;;
  log (EvInfoFrame (if full' : bool then df else iloc_cols 2 df)) ;;;
  ret df.

(** *** The floor (lines 94 to 97) *)

Fixpoint positions (k : string) (cols : list string) (j : nat) : list nat :=
  match cols with
  | [] => []
  | c :: rest =>
      if String.eqb c k then j :: positions k rest (S j)
      else positions k rest (S j)
  end.

(** [df[k].array]: the cells of the one column labelled [k]. *)
Definition df_getitem_array (df : DataFrame) (k : string)
    : M St (list cell) :=
  match positions k (columns df) 0 with
  | [] => raise (mkExn KeyError ("'" ++ k ++ "'"))
  | [j] => ret (map (fun r => nth j r CNull) (rows df))
  | _ => raise (mkExn (LibraryError "AttributeError")
                      "'DataFrame' object has no attribute 'array'")
  end.

(** [x > floor]. *)
Definition gt (x floor : Q) : bool := negb (Qle_bool x floor).

(** [all(x > floor for x in metrics if pd.notna(x))], stopping at the
    first metric that is not above the floor. *)
Fixpoint all_above (floor : Q) (metrics : list cell) : M St bool :=
  match metrics with
  | [] => ret true
  | CNull :: rest => all_above floor rest
  | CNum x :: rest => if gt x floor then all_above floor rest else ret false
  | CStr _ :: _ =>
      raise (mkExn (LibraryError "TypeError")
                   "'>' not supported between instances of 'str' and 'float'")
  end.

Definition floor_check (hf : hard_fail_arg) (df : DataFrame) : M St unit :=
  if truthy hf && is_str hf
  then match hf with
       | HFStr expr =>
           k <- read_key ;;
           metrics <- df_getitem_array df k ;;
           rows_ <- read_y ;;
           floor <- call (EvEval expr) (py_eval L expr rows_) ;;
           ok <- all_above floor metrics ;;
           py_assert ok ("HARD FAIL: metric < floor " ++ float_str L floor)
       | _ => ret tt
       end
  else ret tt.

(** *** run_benchmarks *)

(** [int(device) if device.isnumeric() else device]. *)
Definition device_of (d : string) : device_arg :=
  if isnumeric d then DevIndex (int d) else DevName d.

(** Lines 44 to 83: the device, the model and the loop. *)
Definition through_loop (a : args) : M St (model * torch_dev) :=
  dev <- call (EvTorchDevice (device_of (device a)))
           (torch_device L (device_of (device a))) ;;
  m <- call (EvYOLO (a_model a)) (YOLO L (a_model a)) ;;
  loop m dev a (iterrows (export_formats L)) ;;;
  ret (m, dev).

(** Lines 44 to 92: up to the line that prints the table. *)
Definition through_report (a : args) : M St DataFrame :=
  md <- through_loop a ;;
  report (fst md) (snd md) a.

Definition run_benchmarks_from (a : args) : M St unit :=
  df <- through_report a ;;
  floor_check (hard_fail a) df.

(** The function starts with [y = []] and with [data] and [key] unbound. *)
Definition start (w0 : world) : St := mkSt w0 [] [] None None.

Definition run_benchmarks (a : args) (w0 : world) : res unit * St :=
  run_benchmarks_from a (start w0).

(** *** Vocabulary of the properties *)

(** The rows the four leading assertions of the loop body turn down: index
    9 or 10, index 5 on a host that is not Darwin, a CPU device with the CPU
    flag off, a CUDA device with the GPU flag off. *)
Definition unsupported (dev : torch_dev) (i : nat) (r : format_row) : bool :=
  (i =? 9)%nat || (i =? 10)%nat
  || ((i =? 5)%nat && negb (platform_system L =? "Darwin"))
  || (contains "cpu" (dev_type dev) && negb (cpu r))
  || (contains "cuda" (dev_type dev) && negb (gpu r)).

(** The text of the first of these assertions that fails. *)
Definition unsupported_text (dev : torch_dev) (i : nat) (r : format_row)
    : string :=
  if (i =? 9)%nat || (i =? 10)%nat then "inference not supported"
  else if (i =? 5)%nat && negb (platform_system L =? "Darwin")
  then "inference only supported on macOS>=10.13"
  else if contains "cpu" (dev_type dev) && negb (cpu r)
  then "inference not supported on CPU"
  else "inference not supported on GPU".

End Run.

Definition metric_keys : list string :=
  ["metrics/mAP50-95(B)"; "metrics/mAP50-95(M)"; "metrics/accuracy_top5"].

(** [data] and [key] are assigned together, and [key] only ever holds one
    of the three metric names. *)
Definition bound_ok {world} (s : st world) : Prop :=
  (data s = None /\ key s = None)
  \/ (exists d k, data s = Some d /\ key s = Some k /\ In k metric_keys).

(** A row of a format that was exported and validated. *)
Definition measured_row (r : format_row) (row : result_row) : Prop :=
  exists size metric speed_,
    row = mkRow (name r) Passed (Some size) (Some metric) (Some speed_).

(** The row the loop leaves for a format: measured, or failed. *)
Definition recorded_for (r : format_row) (row : result_row) : Prop :=
  measured_row r row \/ row = failed_row r.

Definition all_null (row : result_row) : Prop :=
  r_size row = None /\ r_metric row = None /\ r_speed row = None.

(** [x] is the metric of a row of the results that has one. *)
Definition measured (rows_ : list result_row) (x : Q) : Prop :=
  exists row, In row rows_ /\ r_metric row = Some x.

(** No row of the results has a metric that is not above [floor]. *)
Definition all_measured_above (floor : Q) (rows_ : list result_row) : bool :=
  forallb (fun row => match r_metric row with
                      | Some x => gt x floor
                      | None => true
                      end) rows_.

(** The state after the handler of row [r] has caught [e] in state [s]. *)
Definition after_failure {world} (r : format_row) (e : exn) (s : st world)
    : st world :=
  mkSt (w s) (trace s ++ [EvWarning (name r) (msg e)])
       (y s ++ [failed_row r]) (data s) (key s).

(** *** Vocabulary of further properties *)

Definition is_warning (ev : event) : bool :=
  match ev with
  | EvWarning _ _ => true
  | _ => false
  end.

Definition is_export (ev : event) : bool :=
  match ev with
  | EvExport _ _ _ _ _ => true
  | _ => false
  end.

Definition is_val (ev : event) : bool :=
  match ev with
  | EvVal _ _ _ _ _ => true
  | _ => false
  end.

Definition is_failed (row : result_row) : bool :=
  match r_status row with
  | Failed => true
  | Passed => false
  end.

(** How many elements of a list satisfy a test. *)
Definition count {A} (f : A -> bool) (l : list A) : nat :=
  length (filter f l).

(** A format that has to be exported: every one but the '-' of PyTorch. *)
Definition exported (r : format_row) : bool := negb (format r =? "-").

(** The data set and the metric name lines 69 to 74 choose for a task. *)
Definition task_data_key (t : string) : option (string * string) :=
  if t =? "detect" then Some ("coco128.yaml", "metrics/mAP50-95(B)")
  else if t =? "segment" then Some ("coco128-seg.yaml", "metrics/mAP50-95(M)")
  else if t =? "classify" then Some ("imagenet100", "metrics/accuracy_top5")
  else None.

(** [data] and [key] are unbound, or are those of the task of [m]. *)
Definition task_ok {world} (m : model) (s : st world) : Prop :=
  (data s = None /\ key s = None)
  \/ (exists d k, task_data_key (task m) = Some (d, k)
                  /\ data s = Some d /\ key s = Some k).

(** Events that are neither a warning, nor an export, nor a validation. *)
Definition quiet (evs : list event) : Prop :=
  count is_warning evs = 0 /\ count is_export evs = 0
  /\ count is_val evs = 0.

(** What the loop does to the state, whichever way it ends: [n] rows of
    the table were recorded, all of them when it returns. *)
Definition loop_effect_from {world} (m : model)
    (rows_ : list (nat * format_row)) (n : nat) (s s' : st world) : Prop :=
  exists evs new,
    trace s' = trace s ++ evs /\ y s' = y s ++ new
    /\ Forall2 recorded_for (firstn n (map snd rows_)) new
    /\ count is_warning evs = count is_failed new
    /\ count is_export evs <= count exported (map snd rows_)
    /\ count is_val evs <= length rows_
    /\ task_ok m s'
    /\ (task_data_key (task m) = None ->
        new = map failed_row (firstn n (map snd rows_))).

(** The state in which the loop is entered. *)
Definition entered {world} (a : args) (w2 : world) : st world :=
  mkSt w2 [EvTorchDevice (device_of (device a)); EvYOLO (a_model a)]
       [] None None.

(** The warning the handler logs for an unsupported row. *)
Definition unsupported_warning {world} (L : library world)
    (dev : torch_dev) (ir : nat * format_row) : event :=
  EvWarning (name (snd ir)) (unsupported_text L dev (fst ir) (snd ir)).

(** The same arguments with another [hard_fail]. *)
Definition with_hard_fail (a : args) (hf : hard_fail_arg) : args :=
  mkArgs (a_model a) (imgsz a) (half a) (device a) hf.

(** The formats named by the warnings of a log, in order. *)
Definition warned (evs : list event) : list string :=
  flat_map (fun ev => match ev with
                      | EvWarning fmt_name _ => [fmt_name]
                      | _ => []
                      end) evs.

(** The format arguments of the export calls of a log, in order. *)
Definition exports (evs : list event) : list string :=
  flat_map (fun ev => match ev with
                      | EvExport _ _ fmt _ _ => [fmt]
                      | _ => []
                      end) evs.

(** The names of the rows of the results that are marked failed, in
    order. *)
Definition failed_names (rows_ : list result_row) : list string :=
  map r_name (filter is_failed rows_).

(** What the turn of the loop for row [r] may call: the exporter at most
    once, with the format argument of [r] and only if [r] has to be
    exported, and the validator at most once. *)
Definition turn_calls (r : format_row) (evs : list event) : Prop :=
  (exports evs = [] \/ (exported r = true /\ exports evs = [format r]))
  /\ count is_val evs <= 1.

(** What the turn of the loop for row [r] may log and record: the failed
    row of [r] with one warning, which names [r]; or no warning and either
    a measured row of [r] or no row. *)
Definition turn_record (r : format_row) (evs : list event)
    (new : list result_row) : Prop :=
  (new = [failed_row r] /\ warned evs = [name r])
  \/ (warned evs = []
      /\ (new = [] \/ exists row, new = [row] /\ measured_row r row)).

(** Lines 59 to 65 went through in state [s]: for the '-' of PyTorch the
    file is the checkpoint and the model itself is kept, nothing being
    called; for any other format the model was exported to [filename] and
    [export] was loaded from it.  [w1] is the world and [evs] the calls
    made. *)
Definition staged {world} (L : library world) (m : model) (dev : torch_dev)
    (a : args) (r : format_row) (s : st world) (filename : string)
    (export : model) (w1 : world) (evs : list event) : Prop :=
  ((format r =? "-") = true
   /\ filename = ckpt_path m /\ export = m /\ w1 = w s /\ evs = [])
  \/ ((format r =? "-") = false
      /\ exists w0,
           model_export L m (imgsz a) (format r) (half a) dev (w s)
           = (Ret filename, w0)
           /\ YOLO L filename w0 = (Ret export, w1)
           /\ evs = [EvExport m (imgsz a) (format r) (half a) dev;
                     EvYOLO filename]).

End Benchmarks.

(* ===================================================================== *)
(** ** yolo.py                                                            *)
(* ===================================================================== *)

Module Yolo.

(** *** argparse, for a parser that only has options

    [ArgumentParser(description=...)] comes with the help option [-h],
    [--help]; [add_argument('--x', default=d)] declares an option that stores
    the one string that follows it.  Parsing is the algorithm of CPython's
    argparse (3.8 to 3.11) restricted to such parsers: every token is first
    classified as an option ('O'), an argument ('A') or the first [--]
    ('-'), then the tokens are consumed from left to right.  [parser.error]
    and the help action leave through SystemExit, with status 2 and 0.  An
    attribute of the namespace holds a string, or the list [_get_values]
    makes when the one string it was given is [--]. *)

Inductive action : Type :=
| Help
| Store (dest : string).

Record option_decl : Type := mkOpt {
  option_strings : list string;
  act : action;
  default : option string
}.

Definition parser := list option_decl.

(** [_option_string_actions], in insertion order. *)
Definition option_string_actions (p : parser) : list (string * action) :=
  flat_map (fun d => map (fun o => (o, act d)) (option_strings d)) p.

Inductive arg_value : Type :=
| Str (s : string)
| StrList (l : list string).

Definition namespace := list (string * arg_value).

Fixpoint setattr (ns : namespace) (dest : string) (v : arg_value)
    : namespace :=
  match ns with
  | [] => [(dest, v)]
  | (d, v') :: rest =>
      if String.eqb d dest then (d, v) :: rest
      else (d, v') :: setattr rest dest v
  end.

(** The namespace before any token is read: every declared default, in
    the order of the declarations. *)
Definition defaults (p : parser) : namespace :=
  fold_left (fun ns d =>
               match act d, default d with
               | Store dest, Some v => setattr ns dest (Str v)
               | _, _ => ns
               end) p [].

Definition usage_error {A} (text : string) : res A :=
  Raise (mkExn SystemExit "2").

Definition help_exit {A} : res A :=
  Raise (mkExn SystemExit "0").

(** [s.split('=', 1)] when [s] has an [=]. *)
Fixpoint split_eq (s : string) : option (string * string) :=
  match s with
  | EmptyString => None
  | String c rest =>
      if Ascii.eqb c "="%char then Some (EmptyString, rest)
      else match split_eq rest with
           | Some (a, b) => Some (String c a, b)
           | None => None
           end
  end.

Fixpoint has_char (c : ascii) (s : string) : bool :=
  match s with
  | EmptyString => false
  | String c' rest => Ascii.eqb c c' || has_char c rest
  end.

Fixpoint digits_then_end (s : string) : bool :=
  match s with
  | EmptyString => true
  | String c rest =>
      if is_digit c then digits_then_end rest
      else Ascii.eqb c "010"%char && String.eqb rest ""
  end.

(** The body of a negative number after its sign: digits, or optional
    digits, a dot and digits ([$] also matches before a final newline). *)
Fixpoint number_body (seen_digit : bool) (s : string) : bool :=
  match s with
  | EmptyString => seen_digit
  | String c rest =>
      if is_digit c then number_body true rest
      else if Ascii.eqb c "."%char
      then match rest with
           | EmptyString => false
           | String c' _ => is_digit c' && digits_then_end rest
           end
      else seen_digit && Ascii.eqb c "010"%char && String.eqb rest ""
  end.

(** [_negative_number_matcher]: [^-\d+$|^-\d*\.\d+$]. *)
Definition negative_number (s : string) : bool :=
  match s with
  | String "-" rest => number_body false rest
  | _ => false
  end.

(** What an option token was read as: the action ([None] when the parser
    has no such option), the option string and the argument glued to it. *)
Definition option_tuple : Type := option action * string * option string.

(** [_get_option_tuples]: the interpretations of a token that is not an
    option string itself, by abbreviation ([--mo]) or as a short option
    with its argument attached. *)
Definition get_option_tuples (p : parser) (arg : string)
    : list option_tuple :=
  match arg with
  | String c0 (String c1 rest) =>
      if Ascii.eqb c0 "-"%char
      then
        if Ascii.eqb c1 "-"%char
        then
          let (option_prefix, explicit_arg) :=
            match split_eq arg with
            | Some (a, b) => (a, Some b)
            | None => (arg, None)
            end in
          flat_map (fun oa : string * action =>
                      if String.prefix option_prefix (fst oa)
                      then [(Some (snd oa), fst oa, explicit_arg)] else [])
                   (option_string_actions p)
        else
          let short_option_prefix := String c0 (String c1 EmptyString) in
          flat_map (fun oa : string * action =>
                      if String.eqb (fst oa) short_option_prefix
                      then [(Some (snd oa), fst oa, Some rest)]
                      else if String.prefix arg (fst oa)
                      then [(Some (snd oa), fst oa, None)] else [])
                   (option_string_actions p)
      else []
  | _ => []
  end.

(** [_parse_optional]: [None] for a positional argument. *)
Definition parse_optional (p : parser) (arg : string)
    : res (option option_tuple) :=
  match arg with
  | EmptyString => Ret None
  | String c rest =>
      if negb (Ascii.eqb c "-"%char) then Ret None
      else
        match lookup (option_string_actions p) arg with
        | Some a => Ret (Some (Some a, arg, None))
        | None =>
            if String.eqb rest "" then Ret None
            else
              let glued :=
                match split_eq arg with
                | Some (o, explicit_arg) =>
                    match lookup (option_string_actions p) o with
                    | Some a => Some (Some a, o, Some explicit_arg)
                    | None => None
                    end
                | None => None
                end in
              match glued with
              | Some t => Ret (Some t)
              | None =>
                  match get_option_tuples p arg with
                  | _ :: _ :: _ => usage_error "ambiguous option"
                  | [t] => Ret (Some t)
                  | [] =>
                      if negative_number arg then Ret None
                      else if has_char " "%char arg then Ret None
                      else Ret (Some (None, arg, None))
                  end
              end
        end
  end.

Inductive token : Type :=
| TArg (s : string)
| TDashDash
| TOpt (t : option_tuple).

(** The first pass: everything after the first [--] is an argument. *)
Fixpoint classify (p : parser) (argv : list string) : res (list token) :=
  match argv with
  | [] => Ret []
  | a :: rest =>
      if String.eqb a "--" then Ret (TDashDash :: map TArg rest)
      else
        match parse_optional p a with
        | Raise e => Raise e
        | Ret t =>
            match classify p rest with
            | Raise e => Raise e
            | Ret ts =>
                Ret (match t with
                     | None => TArg a
                     | Some ot => TOpt ot
                     end :: ts)
            end
        end
  end.

(** The help option with text glued to it: [-hh] is help twice, anything
    else is an error. *)
Fixpoint all_h (s : string) : bool :=
  match s with
  | EmptyString => true
  | String c rest => Ascii.eqb c "h"%char && all_h rest
  end.

(** [arg_strings.remove('--')], which does nothing when there is none. *)
Fixpoint remove_first (x : string) (l : list string) : list string :=
  match l with
  | [] => []
  | y :: rest => if String.eqb y x then rest else y :: remove_first x rest
  end.

(** [_get_values] for an action without [nargs] and without [type] or
    [choices]: the first [--] is dropped, one string left is the value,
    anything else is kept as a list. *)
Definition get_values (arg_strings : list string) : arg_value :=
  match remove_first "--" arg_strings with
  | [arg_string] => Str arg_string
  | vs => StrList vs
  end.

(** The second pass.  [extras] tells whether a token was left over: an
    argument no option took, the [--], or an option the parser does not
    have.  An option that stores a value takes the string glued to it, or
    else the next token, which has to be an argument: the pattern of an
    option's arguments has no place for the [--]. *)
Fixpoint consume (ts : list token) (ns : namespace) (extras : bool)
    : res namespace :=
  match ts with
  | [] => if extras then usage_error "unrecognized arguments" else Ret ns
  | TArg _ :: rest => consume rest ns true
  | TDashDash :: rest => consume rest ns true
  | TOpt (None, _, _) :: rest => consume rest ns true
  | TOpt (Some Help, o, None) :: _ => help_exit
  | TOpt (Some Help, o, Some explicit_arg) :: _ =>
      if String.eqb o "-h" && negb (String.eqb explicit_arg "")
         && all_h explicit_arg
      then help_exit
      else usage_error "ignored explicit argument"
  | TOpt (Some (Store dest), _, Some explicit_arg) :: rest =>
      consume rest (setattr ns dest (get_values [explicit_arg])) extras
  | TOpt (Some (Store dest), _, None) :: rest =>
      match rest with
      | TArg v :: rest' =>
          consume rest' (setattr ns dest (get_values [v])) extras
      | _ => usage_error "expected one argument"
      end
  end.

(** [parser.parse_args(argv)]. *)
Definition parse (p : parser) (argv : list string) : res namespace :=
  match classify p argv with
  | Raise e => Raise e
  | Ret ts => consume ts (defaults p) false
  end.

(** *** The script *)

(** The parser [parse_args] builds (lines 11 to 13). *)
Definition yolo_parser : parser :=
  [ mkOpt ["-h"; "--help"] Help None;
    mkOpt ["--mode"] (Store "mode") (Some "train");
    mkOpt ["--cfg"] (Store "cfg") (Some "cfg.yaml") ].

(** The two attributes the script reads from the parsed namespace. *)
Record cli_args : Type := mkCli { mode : arg_value; cfg : arg_value }.

Definition getattr (ns : namespace) (x : string) : res arg_value :=
  match lookup ns x with
  | Some v => Ret v
  | None => Raise (mkExn (LibraryError "AttributeError")
                         ("'Namespace' object has no attribute '" ++ x ++ "'"))
  end.

Definition parse_args (argv : list string) : res cli_args :=
  match parse yolo_parser argv with
  | Raise e => Raise e
  | Ret ns =>
      match getattr ns "mode", getattr ns "cfg" with
      | Ret m, Ret c => Ret (mkCli m c)
      | Raise e, _ => Raise e
      | _, Raise e => Raise e
      end
  end.

(** [v == s] for a string literal [s]: a list is equal to no string. *)
Definition is_str (v : arg_value) (s : string) : bool :=
  match v with
  | Str t => String.eqb t s
  | StrList _ => false
  end.

(** A scalar of the YAML file. *)
Inductive yaml : Type :=
| YNull
| YBool (b : bool)
| YInt (z : Z)
| YStr (s : string).

(** The four operations of the model object. *)
Inductive operation : Type := Train | Predict | Val | Export.

Inductive event : Type :=
| EvCheckYaml (file : arg_value)
| EvYamlLoad (file : string) (append_filename : bool)
| EvYOLO (model_file : yaml)
| EvOp (op : operation) (cfg : arg_value).

Definition is_op (ev : event) : bool :=
  match ev with
  | EvOp _ _ => true
  | _ => false
  end.

(** The external library, over a state [world] of its own and with model
    objects of a type [model]. *)
Record library (world model : Type) : Type := mkLibrary {
  check_yaml : arg_value -> world -> res string * world;
  yaml_load : string -> bool -> world -> res (list (string * yaml)) * world;
  YOLO : yaml -> world -> res model * world;
  run_op : operation -> model -> arg_value -> world -> res unit * world
}.
Arguments check_yaml {world model}.
Arguments yaml_load {world model}.
Arguments YOLO {world model}.
Arguments run_op {world model}.

Record st (world : Type) : Type := mkSt {
  w : world;
  trace : list event
}.
Arguments mkSt {world}.
Arguments w {world}.
Arguments trace {world}.

Section Script.

Context {world model : Type}.
Variable L : library world model.

Local Notation "'St'" := (st world).

Definition call {A} (ev : event) (f : world -> res A * world) : M St A :=
  fun s => let (r, w') := f (w s) in (r, mkSt w' (trace s ++ [ev])).

Definition lift {A} (r : res A) : M St A := fun s => (r, s).

(** Lines 19 to 24: everything before the dispatch. *)
Definition setup (args : cli_args) : M St model :=
  let m_cfg := cfg args in
  file <- call (EvCheckYaml m_cfg) (check_yaml L m_cfg) ;;
  m_overrides <- call (EvYamlLoad file true) (yaml_load L file true) ;;
  m_model_file <- getitem m_overrides "model" ;;
  call (EvYOLO m_model_file) (YOLO L m_model_file).

Definition invoke (op : operation) (m : model) (m_cfg : arg_value)
    : M St unit :=
  call (EvOp op m_cfg) (run_op L op m m_cfg).

(** Lines 26 to 33: the four-way branch on the mode. *)
Definition dispatch (m : model) (args : cli_args) : M St unit :=
  let m_cfg := cfg args in
  let m_mode := mode args in
  if is_str m_mode "train" then invoke Train m m_cfg
  else if is_str m_mode "predict" then invoke Predict m m_cfg
  else if is_str m_mode "val" then invoke Val m m_cfg
  else if is_str m_mode "export" then invoke Export m m_cfg
  else ret tt.

Definition script (args : cli_args) : M St unit :=
  m <- setup args ;;
  dispatch m args.

(** The [__main__] block, run on the command line [argv]. *)
Definition main (argv : list string) (w0 : world) : res unit * St :=
  (args <- lift (parse_args argv) ;; script args) (mkSt w0 []).

End Script.

(** *** Vocabulary of the properties *)

(** A mode that is none of the four the dispatch compares with. *)
Definition unrecognized (m : arg_value) : bool :=
  negb (is_str m "train") && negb (is_str m "predict")
  && negb (is_str m "val") && negb (is_str m "export").

(** A value that does not begin with a dash. *)
Definition plain (v : string) : bool :=
  match v with
  | EmptyString => true
  | String c _ => negb (Ascii.eqb c "-"%char)
  end.

(** The token was read as the option that stores [dest]. *)
Definition stores (dest : string) (t : token) : bool :=
  match t with
  | TOpt (Some (Store d), _, _) => String.eqb d dest
  | _ => false
  end.

(** The token was read as [--mode] or as [--cfg], whatever its spelling, or
    was not read as an option at all. *)
Definition mode_or_cfg (t : token) : Prop :=
  match t with
  | TOpt (a, o, _) =>
      (a = Some (Store "mode") /\ o = "--mode")
      \/ (a = Some (Store "cfg") /\ o = "--cfg")
  | TArg _ | TDashDash => True
  end.

(** A token the second pass can get past: an option that stores a value,
    or an argument. *)
Definition store_or_arg (t : token) : Prop :=
  match t with
  | TOpt (Some (Store _), _, _) | TArg _ | TDashDash => True
  | TOpt _ => False
  end.

(** The destinations of the options of a parser that store a value. *)
Fixpoint store_dests (p : parser) : list string :=
  match p with
  | [] => []
  | d :: rest =>
      match act d with
      | Store dest => dest :: store_dests rest
      | Help => store_dests rest
      end
  end.

(** The operation each of the four modes stands for. *)
Definition operation_of (m : arg_value) : option operation :=
  if is_str m "train" then Some Train
  else if is_str m "predict" then Some Predict
  else if is_str m "val" then Some Val
  else if is_str m "export" then Some Export
  else None.

(** Leaving through SystemExit with status 0 or 2. *)
Definition is_exit (e : exn) : Prop :=
  e = mkExn SystemExit "0" \/ e = mkExn SystemExit "2".

Definition has_key (ns : namespace) (x : string) : Prop :=
  lookup ns x <> None.

End Yolo.

(* ===================================================================== *)
(** ** Sample hosts and libraries                                         *)
(* ===================================================================== *)

(** Concrete tables and oracles on which the scripts can be run.  The world
    of a sample library is the number of calls it has answered. *)

Module Samples.

Import Benchmarks.

(** The twelve formats of the module docstring, in its order, so that
    index 5 is CoreML, 9 is Edge TPU and 10 is TensorFlow.js. *)
Definition docstring_formats : list format_row :=
  [ mkFormat "PyTorch" "-" ".pt" true true;
    mkFormat "TorchScript" "torchscript" ".torchscript" true true;
    mkFormat "ONNX" "onnx" ".onnx" true true;
    mkFormat "OpenVINO" "openvino" "_openvino_model" true false;
    mkFormat "TensorRT" "engine" ".engine" false true;
    mkFormat "CoreML" "coreml" ".mlmodel" true false;
    mkFormat "TensorFlow SavedModel" "saved_model" "_saved_model" true true;
    mkFormat "TensorFlow GraphDef" "pb" ".pb" true true;
    mkFormat "TensorFlow Lite" "tflite" ".tflite" true false;
    mkFormat "TensorFlow Edge TPU" "edgetpu" "_edgetpu.tflite" false false;
    mkFormat "TensorFlow.js" "tfjs" "_web_model" false false;
    mkFormat "PaddlePaddle" "paddle" "_paddle_model" true true ].

Definition two_formats : list format_row :=
  [ mkFormat "PyTorch" "-" ".pt" true true;
    mkFormat "ONNX" "onnx" ".onnx" true true ].

(** A library on a host [system] with the table [table]: exporting to
    [fmt] answers [export_outcome fmt], validating answers [val_outcome],
    and the floor expression evaluates to [floor]. *)
Definition sample_library (system : string) (table : list format_row)
    (export_outcome : string -> res string)
    (val_outcome : res val_results) (floor : Q) : library nat :=
  mkLibrary nat table system
    (fun d n =>
       (Ret (match d with
             | DevIndex i => mkDev "cuda" (Some i)
             | DevName s => mkDev s None
             end), S n))
    (fun path n => (Ret (mkModel "detect" path n), S n))
    (fun _ _ fmt _ _ n => (export_outcome fmt, S n))
    (fun _ _ _ _ _ n => (val_outcome, S n))
    (fun _ n => (Ret (6 # 1)%Q, S n))
    (fun q _ => q)
    (fun _ => "floor")
    (fun _ n => (Ret tt, S n))
    (fun _ _ n => (Ret floor, S n)).

Definition export_ok (fmt : string) : res string :=
  Ret ("yolov8n." ++ fmt)%string.

Definition export_raises (c : exn_class) (fmt : string) : res string :=
  Raise (mkExn c "export stopped").

Definition val_ok (metric : Q) : res val_results :=
  Ret (mkVal [("metrics/mAP50-95(B)", metric)] [("inference", (12 # 1)%Q)]).

Definition sample_args (hf : hard_fail_arg) : args :=
  mkArgs "yolov8n.pt" 160 false "cpu" hf.

Definition sample_model : model := mkModel "detect" "yolov8n.pt" 1.

Definition cpu_dev : torch_dev := mkDev "cpu" None.

(** Two formats, both measured at 1/2, with a floor of 3/10. *)
Definition good_library : library nat :=
  sample_library "Linux" two_formats export_ok (val_ok (1 # 2)%Q) (3 # 10)%Q.

(** Two formats, both measured at 1/5, with a floor of 3/10. *)
Definition low_library : library nat :=
  sample_library "Linux" two_formats export_ok (val_ok (1 # 5)%Q) (3 # 10)%Q.

(** The export is interrupted from the keyboard. *)
Definition interrupted_library : library nat :=
  sample_library "Linux" two_formats (export_raises KeyboardInterrupt)
                 (val_ok (1 # 2)%Q) (3 # 10)%Q.

(** Every export fails with a RuntimeError, on the twelve formats. *)
Definition broken_library : library nat :=
  sample_library "Linux" docstring_formats
                 (export_raises (LibraryError "RuntimeError"))
                 (val_ok (1 # 2)%Q) (3 # 10)%Q.

Definition onnx_row : format_row := mkFormat "ONNX" "onnx" ".onnx" true true.

Definition edge_tpu_row : format_row :=
  mkFormat "TensorFlow Edge TPU" "edgetpu" "_edgetpu.tflite" false false.

(** The table and the state of [low_library] once the report of a run with
    the floor expression "0.3" is printed. *)
Definition low_args : args := sample_args (HFStr "0.3").

Definition low_df : DataFrame :=
  Eval vm_compute in
    match fst (through_report low_library low_args (start 0)) with
    | Ret df => df
    | Raise _ => mkDF [] []
    end.

Definition low_state : st nat :=
  Eval vm_compute in snd (through_report low_library low_args (start 0)).

(** The same for [good_library]. *)
Definition good_df : DataFrame :=
  Eval vm_compute in
    match fst (through_report good_library low_args (start 0)) with
    | Ret df => df
    | Raise _ => mkDF [] []
    end.

Definition good_state : st nat :=
  Eval vm_compute in snd (through_report good_library low_args (start 0)).

(** The state in which the export of [broken_library] has failed. *)
Definition broken_state : st nat :=
  Eval vm_compute in
    snd (attempt broken_library sample_model cpu_dev
           (sample_args (HFBool true)) 2 onnx_row (start 0)).

(** The state in which the export of [interrupted_library] has stopped. *)
Definition interrupted_state : st nat :=
  Eval vm_compute in
    snd (attempt interrupted_library sample_model cpu_dev
           (sample_args (HFBool false)) 1 onnx_row (start 0)).

(** The state in which [broken_library] leaves the loop when [hard_fail]
    is off, with the model and device of that run. *)
Definition broken_loop_state : st nat :=
  Eval vm_compute in
    snd (through_loop broken_library (sample_args (HFBool false)) (start 0)).

Definition broken_model : model := mkModel "detect" "yolov8n.pt" 1.

(** The state of [good_library] when the loop is done. *)
Definition good_loop_state : st nat :=
  Eval vm_compute in
    snd (through_loop good_library low_args (start 0)).

(** A library whose model has the task [task_], whose [torch.device]
    fails unless [device_ok], and whose [eval] answers [eval_outcome]. *)
Definition custom_library (table : list format_row) (task_ : string)
    (device_ok : bool) (export_outcome : string -> res string)
    (val_outcome : res val_results) (eval_outcome : res Q) : library nat :=
  mkLibrary nat table "Linux"
    (fun d n =>
       (if device_ok
        then Ret (match d with
                  | DevIndex i => mkDev "cuda" (Some i)
                  | DevName s => mkDev s None
                  end)
        else Raise (mkExn (LibraryError "RuntimeError")
                          "Invalid device string"), S n))
    (fun path n => (Ret (mkModel task_ path n), S n))
    (fun _ _ fmt _ _ n => (export_outcome fmt, S n))
    (fun _ _ _ _ _ n => (val_outcome, S n))
    (fun _ n => (Ret (6 # 1)%Q, S n))
    (fun q _ => q)
    (fun _ => "floor")
    (fun _ n => (Ret tt, S n))
    (fun _ _ n => (eval_outcome, S n)).

Definition pytorch_row : format_row := mkFormat "PyTorch" "-" ".pt" true true.

Definition tensorrt_row : format_row :=
  mkFormat "TensorRT" "engine" ".engine" false true.

(** A model of a task the script does not know. *)
Definition pose_library : library nat :=
  custom_library two_formats "pose" true export_ok (val_ok (1 # 2)%Q)
                 (Ret (3 # 10)%Q).

Definition pose_model : model := mkModel "pose" "yolov8n.pt" 1.

(** A table with one format, for GPUs only. *)
Definition gpu_only_library : library nat :=
  custom_library [tensorrt_row] "detect" true export_ok (val_ok (1 # 2)%Q)
                 (Ret (3 # 10)%Q).

(** An exporter that names its files without the suffix. *)
Definition misnamed_library : library nat :=
  custom_library two_formats "detect" true (fun _ => Ret "model.bin")
                 (val_ok (1 # 2)%Q) (Ret (3 # 10)%Q).

(** A validator that reports no metric. *)
Definition no_metric_results : val_results :=
  mkVal [] [("inference", (12 # 1)%Q)].

Definition no_metric_library : library nat :=
  custom_library two_formats "detect" true export_ok (Ret no_metric_results)
                 (Ret (3 # 10)%Q).

(** A host on which the device cannot be made. *)
Definition no_device_library : library nat :=
  custom_library two_formats "detect" false export_ok (val_ok (1 # 2)%Q)
                 (Ret (3 # 10)%Q).

(** A validator that refuses every model with an assertion. *)
Definition refusing_library : library nat :=
  custom_library two_formats "detect" true export_ok
                 (Raise (mkExn AssertionError "dataset not found"))
                 (Ret (3 # 10)%Q).

Definition refusing_df : DataFrame :=
  Eval vm_compute in
    match fst (through_report refusing_library low_args (start 0)) with
    | Ret df => df
    | Raise _ => mkDF [] []
    end.

Definition refusing_state : st nat :=
  Eval vm_compute in snd (through_report refusing_library low_args (start 0)).

(** A floor expression that does not parse. *)
Definition bad_floor_library : library nat :=
  custom_library two_formats "detect" true export_ok (val_ok (1 # 2)%Q)
                 (Raise (mkExn (LibraryError "SyntaxError") "invalid syntax")).

Definition bad_floor_df : DataFrame :=
  Eval vm_compute in
    match fst (through_report bad_floor_library low_args (start 0)) with
    | Ret df => df
    | Raise _ => mkDF [] []
    end.

Definition bad_floor_state : st nat :=
  Eval vm_compute in snd (through_report bad_floor_library low_args (start 0)).

Definition good_results : val_results :=
  mkVal [("metrics/mAP50-95(B)", (1 # 2)%Q)] [("inference", (12 # 1)%Q)].

(** A [check_yaml] that finds every file where it is said to be, and
    raises on a path that is not a string. *)
Definition found (file : Yolo.arg_value) (n : nat) : res string * nat :=
  match file with
  | Yolo.Str f => (Ret f, S n)
  | Yolo.StrList _ =>
      (Raise (mkExn (LibraryError "TypeError") "expected str"), S n)
  end.

(** A library for [yolo.py]: the configuration file names the model,
    and every operation succeeds. *)
Definition yolo_library : Yolo.library nat nat :=
  Yolo.mkLibrary nat nat
    found
    (fun file _ n =>
       (Ret [("model", Yolo.YStr "yolov8n.pt");
             ("yaml_file", Yolo.YStr file)], S n))
    (fun _ n => (Ret n, S n))
    (fun _ _ _ n => (Ret tt, S n)).

(** A library for [yolo.py] whose configuration has no 'model' entry. *)
Definition empty_cfg_library : Yolo.library nat nat :=
  Yolo.mkLibrary nat nat
    found
    (fun _ _ n => (Ret [("task", Yolo.YStr "detect")], S n))
    (fun _ n => (Ret n, S n))
    (fun _ _ _ n => (Ret tt, S n)).

Definition is_eval (ev : event) : bool :=
  match ev with
  | EvEval _ => true
  | _ => false
  end.

End Samples.

(* ===================================================================== *)
(** ** Reasoning about statements                                         *)
(* ===================================================================== *)

Section WpRules.

Context {St : Type}.

Lemma wp_ret {A} (a : A) (Qr : A -> St -> Prop) Qe s :
  Qr a s -> wp (ret a) Qr Qe s.
Proof. intro H. exact H. Qed.

Lemma wp_raise {A} e (Qr : A -> St -> Prop) (Qe : exn -> St -> Prop) s :
  Qe e s -> wp (raise e) Qr Qe s.
Proof. intro H. exact H. Qed.

Lemma wp_bind {A B} (m : M St A) (k : A -> M St B) Qr Qe s :
  wp m (fun a s' => wp (k a) Qr Qe s') Qe s -> wp (bind m k) Qr Qe s.
Proof.
  unfold wp, bind. destruct (m s) as [[a | e] s']; intro H; exact H.
Qed.

Lemma wp_assert (c : bool) text (Qr : unit -> St -> Prop) Qe s :
  (c = true -> Qr tt s) ->
  (c = false -> Qe (mkExn AssertionError text) s) ->
  wp (py_assert c text) Qr Qe s.
Proof.
  intros Ht Hf. unfold py_assert. destruct c; [apply Ht | apply Hf]; reflexivity.
Qed.

Lemma wp_getitem {V} (d : list (string * V)) k (Qr : V -> St -> Prop) Qe s :
  (forall v, lookup d k = Some v -> Qr v s) ->
  (lookup d k = None -> Qe (mkExn KeyError ("'" ++ k ++ "'")) s) ->
  wp (getitem d k) Qr Qe s.
Proof.
  intros Hs Hn. unfold getitem.
  destruct (lookup d k) as [v |]; [apply Hs | apply Hn]; reflexivity.
Qed.

End WpRules.

(* ===================================================================== *)
(** ** Properties of the benchmark harness                                *)
(* ===================================================================== *)

Module BenchmarksFacts.

Import Benchmarks.

Section Facts.

Context {world : Type}.
Variable L : library world.

Local Notation "'St'" := (st world).

Lemma wp_call {A} ev (f : world -> res A * world)
    (Qr : A -> St -> Prop) (Qe : exn -> St -> Prop) (s : St) :
  (forall a w', f (w s) = (Ret a, w') ->
     Qr a (mkSt w' (trace s ++ [ev]) (y s) (data s) (key s))) ->
  (forall e w', f (w s) = (Raise e, w') ->
     Qe e (mkSt w' (trace s ++ [ev]) (y s) (data s) (key s))) ->
  wp (call ev f) Qr Qe s.
Proof.
  intros Hr He. unfold wp, call.
  destruct (f (w s)) as [[a | e] w'] eqn:E; [apply Hr | apply He]; reflexivity.
Qed.

Lemma wp_log ev (Qr : unit -> St -> Prop) (Qe : exn -> St -> Prop) (s : St) :
  Qr tt (mkSt (w s) (trace s ++ [ev]) (y s) (data s) (key s)) ->
  wp (log ev) Qr Qe s.
Proof. intro H. exact H. Qed.

Lemma wp_append_row row (Qr : unit -> St -> Prop) (Qe : exn -> St -> Prop)
    (s : St) :
  Qr tt (mkSt (w s) (trace s) (y s ++ [row]) (data s) (key s)) ->
  wp (append_row row) Qr Qe s.
Proof. intro H. exact H. Qed.

Lemma wp_assign_data_key d k (Qr : unit -> St -> Prop)
    (Qe : exn -> St -> Prop) (s : St) :
  Qr tt (mkSt (w s) (trace s) (y s) (Some d) (Some k)) ->
  wp (assign_data_key d k) Qr Qe s.
Proof. intro H. exact H. Qed.

Lemma wp_read_data (Qr : string -> St -> Prop) (Qe : exn -> St -> Prop)
    (s : St) :
  (forall d, data s = Some d -> Qr d s) ->
  (data s = None -> Qe (unbound "data") s) ->
  wp read_data Qr Qe s.
Proof.
  intros Hs Hn. unfold wp, read_data.
  destruct (data s) as [d |]; [apply Hs | apply Hn]; reflexivity.
Qed.

Lemma wp_read_key (Qr : string -> St -> Prop) (Qe : exn -> St -> Prop)
    (s : St) :
  (forall k, key s = Some k -> Qr k s) ->
  (key s = None -> Qe (unbound "key") s) ->
  wp read_key Qr Qe s.
Proof.
  intros Hs Hn. unfold wp, read_key.
  destruct (key s) as [k |]; [apply Hs | apply Hn]; reflexivity.
Qed.

Lemma wp_read_y (Qr : list result_row -> St -> Prop)
    (Qe : exn -> St -> Prop) (s : St) :
  Qr (y s) s -> wp read_y Qr Qe s.
Proof. intro H. exact H. Qed.

(** One step of a statement, leaving the conditions on the state it
    reaches. *)
Ltac wp_step :=
  cbn [w trace y data key fst snd];
  lazymatch goal with
  | |- wp (bind _ _) _ _ _ => apply wp_bind
  | |- wp (ret _) _ _ _ => apply wp_ret
  | |- wp (raise _) _ _ _ => apply wp_raise
  | |- wp (py_assert _ _) _ _ _ => apply wp_assert; intro
  | |- wp (getitem _ _) _ _ _ => apply wp_getitem; intros
  | |- wp (call _ _) _ _ _ => apply wp_call; intros
  | |- wp (log _) _ _ _ => apply wp_log
  | |- wp (append_row _) _ _ _ => apply wp_append_row
  | |- wp (assign_data_key _ _) _ _ _ => apply wp_assign_data_key
  | |- wp read_data _ _ _ => apply wp_read_data; intros
  | |- wp read_key _ _ _ => apply wp_read_key; intros
  | |- wp read_y _ _ _ => apply wp_read_y
  | |- wp (if ?c then _ else _) _ _ _ => destruct c eqn:?
  | |- wp (let _ := _ in _) _ _ _ => cbv zeta
  end.

Lemma bound_ok_assign (w' : world) t' y' d k :
  In k metric_keys -> bound_ok (mkSt w' t' y' (Some d) (Some k)).
Proof. intro H. right. exists d, k. auto. Qed.

(** The body of the [try]: when it returns it has appended one measured
    row, when it raises it has appended nothing. *)
Lemma attempt_rows m dev a i r (s : St) :
  bound_ok s ->
  wp (attempt L m dev a i r)
     (fun _ s' => bound_ok s' /\ exists row, measured_row r row /\ y s' = y s ++ [row])
     (fun _ s' => bound_ok s' /\ y s' = y s) s.
Proof.
  intro Hb. unfold attempt.
  repeat wp_step.
  all: cbn [w trace y data key fst snd].
  all: try (split; [first [exact Hb | apply bound_ok_assign; simpl; tauto] | try reflexivity]).
  all: try (eexists; split; [eexists _, _, _; reflexivity | reflexivity]).
Qed.

(** A row the leading assertions turn down: the first failing assertion
    raises before anything is exported, validated or assigned. *)
Lemma attempt_unsupported m dev a i r (s : St) :
  unsupported L dev i r = true ->
  attempt L m dev a i r s
  = (Raise (mkExn AssertionError (unsupported_text L dev i r)), s).
Proof.
  unfold unsupported, unsupported_text, attempt. intro H.
  destruct (i =? 9)%nat, (i =? 10)%nat, (i =? 5)%nat,
           (platform_system L =? "Darwin"),
           (contains "cpu" (dev_type dev)), (cpu r),
           (contains "cuda" (dev_type dev)), (gpu r);
    simpl in H; try discriminate H; reflexivity.
Qed.

(** The four ways a turn of the loop can go. *)
Lemma iteration_ret m dev a i r (s s' : St) :
  attempt L m dev a i r s = (Ret tt, s') ->
  iteration L m dev a i r s = (Ret tt, s').
Proof.
  intro E. unfold iteration, try_except_Exception. rewrite E. reflexivity.
Qed.

Lemma iteration_caught m dev a i r (s s' : St) e :
  attempt L m dev a i r s = (Raise e, s') ->
  is_Exception e = true ->
  truthy (hard_fail a) = false \/ is_AssertionError e = true ->
  iteration L m dev a i r s = (Ret tt, after_failure r e s').
Proof.
  intros E He H. unfold iteration, try_except_Exception. rewrite E, He.
  unfold handler.
  destruct (truthy (hard_fail a)); destruct (is_AssertionError e);
    try reflexivity; destruct H; discriminate.
Qed.

Lemma iteration_escalated m dev a i r (s s' : St) e :
  attempt L m dev a i r s = (Raise e, s') ->
  is_Exception e = true ->
  truthy (hard_fail a) = true ->
  is_AssertionError e = false ->
  iteration L m dev a i r s
  = (Raise (mkExn AssertionError
              ("Benchmark --hard-fail for " ++ name r ++ ": " ++ msg e)), s').
Proof.
  intros E He Ht Ha. unfold iteration, try_except_Exception. rewrite E, He.
  unfold handler. rewrite Ht, Ha. reflexivity.
Qed.

Lemma iteration_uncaught m dev a i r (s s' : St) e :
  attempt L m dev a i r s = (Raise e, s') ->
  is_Exception e = false ->
  iteration L m dev a i r s = (Raise e, s').
Proof.
  intros E He. unfold iteration, try_except_Exception. rewrite E, He.
  reflexivity.
Qed.

Lemma loop_cons m dev a i r rest (s : St) :
  loop L m dev a ((i, r) :: rest) s
  = match iteration L m dev a i r s with
    | (Ret _, s') => loop L m dev a rest s'
    | (Raise e, s') => (Raise e, s')
    end.
Proof. reflexivity. Qed.

(** A turn of the loop that returns has appended the row of its format. *)
Lemma iteration_rows m dev a i r (s : St) :
  bound_ok s ->
  wp (iteration L m dev a i r)
     (fun _ s' => bound_ok s' /\ exists row, recorded_for r row /\ y s' = y s ++ [row])
     (fun _ _ => True) s.
Proof.
  intro Hb. pose proof (attempt_rows m dev a i r s Hb) as H.
  unfold wp in *. destruct (attempt L m dev a i r s) as [[[] | e] s1] eqn:E.
  - rewrite (iteration_ret _ _ _ _ _ _ _ E).
    destruct H as [Hb1 [row [Hm Hy]]]. split; [exact Hb1 |].
    exists row. split; [left; exact Hm | exact Hy].
  - destruct H as [Hb1 Hy].
    unfold iteration, try_except_Exception. rewrite E.
    destruct (is_Exception e); [| exact I].
    unfold handler.
    destruct (truthy (hard_fail a)); destruct (is_AssertionError e); cbn;
      try exact I.
    all: split; [exact Hb1 |];
      exists (failed_row r); split; [right; reflexivity | rewrite Hy; reflexivity].
Qed.

Lemma loop_rows m dev a rows_ : forall (s s' : St),
  bound_ok s ->
  loop L m dev a rows_ s = (Ret tt, s') ->
  bound_ok s' /\
  exists new, y s' = y s ++ new /\ Forall2 recorded_for (map snd rows_) new.
Proof.
  induction rows_ as [| [i r] rest IH]; intros s s' Hb E.
  - cbn in E. injection E as <-. split; [exact Hb |].
    exists []. split; [symmetry; apply app_nil_r | constructor].
  - rewrite loop_cons in E.
    pose proof (iteration_rows m dev a i r s Hb) as H. unfold wp in H.
    destruct (iteration L m dev a i r s) as [[[] | e] s1]; [| discriminate E].
    destruct H as [Hb1 [row [Hrow Hy1]]].
    destruct (IH s1 s' Hb1 E) as [Hb' [new [Hy' HF]]].
    split; [exact Hb' |].
    exists (row :: new). split.
    + rewrite Hy', Hy1, <- app_assoc. reflexivity.
    + cbn. constructor; assumption.
Qed.

Lemma iterrows_from_snd t : forall i, map snd (iterrows_from i t) = t.
Proof.
  induction t as [| r rest IH]; intro i; cbn; [reflexivity |].
  rewrite IH. reflexivity.
Qed.

(** The state in which the loop is left. *)
Lemma through_loop_rows a (w0 : world) md (s' : St) :
  through_loop L a (start w0) = (Ret md, s') ->
  bound_ok s' /\ Forall2 recorded_for (export_formats L) (y s').
Proof.
  intro H. unfold through_loop, bind, call in H.
  cbn [w trace y data key start] in H.
  destruct (torch_device L (device_of (device a)) w0) as [[dev | e] w1];
    cbn [w trace y data key] in H; [| discriminate H].
  destruct (YOLO L (a_model a) w1) as [[m | e] w2];
    cbn [w trace y data key] in H; [| discriminate H].
  destruct (loop L m dev a (iterrows (export_formats L)) _) as [[[] | e] s1] eqn:E;
    [| discriminate H].
  unfold ret in H. injection H as _ <-.
  apply loop_rows in E; [| left; split; reflexivity].
  destruct E as [Hb [new [Hy HF]]]. cbn in Hy. subst new.
  unfold iterrows in HF. rewrite iterrows_from_snd in HF. auto.
Qed.

(** *** The report and the floor *)

Lemma bind_ret_inv {S A B} (m : M S A) (k : A -> M S B) s b s' :
  bind m k s = (Ret b, s') ->
  exists a s0, m s = (Ret a, s0) /\ k a s0 = (Ret b, s').
Proof.
  unfold bind. destruct (m s) as [[a | e] s0]; intro H; [| discriminate H].
  exists a, s0. split; [reflexivity | exact H].
Qed.

Lemma name_condition_map (s : St) : name_condition "map" s = (Ret true, s).
Proof. reflexivity. Qed.

Lemma pd_DataFrame_full rows_ k (s : St) :
  pd_DataFrame rows_ (full_columns k) s
  = (Ret (mkDF (full_columns k) (map row_cells rows_)), s).
Proof.
  unfold pd_DataFrame.
  replace (forallb _ rows_) with true; [reflexivity |].
  symmetry. apply forallb_forall. intros r _. reflexivity.
Qed.

(** A report that was printed: [key] and [data] were bound, the frame has
    the five full columns, and its printing is the last of four lines. *)
Lemma report_shape m dev a (s : St) df s' :
  report L m dev a s = (Ret df, s') ->
  exists k d w1,
    key s = Some k /\ data s = Some d /\
    check_yolo L dev (w s) = (Ret tt, w1) /\
    df = mkDF (full_columns k) (map row_cells (y s)) /\
    s' = mkSt w1
           (trace s ++ [EvInfoBlank; EvCheckYolo dev;
                        EvInfoComplete (ckpt_path m) d (imgsz a);
                        EvInfoFrame df])
           (y s) (data s) (key s).
Proof.
  unfold report, bind, log, call, read_key, read_data, read_y.
  cbn [w trace y data key].
  destruct (check_yolo L dev (w s)) as [[[] | e] w1]; [| discriminate].
  rewrite !name_condition_map. cbn [w trace y data key].
  destruct (key s) as [k |] eqn:Ek; [| discriminate].
  unfold ret at 1. rewrite pd_DataFrame_full. cbn [w trace y data key].
  destruct (data s) as [d |] eqn:Ed; [| discriminate].
  unfold ret. intro H. injection H as <- <-.
  exists k, d, w1. repeat split; try reflexivity.
  rewrite <- !app_assoc. reflexivity.
Qed.

Lemma positions_metric k :
  In k metric_keys -> positions k (full_columns k) 0 = [3].
Proof.
  intros [<- | [<- | [<- | []]]]; reflexivity.
Qed.

Lemma all_above_cells floor rows_ (s : St) :
  all_above floor (map (fun r => nth 3 r CNull) (map row_cells rows_)) s
  = (Ret (all_measured_above floor rows_), s).
Proof.
  induction rows_ as [| row rest IH]; [reflexivity |].
  cbn [map row_cells nth all_above all_measured_above forallb opt_cell].
  destruct (r_metric row) as [x |]; cbn [opt_cell].
  - destruct (gt x floor); [exact IH | reflexivity].
  - exact IH.
Qed.

Lemma floor_check_str expr df (s : St) k floor w2 :
  expr <> "" ->
  key s = Some k -> In k metric_keys ->
  df = mkDF (full_columns k) (map row_cells (y s)) ->
  py_eval L expr (y s) (w s) = (Ret floor, w2) ->
  floor_check L (HFStr expr) df s
  = (if all_measured_above floor (y s) then Ret tt
     else Raise (mkExn AssertionError
                   ("HARD FAIL: metric < floor " ++ float_str L floor)),
     mkSt w2 (trace s ++ [EvEval expr]) (y s) (data s) (key s)).
Proof.
  intros Hne Hk Hin -> He. unfold floor_check.
  replace (truthy (HFStr expr)) with true
    by (cbn; destruct (String.eqb_spec expr ""); [contradiction | reflexivity]).
  cbn [is_str andb]. unfold bind, read_key, read_y, call, df_getitem_array.
  rewrite Hk. cbn [columns rows]. rewrite (positions_metric k Hin).
  unfold ret at 1. cbn [w trace y data key]. rewrite He.
  rewrite all_above_cells.
  destruct (all_measured_above floor (y s)); rewrite ?Hk; reflexivity.
Qed.

(** Without a non-empty string there is no floor: nothing is evaluated and
    nothing is checked. *)
Lemma floor_check_skipped hf df (s : St) :
  truthy hf && is_str hf = false -> floor_check L hf df s = (Ret tt, s).
Proof. intro H. unfold floor_check. rewrite H. reflexivity. Qed.

Lemma gt_true x floor : gt x floor = true <-> (floor < x)%Q.
Proof.
  unfold gt. rewrite negb_true_iff. split.
  - intro H. apply Qnot_le_lt. intro Hle.
    apply Qle_bool_iff in Hle. congruence.
  - intro H. destruct (Qle_bool x floor) eqn:E; [| reflexivity].
    apply Qle_bool_iff in E. exfalso. exact (Qlt_not_le _ _ H E).
Qed.

Lemma gt_false x floor : gt x floor = false <-> (x <= floor)%Q.
Proof.
  unfold gt. rewrite negb_false_iff. apply Qle_bool_iff.
Qed.

Lemma all_measured_above_true floor rows_ :
  all_measured_above floor rows_ = true
  <-> forall x, measured rows_ x -> (floor < x)%Q.
Proof.
  unfold all_measured_above, measured. rewrite forallb_forall. split.
  - intros H x [row [Hin Hm]]. specialize (H row Hin). rewrite Hm in H.
    apply gt_true. exact H.
  - intros H row Hin. destruct (r_metric row) as [x |] eqn:Hm; [| reflexivity].
    apply gt_true. apply H. exists row. split; assumption.
Qed.

Lemma all_measured_above_false floor rows_ :
  all_measured_above floor rows_ = false
  <-> exists x, measured rows_ x /\ (x <= floor)%Q.
Proof.
  split.
  - intro H. induction rows_ as [| row rest IH]; [discriminate H |].
    cbn in H. apply andb_false_iff in H. destruct H as [H | H].
    + destruct (r_metric row) as [x |] eqn:Hm; [| discriminate H].
      exists x. split; [exists row; split; [left; reflexivity | exact Hm] |].
      apply gt_false. exact H.
    + destruct (IH H) as [x [[row' [Hin Hm]] Hle]].
      exists x. split; [exists row'; split; [right; exact Hin | exact Hm] | exact Hle].
  - intros [x [Hmeas Hle]].
    destruct (all_measured_above floor rows_) eqn:E; [| reflexivity].
    exfalso. apply (Qlt_not_le floor x); [| exact Hle].
    exact (proj1 (all_measured_above_true floor rows_) E x Hmeas).
Qed.

(** The whole run, once the report is printed and the floor expression
    has a value. *)
Lemma run_with_floor a (w0 : world) expr df (s1 : St) floor w2 :
  hard_fail a = HFStr expr -> expr <> "" ->
  through_report L a (start w0) = (Ret df, s1) ->
  py_eval L expr (y s1) (w s1) = (Ret floor, w2) ->
  run_benchmarks L a w0
  = (if all_measured_above floor (y s1) then Ret tt
     else Raise (mkExn AssertionError
                   ("HARD FAIL: metric < floor " ++ float_str L floor)),
     mkSt w2 (trace s1 ++ [EvEval expr]) (y s1) (data s1) (key s1))
  /\ exists t, trace s1 = t ++ [EvInfoFrame df].
Proof.
  intros Hhf Hne Hrep He.
  unfold run_benchmarks, run_benchmarks_from, bind. rewrite Hrep, Hhf.
  unfold through_report in Hrep.
  apply bind_ret_inv in Hrep. destruct Hrep as [md [s0 [Hloop Hreport]]].
  apply through_loop_rows in Hloop. destruct Hloop as [Hb _].
  apply report_shape in Hreport.
  destruct Hreport as [k [d [w1 [Hk [Hd [_ [Hdf Hs1]]]]]]].
  assert (Hin : In k metric_keys).
  { destruct Hb as [[_ Hn] | [d' [k' [_ [Hk' Hin]]]]]; [congruence |].
    rewrite Hk in Hk'. injection Hk' as <-. exact Hin. }
  assert (Hy : y s1 = y s0) by (rewrite Hs1; reflexivity).
  assert (Hk1 : key s1 = Some k) by (rewrite Hs1; exact Hk).
  split.
  - apply floor_check_str with (k := k); auto. rewrite Hy. exact Hdf.
  - rewrite Hs1. cbn [trace].
    exists (trace s0 ++ [EvInfoBlank; EvCheckYolo (snd md);
                         EvInfoComplete (ckpt_path (fst md)) d (imgsz a)]).
    rewrite <- app_assoc. reflexivity.
Qed.

Lemma recorded_names t rows_ :
  Forall2 recorded_for t rows_ -> map r_name rows_ = map name t.
Proof.
  induction 1 as [| r row t' rows' Hr _ IH]; [reflexivity |].
  cbn. rewrite IH. f_equal.
  destruct Hr as [[a [b [c ->]]] | ->]; reflexivity.
Qed.

Lemma recorded_status t rows_ :
  Forall2 recorded_for t rows_ ->
  Forall (fun row => r_status row = Failed <-> all_null row) rows_.
Proof.
  induction 1 as [| r row t' rows' Hr _ IH]; constructor; [| exact IH].
  unfold all_null.
  destruct Hr as [[a [b [c ->]]] | ->]; cbn; split.
  - discriminate.
  - intros [H _]. discriminate H.
  - auto.
  - reflexivity.
Qed.

(** *** The claims *)

(** C1. A row of the format table that is an unsupported combination
    (index 9 or 10: Edge TPU and TensorFlow.js; index 5, CoreML, off macOS;
    a CPU or GPU flag that does not match the selected device) is skipped:
    the attempt stops at the failing assertion in the state it started from,
    so nothing is exported, validated or assigned; the turn of the loop
    returns normally, and the loop goes on with the remaining rows, in a
    state that differs from the one before by a warning in the log and the
    failed row of the format in the results.  This holds whatever
    [hard_fail] is. *)
Theorem C1_unsupported_row_is_recorded_failed m dev a i r rest (s : St) :
  unsupported L dev i r = true ->
  attempt L m dev a i r s
  = (Raise (mkExn AssertionError (unsupported_text L dev i r)), s)
  /\ iteration L m dev a i r s
     = (Ret tt,
        after_failure r (mkExn AssertionError (unsupported_text L dev i r)) s)
  /\ loop L m dev a ((i, r) :: rest) s
     = loop L m dev a rest
         (after_failure r (mkExn AssertionError (unsupported_text L dev i r)) s)
  /\ w (after_failure r (mkExn AssertionError (unsupported_text L dev i r)) s)
     = w s
  /\ trace (after_failure r
              (mkExn AssertionError (unsupported_text L dev i r)) s)
     = trace s ++ [EvWarning (name r) (unsupported_text L dev i r)]
  /\ y (after_failure r (mkExn AssertionError (unsupported_text L dev i r)) s)
     = y s ++ [mkRow (name r) Failed None None None].
Proof.
  intro H. pose proof (attempt_unsupported m dev a i r s H) as E.
  assert (It : iteration L m dev a i r s
               = (Ret tt, after_failure r
                    (mkExn AssertionError (unsupported_text L dev i r)) s)).
  { apply iteration_caught; [exact E | reflexivity | right; reflexivity]. }
  split; [exact E |]. split; [exact It |].
  split; [rewrite loop_cons, It; reflexivity |].
  repeat split.
Qed.

(** C2. With a non-empty string as [hard_fail], once the report is printed
    and the expression has evaluated to a floor, the run ends in the
    assertion error of the floor exactly when some measured metric of the
    results is at or below the floor, and returns normally when every
    measured metric is above it; either way the evaluation of the floor
    comes right after the line that prints the table. *)
Theorem C2_floor_rejects_iff_some_metric_not_above a (w0 : world) expr df
    (s1 : St) floor w2 :
  hard_fail a = HFStr expr -> expr <> "" ->
  through_report L a (start w0) = (Ret df, s1) ->
  py_eval L expr (y s1) (w s1) = (Ret floor, w2) ->
  (fst (run_benchmarks L a w0)
   = Raise (mkExn AssertionError
              ("HARD FAIL: metric < floor " ++ float_str L floor))
   <-> exists x, measured (y s1) x /\ (x <= floor)%Q)
  /\ ((forall x, measured (y s1) x -> (floor < x)%Q)
      -> fst (run_benchmarks L a w0) = Ret tt)
  /\ (fst (run_benchmarks L a w0) = Ret tt
      -> forall x, measured (y s1) x -> (floor < x)%Q)
  /\ exists t, trace (snd (run_benchmarks L a w0))
               = t ++ [EvInfoFrame df; EvEval expr].
Proof.
  intros Hhf Hne Hrep He.
  destruct (run_with_floor a w0 expr df s1 floor w2 Hhf Hne Hrep He)
    as [Hrun [t Ht]].
  rewrite Hrun. cbn [fst snd trace].
  repeat split.
  - intro H. apply all_measured_above_false.
    destruct (all_measured_above floor (y s1)); [discriminate H | reflexivity].
  - intro H. apply all_measured_above_false in H. rewrite H. reflexivity.
  - intro H. apply all_measured_above_true in H. rewrite H. reflexivity.
  - intro H. apply all_measured_above_true.
    destruct (all_measured_above floor (y s1)); [reflexivity | discriminate H].
  - exists t. rewrite Ht, <- app_assoc. reflexivity.
Qed.

(** C3. In hard-fail mode ([hard_fail] truthy), an exception of the attempt
    whose type is AssertionError is still turned into a warning and a failed
    row, and the loop goes on; any other exception aborts the loop: the turn
    raises, no row and no warning are added, the remaining rows are not
    run, and what is raised for an instance of Exception is the assertion
    error of the hard failure. *)
Theorem C3_hard_fail_escalates_non_assertion m dev a i r rest (s s' : St) e :
  truthy (hard_fail a) = true ->
  attempt L m dev a i r s = (Raise e, s') ->
  (is_AssertionError e = true ->
     iteration L m dev a i r s = (Ret tt, after_failure r e s')
     /\ loop L m dev a ((i, r) :: rest) s
        = loop L m dev a rest (after_failure r e s'))
  /\ (is_AssertionError e = false ->
      exists e',
        iteration L m dev a i r s = (Raise e', s')
        /\ loop L m dev a ((i, r) :: rest) s = (Raise e', s')
        /\ (is_Exception e = true ->
            e' = mkExn AssertionError
                   ("Benchmark --hard-fail for " ++ name r ++ ": " ++ msg e))).
Proof.
  intros Ht E. split; intro Ha.
  - assert (He : is_Exception e = true).
    { unfold is_AssertionError in Ha. unfold is_Exception.
      destruct (cls e); try discriminate Ha; reflexivity. }
    assert (It := iteration_caught m dev a i r s s' e E He (or_intror Ha)).
    split; [exact It |]. rewrite loop_cons, It. reflexivity.
  - destruct (is_Exception e) eqn:He.
    + assert (It := iteration_escalated m dev a i r s s' e E He Ht Ha).
      eexists. split; [exact It |]. split; [| reflexivity].
      rewrite loop_cons, It. reflexivity.
    + assert (It := iteration_uncaught m dev a i r s s' e E He).
      exists e. split; [exact It |]. split; [| discriminate].
      rewrite loop_cons, It. reflexivity.
Qed.

(** C4, as amended.  When [hard_fail] is a non-empty string, the floor is
    enforced over the measured formats: once the report is printed and the
    expression has evaluated to a floor, a measured metric below the floor
    makes the run end in the assertion error of the floor.  When
    [hard_fail] is not a string, True included, the last statement of the
    function does nothing: no floor is evaluated or compared. *)
Theorem C4_string_floor_is_enforced :
  (forall a (w0 : world) expr df (s1 : St) floor w2 x,
     hard_fail a = HFStr expr -> expr <> "" ->
     through_report L a (start w0) = (Ret df, s1) ->
     py_eval L expr (y s1) (w s1) = (Ret floor, w2) ->
     measured (y s1) x -> (x < floor)%Q ->
     fst (run_benchmarks L a w0)
     = Raise (mkExn AssertionError
                ("HARD FAIL: metric < floor " ++ float_str L floor)))
  /\ (forall hf df (s : St),
        is_str hf = false -> floor_check L hf df s = (Ret tt, s)).
Proof.
  split.
  - intros a w0 expr df s1 floor w2 x Hhf Hne Hrep He Hm Hlt.
    destruct (run_with_floor a w0 expr df s1 floor w2 Hhf Hne Hrep He)
      as [Hrun _].
    rewrite Hrun. cbn [fst].
    replace (all_measured_above floor (y s1)) with false; [reflexivity |].
    symmetry. apply all_measured_above_false.
    exists x. split; [exact Hm | apply Qlt_le_weak; exact Hlt].
  - intros hf df s H. apply floor_check_skipped. rewrite H.
    apply andb_false_r.
Qed.

(** C9. When the loop is completed, the results hold one row per row of the
    format table, in the order of the table; each is the measured row of its
    format, with a size, a metric and a speed that are numbers, or its
    failed row, with None three times; and a row is marked failed exactly
    when its three measurements are None. *)
Theorem C9_one_row_per_format a (w0 : world) md (s' : St) :
  through_loop L a (start w0) = (Ret md, s') ->
  Forall2 recorded_for (export_formats L) (y s')
  /\ map r_name (y s') = map name (export_formats L)
  /\ Forall (fun row => r_status row = Failed <-> all_null row) (y s').
Proof.
  intro H. apply through_loop_rows in H. destruct H as [_ HF].
  split; [exact HF |]. split.
  - apply recorded_names. exact HF.
  - apply (recorded_status (export_formats L)). exact HF.
Qed.

(** C7, as amended.  The name [map] of the two conditional expressions of
    the report is bound neither by the function nor by the module: it is the
    builtin [map], whose truth value is True in every state.  The condition
    is therefore no flag of the run: a report that is printed always has the
    five full columns, with the metric name in the fourth, and prints the
    whole frame, never the reduced one. *)
Theorem C7_map_is_the_builtin_and_always_true :
  resolve "map" = Builtin
  /\ mem "map" local_names = false
  /\ mem "map" global_names = false
  /\ (forall s : St, name_condition "map" s = (Ret true, s))
  /\ (forall m dev a (s : St) df s',
        report L m dev a s = (Ret df, s') ->
        exists k, key s = Some k /\ columns df = full_columns k
                  /\ rows df = map row_cells (y s)
                  /\ exists t, trace s' = t ++ [EvInfoFrame df]).
Proof.
  repeat split; try reflexivity.
  intros m dev a s df s' H. apply report_shape in H.
  destruct H as [k [d [w1 [Hk [_ [_ [Hdf Hs']]]]]]].
  exists k. split; [exact Hk |]. rewrite Hdf at 1 2. cbn [columns rows].
  split; [reflexivity |]. split; [reflexivity |].
  rewrite Hs'. cbn [trace].
  exists (trace s ++ [EvInfoBlank; EvCheckYolo dev;
                      EvInfoComplete (ckpt_path m) d (imgsz a)]).
  rewrite <- app_assoc. reflexivity.
Qed.

End Facts.

(** *** The claims on sample runs *)

Import Samples.

Lemma C1_witness :
  unsupported broken_library cpu_dev 9 edge_tpu_row = true
  /\ iteration broken_library sample_model cpu_dev (sample_args (HFBool true))
       9 edge_tpu_row (start 0)
     = (Ret tt,
        after_failure edge_tpu_row
          (mkExn AssertionError "inference not supported") (start 0)).
Proof.
  split; [reflexivity |].
  exact (proj1 (proj2 (C1_unsupported_row_is_recorded_failed
                         broken_library sample_model cpu_dev
                         (sample_args (HFBool true)) 9 edge_tpu_row []
                         (start 0) eq_refl))).
Defined.

Lemma C2_witness :
  through_report low_library low_args (start 0) = (Ret low_df, low_state)
  /\ py_eval low_library "0.3" (y low_state) (w low_state)
     = (Ret (3 # 10)%Q, S (w low_state))
  /\ exists x, measured (y low_state) x /\ (x <= 3 # 10)%Q.
Proof.
  assert (H1 : through_report low_library low_args (start 0)
               = (Ret low_df, low_state)) by (vm_compute; reflexivity).
  assert (H2 : py_eval low_library "0.3" (y low_state) (w low_state)
               = (Ret (3 # 10)%Q, S (w low_state))) by reflexivity.
  assert (Hne : "0.3" <> "") by discriminate.
  split; [exact H1 |]. split; [exact H2 |].
  apply (proj1 (C2_floor_rejects_iff_some_metric_not_above
                  low_library low_args 0 "0.3" low_df low_state
                  (3 # 10)%Q (S (w low_state)) eq_refl Hne H1 H2)).
  vm_compute. reflexivity.
Defined.

Lemma C3_witness :
  attempt broken_library sample_model cpu_dev (sample_args (HFBool true))
    2 onnx_row (start 0)
  = (Raise (mkExn (LibraryError "RuntimeError") "export stopped"),
     broken_state)
  /\ iteration broken_library sample_model cpu_dev
       (sample_args (HFBool true)) 2 onnx_row (start 0)
     = (Raise (mkExn AssertionError
                 "Benchmark --hard-fail for ONNX: export stopped"),
        broken_state).
Proof.
  assert (H1 : attempt broken_library sample_model cpu_dev
                 (sample_args (HFBool true)) 2 onnx_row (start 0)
               = (Raise (mkExn (LibraryError "RuntimeError") "export stopped"),
                  broken_state)) by (vm_compute; reflexivity).
  split; [exact H1 |].
  destruct (proj2 (C3_hard_fail_escalates_non_assertion
                     broken_library sample_model cpu_dev
                     (sample_args (HFBool true)) 2 onnx_row [] (start 0)
                     broken_state
                     (mkExn (LibraryError "RuntimeError") "export stopped")
                     eq_refl H1) eq_refl) as [e' [It [_ He']]].
  rewrite It, (He' eq_refl). reflexivity.
Defined.

Lemma C4_witness :
  through_report low_library low_args (start 0) = (Ret low_df, low_state)
  /\ measured (y low_state) (1 # 5)%Q
  /\ (1 # 5 < 3 # 10)%Q
  /\ fst (run_benchmarks low_library low_args 0)
     = Raise (mkExn AssertionError "HARD FAIL: metric < floor floor").
Proof.
  assert (H1 : through_report low_library low_args (start 0)
               = (Ret low_df, low_state)) by (vm_compute; reflexivity).
  assert (H2 : py_eval low_library "0.3" (y low_state) (w low_state)
               = (Ret (3 # 10)%Q, S (w low_state))) by reflexivity.
  assert (Hne : "0.3" <> "") by discriminate.
  assert (Hm : measured (y low_state) (1 # 5)%Q).
  { eexists. split; [left; reflexivity | reflexivity]. }
  assert (Hlt : (1 # 5 < 3 # 10)%Q) by reflexivity.
  split; [exact H1 |]. split; [exact Hm |]. split; [exact Hlt |].
  exact (proj1 (C4_string_floor_is_enforced low_library)
           low_args 0 "0.3" low_df low_state
           (3 # 10)%Q (S (w low_state)) (1 # 5)%Q eq_refl Hne H1 H2 Hm Hlt).
Defined.

(** C4, as stated, fails: with [hard_fail=True] the measured metric 1/5 is
    below the floor 3/10 the library would give, and the run returns
    normally without ever evaluating a floor. *)
Lemma C4_counterexample :
  truthy (HFBool true) = true
  /\ measured (y (snd (run_benchmarks low_library
                         (sample_args (HFBool true)) 0))) (1 # 5)%Q
  /\ (1 # 5 < 3 # 10)%Q
  /\ fst (run_benchmarks low_library (sample_args (HFBool true)) 0) = Ret tt
  /\ existsb is_eval
       (trace (snd (run_benchmarks low_library
                      (sample_args (HFBool true)) 0))) = false.
Proof.
  split; [reflexivity |]. split.
  - exists (mkRow "PyTorch" Passed (Some (6 # 1)%Q) (Some (1 # 5)%Q)
                  (Some (12 # 1)%Q)).
    split; [vm_compute; left; reflexivity | reflexivity].
  - split; [reflexivity |]. split; vm_compute; reflexivity.
Qed.

(** C6, as stated, fails: with [hard_fail] off, an export stopped by
    KeyboardInterrupt is not caught; the turn of the loop raises it, no row
    is recorded for the format, and it ends the whole run. *)
Lemma C6_counterexample :
  truthy (hard_fail (sample_args (HFBool false))) = false
  /\ attempt interrupted_library sample_model cpu_dev
       (sample_args (HFBool false)) 1 onnx_row (start 0)
     = (Raise (mkExn KeyboardInterrupt "export stopped"), interrupted_state)
  /\ iteration interrupted_library sample_model cpu_dev
       (sample_args (HFBool false)) 1 onnx_row (start 0)
     = (Raise (mkExn KeyboardInterrupt "export stopped"), interrupted_state)
  /\ y interrupted_state = []
  /\ fst (run_benchmarks interrupted_library (sample_args (HFBool false)) 0)
     = Raise (mkExn KeyboardInterrupt "export stopped")
  /\ map r_name (y (snd (run_benchmarks interrupted_library
                           (sample_args (HFBool false)) 0)))
     = ["PyTorch"].
Proof.
  repeat split; vm_compute; reflexivity.
Qed.

Lemma C7_witness :
  report good_library sample_model cpu_dev low_args good_loop_state
  = (Ret good_df, good_state)
  /\ exists k, key good_loop_state = Some k
               /\ columns good_df = full_columns k
               /\ rows good_df = map row_cells (y good_loop_state)
               /\ exists t, trace good_state = t ++ [EvInfoFrame good_df].
Proof.
  assert (H1 : report good_library sample_model cpu_dev low_args
                 good_loop_state = (Ret good_df, good_state))
    by (vm_compute; reflexivity).
  split; [exact H1 |].
  exact (proj2 (proj2 (proj2 (proj2
           (C7_map_is_the_builtin_and_always_true good_library))))
           sample_model cpu_dev low_args good_loop_state good_df good_state H1).
Defined.

(** C7, as stated, fails: the name is not undefined.  It resolves to the
    builtin, its evaluation returns True instead of raising NameError, and a
    run gets through both conditional expressions and returns. *)
Lemma C7_counterexample :
  resolve "map" <> Unbound
  /\ resolve "map" = Builtin
  /\ fst (name_condition "map" (start 0)) = Ret true
  /\ fst (run_benchmarks good_library (sample_args (HFBool false)) 0) = Ret tt.
Proof.
  split; [discriminate |]. split; [reflexivity |]. split; [reflexivity |].
  vm_compute. reflexivity.
Qed.

Lemma C9_witness :
  through_loop broken_library (sample_args (HFBool false)) (start 0)
  = (Ret (broken_model, cpu_dev), broken_loop_state)
  /\ map r_name (y broken_loop_state) = map name docstring_formats
  /\ Forall (fun row => r_status row = Failed <-> all_null row)
            (y broken_loop_state).
Proof.
  assert (H1 : through_loop broken_library (sample_args (HFBool false))
                 (start 0)
               = (Ret (broken_model, cpu_dev), broken_loop_state))
    by (vm_compute; reflexivity).
  split; [exact H1 |].
  exact (proj2 (C9_one_row_per_format
                  broken_library (sample_args (HFBool false)) 0
                  (broken_model, cpu_dev) broken_loop_state H1)).
Defined.

(** *** The run as a whole *)

Section MoreFacts.

Context {world : Type}.
Variable L : library world.

Local Notation "'St'" := (st world).

Ltac wp_next :=
  cbn [w trace y data key fst snd];
  lazymatch goal with
  | |- wp (bind _ _) _ _ _ => apply wp_bind
  | |- wp (ret _) _ _ _ => apply wp_ret
  | |- wp (raise _) _ _ _ => apply wp_raise
  | |- wp (py_assert _ _) _ _ _ => apply wp_assert; intro
  | |- wp (getitem _ _) _ _ _ => apply wp_getitem; intros
  | |- wp (call _ _) _ _ _ => apply wp_call; intros
  | |- wp (log _) _ _ _ => apply wp_log
  | |- wp (append_row _) _ _ _ => apply wp_append_row
  | |- wp (assign_data_key _ _) _ _ _ => apply wp_assign_data_key
  | |- wp read_data _ _ _ => apply wp_read_data; intros
  | |- wp read_key _ _ _ => apply wp_read_key; intros
  | |- wp read_y _ _ _ => apply wp_read_y
  | |- wp (if ?c then _ else _) _ _ _ => destruct c eqn:?
  | |- wp (let _ := _ in _) _ _ _ => cbv zeta
  end.

Lemma count_app {A} (f : A -> bool) l1 l2 :
  count f (l1 ++ l2) = count f l1 + count f l2.
Proof. unfold count. rewrite filter_app, length_app. reflexivity. Qed.

Ltac rewrite_tests :=
  repeat match goal with
         | H : (_ =? _) = _ |- _ => rewrite H
         end.

Ltac trace_eq :=
  cbn [w trace y data key fst snd];
  repeat rewrite <- app_assoc; cbn [app];
  first [ reflexivity | symmetry; apply app_nil_r ].

Ltac task_ok_done Hok :=
  first
    [ exact Hok
    | right; eexists _, _; unfold task_data_key; rewrite_tests;
      repeat split; reflexivity ].

(** What an attempt does to the state, whichever way it ends. *)
Lemma attempt_effect m dev a i r (s : St) :
  task_ok m s ->
  wp (attempt L m dev a i r)
     (fun _ s' =>
        exists evs row,
          trace s' = trace s ++ evs /\ y s' = y s ++ [row]
          /\ measured_row r row
          /\ count is_warning evs = 0
          /\ count is_export evs <= (if exported r then 1 else 0)
          /\ count is_val evs <= 1
          /\ task_ok m s'
          /\ task_data_key (task m) <> None)
     (fun _ s' =>
        exists evs,
          trace s' = trace s ++ evs /\ y s' = y s
          /\ count is_warning evs = 0
          /\ count is_export evs <= (if exported r then 1 else 0)
          /\ count is_val evs <= 1
          /\ task_ok m s') s.
Proof.
  intro Hok. unfold attempt.
  repeat wp_next.
  all: cbn [w trace y data key fst snd].
  all: lazymatch goal with
       | |- exists evs row, _ =>
           eexists _, _; split; [trace_eq |]; split; [reflexivity |];
           split; [eexists _, _, _; reflexivity |];
           split; [reflexivity |];
           split; [unfold exported; rewrite_tests; cbn; lia |];
           split; [cbn; lia |];
           split;
           [ task_ok_done Hok
           | first
               [ unfold task_data_key; rewrite_tests; discriminate
               | destruct Hok as [[Hn _] | [d' [k' [Ht _]]]];
                 [ cbn in *; congruence | rewrite Ht; discriminate ] ] ]
       | |- exists evs, _ =>
           eexists; split; [trace_eq |]; split; [reflexivity |];
           split; [reflexivity |];
           split; [unfold exported; rewrite_tests; cbn; lia |];
           split; [cbn; lia |]
       end.
  all: task_ok_done Hok.
Qed.


Lemma wp_weaken {S A} (m : M S A) (Qr Qr' : A -> S -> Prop)
    (Qe Qe' : exn -> S -> Prop) s :
  wp m Qr Qe s ->
  (forall a s', Qr a s' -> Qr' a s') ->
  (forall e s', Qe e s' -> Qe' e s') ->
  wp m Qr' Qe' s.
Proof.
  unfold wp. destruct (m s) as [[a | e] s']; intros H Hr He; auto.
Qed.

Lemma wp_final {S A} (m : M S A) (P : S -> Prop) s :
  wp m (fun _ s' => P s') (fun _ s' => P s') s -> P (snd (m s)).
Proof. unfold wp. destruct (m s) as [[a | e] s']; intro H; exact H. Qed.

(** What a turn of the loop does to the state, whichever way it ends. *)
Lemma iteration_effect m dev a i r (s : St) :
  task_ok m s ->
  wp (iteration L m dev a i r)
     (fun _ s' =>
        exists evs row,
          trace s' = trace s ++ evs /\ y s' = y s ++ [row]
          /\ recorded_for r row
          /\ count is_warning evs = count is_failed [row]
          /\ count is_export evs <= (if exported r then 1 else 0)
          /\ count is_val evs <= 1
          /\ task_ok m s'
          /\ (task_data_key (task m) = None -> row = failed_row r))
     (fun _ s' =>
        exists evs,
          trace s' = trace s ++ evs /\ y s' = y s
          /\ count is_warning evs = 0
          /\ count is_export evs <= (if exported r then 1 else 0)
          /\ count is_val evs <= 1
          /\ task_ok m s') s.
Proof.
  intro Hok. pose proof (attempt_effect m dev a i r s Hok) as H.
  unfold wp in *. unfold iteration, try_except_Exception.
  destruct (attempt L m dev a i r s) as [[[] | e] s1].
  - destruct H as [evs [row [Ht [Hy [Hm [Hw [Hx [Hv [Hk Hn]]]]]]]]].
    exists evs, row. repeat split; auto;
      first [ left; exact Hm
            | destruct Hm as [x1 [x2 [x3 ->]]]; exact Hw
            | intro Hnone; contradiction ].
  - destruct H as [evs [Ht [Hy [Hw [Hx [Hv Hk]]]]]].
    destruct (is_Exception e).
    + unfold handler.
      destruct (truthy (hard_fail a)); [destruct (is_AssertionError e) |];
        cbn.
      * exists (evs ++ [EvWarning (name r) (msg e)]), (failed_row r).
        rewrite Ht, Hy, !count_app, Hw, app_assoc. cbn.
        repeat split; auto; try lia; right; reflexivity.
      * exists evs. repeat split; auto.
      * exists (evs ++ [EvWarning (name r) (msg e)]), (failed_row r).
        rewrite Ht, Hy, !count_app, Hw, app_assoc. cbn.
        repeat split; auto; try lia; right; reflexivity.
    + exists evs. repeat split; auto.
Qed.

Lemma loop_effect m dev a rows_ : forall (s : St),
  task_ok m s ->
  wp (loop L m dev a rows_)
     (fun _ s' => loop_effect_from m rows_ (length rows_) s s')
     (fun _ s' => exists n, n < length rows_
                            /\ loop_effect_from m rows_ n s s') s.
Proof.
  induction rows_ as [| [i r] rest IH]; intros s Hok.
  - cbn. exists [], []. rewrite !app_nil_r. cbn.
    repeat split; auto; constructor.
  - pose proof (iteration_effect m dev a i r s Hok) as H.
    unfold wp in *. rewrite loop_cons.
    destruct (iteration L m dev a i r s) as [[[] | e] s1].
    + destruct H as [evs [row [Ht [Hy [Hr [Hw [Hx [Hv [Hk Hn]]]]]]]]].
      specialize (IH s1 Hk).
      assert (Hcx : count exported (map snd ((i, r) :: rest))
                    = (if exported r then 1 else 0)
                      + count exported (map snd rest)).
      { unfold count. cbn. destruct (exported r); reflexivity. }
      destruct (loop L m dev a rest s1) as [[[] | e] s2].
      * destruct IH as [evs' [new [Ht' [Hy' [HF [Hw' [Hx' [Hv' [Hk' Hn']]]]]]]]].
        exists (evs ++ evs'), (row :: new).
        rewrite Ht', Ht, Hy', Hy, <- !app_assoc, !count_app, Hcx.
        change (count is_failed (row :: new))
          with (count is_failed ([row] ++ new)).
        rewrite count_app. cbn [length map firstn snd app].
        repeat split; auto; try lia;
          first [ constructor; assumption
                | intro Hnone; rewrite (Hn Hnone), (Hn' Hnone); reflexivity ].
      * destruct IH as [n [Hlt [evs' [new [Ht' [Hy' [HF [Hw' [Hx' [Hv' [Hk' Hn']]]]]]]]]]].
        exists (S n). split; [cbn; lia |].
        exists (evs ++ evs'), (row :: new).
        rewrite Ht', Ht, Hy', Hy, <- !app_assoc, !count_app, Hcx.
        change (count is_failed (row :: new))
          with (count is_failed ([row] ++ new)).
        rewrite count_app. cbn [length map firstn snd app].
        repeat split; auto; try lia;
          first [ constructor; assumption
                | intro Hnone; rewrite (Hn Hnone), (Hn' Hnone); reflexivity ].
    + destruct H as [evs [Ht [Hy [Hw [Hx [Hv Hk]]]]]].
      exists 0. split; [cbn; lia |].
      exists evs, []. rewrite app_nil_r. cbn [firstn].
      repeat split; auto;
        first [ cbn; lia
              | unfold count in *; cbn; destruct (exported r); cbn in *; lia
              | constructor ].
Qed.


Lemma wp_stateless {A} (m : M St A) (Qr : A -> St -> Prop)
    (Qe : exn -> St -> Prop) (s : St) :
  snd (m s) = s ->
  (forall a, Qr a s) -> (forall e, Qe e s) -> wp m Qr Qe s.
Proof.
  unfold wp. destruct (m s) as [[a | e] s']; cbn; intros -> Hr He; auto.
Qed.

Lemma all_above_stateless floor ms (s : St) : snd (all_above floor ms s) = s.
Proof.
  induction ms as [| [x | q |] rest IH]; cbn; try reflexivity; try exact IH.
  destruct (gt q floor); [exact IH | reflexivity].
Qed.

Lemma df_getitem_array_stateless df k (s : St) :
  snd (df_getitem_array df k s) = s.
Proof.
  unfold df_getitem_array.
  destruct (positions k (columns df) 0) as [| j [| j' l]]; reflexivity.
Qed.

Lemma pd_DataFrame_stateless rows_ c (s : St) :
  snd (pd_DataFrame rows_ c s) = s.
Proof. unfold pd_DataFrame. destruct (forallb _ rows_); reflexivity. Qed.

Lemma name_condition_stateless x (s : St) : snd (name_condition x s) = s.
Proof. unfold name_condition. destruct (resolve x); reflexivity. Qed.

Ltac quiet_done :=
  cbn [w trace y data key fst snd];
  eexists; split; [trace_eq |];
  repeat split; reflexivity.

(** The report and the floor add no row and no warning, and call neither
    the exporter nor the validator. *)
Lemma tail_effect m dev a (s : St) :
  wp (df <- report L m dev a ;; floor_check L (hard_fail a) df)
     (fun _ s' => exists evs, trace s' = trace s ++ evs /\ y s' = y s
                              /\ data s' = data s /\ key s' = key s
                              /\ quiet evs)
     (fun _ s' => exists evs, trace s' = trace s ++ evs /\ y s' = y s
                              /\ data s' = data s /\ key s' = key s
                              /\ quiet evs) s.
Proof.
  unfold report, floor_check.
  repeat first
    [ wp_next
    | lazymatch goal with
      | |- wp (name_condition _) _ _ _ =>
          apply wp_stateless; [apply name_condition_stateless | intro | intro]
      | |- wp (pd_DataFrame _ _) _ _ _ =>
          apply wp_stateless; [apply pd_DataFrame_stateless | intro | intro]
      | |- wp (df_getitem_array _ _) _ _ _ =>
          apply wp_stateless; [apply df_getitem_array_stateless | intro | intro]
      | |- wp (all_above _ _) _ _ _ =>
          apply wp_stateless; [apply all_above_stateless | intro | intro]
      | |- wp (match ?h with HFStr _ => _ | _ => _ end) _ _ _ => destruct h
      end ].
  all: quiet_done.
Qed.

Lemma run_benchmarks_from_split a (s : St) :
  run_benchmarks_from L a s
  = (md <- through_loop L a ;;
     (df <- report L (fst md) (snd md) a ;; floor_check L (hard_fail a) df)) s.
Proof.
  unfold run_benchmarks_from, through_report, bind.
  destruct (through_loop L a s) as [[md | e] s1]; reflexivity.
Qed.


Lemma iterrows_length t : forall i, length (iterrows_from i t) = length t.
Proof.
  induction t as [| r rest IH]; intro i; cbn; [reflexivity |].
  rewrite IH. reflexivity.
Qed.

(** Once the device and the model are there, the run is the loop followed
    by the report and the floor. *)
Lemma run_after_setup a (w0 : world) dev w1 m w2 :
  torch_device L (device_of (device a)) w0 = (Ret dev, w1) ->
  YOLO L (a_model a) w1 = (Ret m, w2) ->
  run_benchmarks L a w0
  = (loop L m dev a (iterrows (export_formats L)) ;;;
     (df <- report L m dev a ;; floor_check L (hard_fail a) df))
      (entered a w2).
Proof.
  intros Hd Hm. unfold run_benchmarks. rewrite run_benchmarks_from_split.
  unfold through_loop, bind at 1 2 3, call, start. cbn [w trace y data key].
  rewrite Hd. cbn [w trace y data key]. rewrite Hm.
  unfold bind, entered, ret. cbn [w trace y data key app].
  destruct (loop L m dev a (iterrows (export_formats L)) _) as [[[] | e] s1];
    reflexivity.
Qed.

Lemma bind_run {A B} (c : M St A) (k : A -> M St B) (s : St) :
  bind c k s
  = match c s with
    | (Ret x, s') => k x s'
    | (Raise e, s') => (Raise e, s')
    end.
Proof. reflexivity. Qed.

(** Without a bound [key] the report is not printed: the function ends
    when it builds the column names, or earlier if [check_yolo] raises. *)
Lemma report_unbound m dev a (s : St) :
  key s = None ->
  exists e s',
    report L m dev a s = (Raise e, s') /\ y s' = y s
    /\ (forall w1, check_yolo L dev (w s) = (Ret tt, w1) ->
          e = unbound "key"
          /\ s' = mkSt w1 (trace s ++ [EvInfoBlank; EvCheckYolo dev])
                      (y s) (data s) None).
Proof.
  intro Hk. unfold report. rewrite bind_run. unfold log at 1.
  rewrite bind_run. unfold call. cbn [w trace y data key].
  destruct (check_yolo L dev (w s)) as [[[] | e] w1].
  - rewrite bind_run, name_condition_map. rewrite bind_run, bind_run.
    unfold read_key. cbn [w trace y data key]. rewrite Hk.
    eexists _, _. split; [reflexivity |]. split; [reflexivity |].
    intros w1' H. injection H as <-. rewrite <- app_assoc. auto.
  - eexists _, _. split; [reflexivity |]. split; [reflexivity |].
    intros w1' H. discriminate H.
Qed.

Lemma warned_app l1 l2 : warned (l1 ++ l2) = warned l1 ++ warned l2.
Proof. apply flat_map_app. Qed.

Lemma exports_app l1 l2 : exports (l1 ++ l2) = exports l1 ++ exports l2.
Proof. apply flat_map_app. Qed.

Lemma failed_names_app l1 l2 :
  failed_names (l1 ++ l2) = failed_names l1 ++ failed_names l2.
Proof. unfold failed_names. rewrite filter_app, map_app. reflexivity. Qed.

(** What an attempt calls and logs, whichever way it ends. *)
Lemma attempt_calls m dev a i r (s : St) :
  wp (attempt L m dev a i r)
     (fun _ s' =>
        exists evs row,
          trace s' = trace s ++ evs /\ y s' = y s ++ [row]
          /\ measured_row r row /\ warned evs = [] /\ turn_calls r evs)
     (fun _ s' =>
        exists evs,
          trace s' = trace s ++ evs /\ y s' = y s
          /\ warned evs = [] /\ turn_calls r evs) s.
Proof.
  unfold attempt. repeat wp_next.
  all: cbn [w trace y data key fst snd].
  all: lazymatch goal with
       | |- exists evs row, _ =>
           eexists _, _; split; [trace_eq |]; split; [reflexivity |];
           split; [eexists _, _, _; reflexivity |]
       | |- exists evs, _ =>
           eexists; split; [trace_eq |]; split; [reflexivity |]
       end.
  all: split; [reflexivity |].
  all: split; [| cbn; lia].
  all: first
         [ left; reflexivity
         | right; split;
           [unfold exported; rewrite_tests; reflexivity | reflexivity] ].
Qed.

(** What a turn of the loop calls, logs and records, whichever way it
    ends. *)
Lemma iteration_calls m dev a i r (s : St) :
  exists evs new,
    trace (snd (iteration L m dev a i r s)) = trace s ++ evs
    /\ y (snd (iteration L m dev a i r s)) = y s ++ new
    /\ turn_record r evs new
    /\ turn_calls r evs.
Proof.
  pose proof (attempt_calls m dev a i r s) as H.
  unfold wp in H. unfold iteration, try_except_Exception.
  destruct (attempt L m dev a i r s) as [[[] | e] s1]; cbn [snd].
  - destruct H as [evs [row [Ht [Hy [Hm [Hw Hc]]]]]].
    exists evs, [row]. repeat split; auto; try apply Hc.
    right. split; [exact Hw |]. right. exists row. auto.
  - destruct H as [evs [Ht [Hy [Hw [Hx Hv]]]]].
    assert (Hquit : exists evs0 new,
               trace s1 = trace s ++ evs0 /\ y s1 = y s ++ new
               /\ turn_record r evs0 new /\ turn_calls r evs0).
    { exists evs, []. rewrite app_nil_r. repeat split; auto.
      right. auto. }
    assert (Hcaught : exists evs0 new,
               trace s1 ++ [EvWarning (name r) (msg e)] = trace s ++ evs0
               /\ y s1 ++ [failed_row r] = y s ++ new
               /\ turn_record r evs0 new /\ turn_calls r evs0).
    { exists (evs ++ [EvWarning (name r) (msg e)]), [failed_row r].
      rewrite Ht, Hy, app_assoc. split; [reflexivity |].
      split; [reflexivity |]. split.
      - left. rewrite warned_app, Hw. auto.
      - split.
        + rewrite exports_app. cbn. rewrite app_nil_r. exact Hx.
        + rewrite count_app. cbn. lia. }
    destruct (is_Exception e); [| exact Hquit].
    unfold handler.
    destruct (truthy (hard_fail a)); [destruct (is_AssertionError e) |];
      cbn; assumption.
Qed.

(** The log of the loop splits into one block per turn it began, in the
    order of the rows. *)
Lemma loop_log m dev a rows_ : forall (s : St),
  exists blocks new,
    trace (snd (loop L m dev a rows_ s)) = trace s ++ concat blocks
    /\ y (snd (loop L m dev a rows_ s)) = y s ++ new
    /\ warned (concat blocks) = failed_names new
    /\ length blocks <= length rows_
    /\ Forall2 turn_calls (firstn (length blocks) (map snd rows_)) blocks.
Proof.
  induction rows_ as [| [i r] rest IH]; intro s.
  - exists [], []. cbn. rewrite !app_nil_r. repeat split; auto. 
  - rewrite loop_cons.
    destruct (iteration_calls m dev a i r s) as [evs [new [Ht [Hy [Hr Hc]]]]].
    assert (Hwn : warned evs = failed_names new).
    { destruct Hr as [[-> Hw] | [Hw [-> | [row [-> [x1 [x2 [x3 ->]]]]]]]];
        rewrite Hw; reflexivity. }
    destruct (iteration L m dev a i r s) as [[[] | e] s1]; cbn [snd] in *.
    + destruct (IH s1) as [blocks [new' [Ht' [Hy' [Hw' [Hl' HF']]]]]].
      exists (evs :: blocks), (new ++ new').
      rewrite Ht', Hy', Ht, Hy, <- !app_assoc. cbn [concat length map firstn snd].
      rewrite warned_app, failed_names_app, Hwn, Hw'.
      repeat split; auto; try lia; constructor; assumption.
    + exists [evs], new. cbn [concat length map firstn snd]. rewrite app_nil_r.
      repeat split; auto; try lia; repeat (constructor; try assumption).
Qed.


Lemma quiet_warned evs : count is_warning evs = 0 -> warned evs = [].
Proof.
  unfold count. induction evs as [| ev rest IH]; [reflexivity |].
  destruct ev; cbn; try exact IH. discriminate.
Qed.

Lemma quiet_nil : quiet [].
Proof. repeat split. Qed.

(** The log of a run: what precedes the loop, one block per turn the loop
    began, and what follows the loop. *)
Lemma run_log a (w0 : world) :
  exists pre blocks post,
    trace (snd (run_benchmarks L a w0)) = pre ++ concat blocks ++ post
    /\ quiet pre /\ quiet post
    /\ warned (concat blocks)
       = failed_names (y (snd (run_benchmarks L a w0)))
    /\ length blocks <= length (export_formats L)
    /\ Forall2 turn_calls (firstn (length blocks) (export_formats L)) blocks.
Proof.
  destruct (torch_device L (device_of (device a)) w0) as [[dev | e] w1] eqn:Hd.
  2: { exists [EvTorchDevice (device_of (device a))], [], [].
       unfold run_benchmarks, run_benchmarks_from, through_report,
         through_loop, bind, call, start. cbn [w trace y data key].
       rewrite Hd. cbn.
       repeat split; try reflexivity; try lia; try constructor. }
  destruct (YOLO L (a_model a) w1) as [[m | e] w2] eqn:Hm.
  2: { exists [EvTorchDevice (device_of (device a)); EvYOLO (a_model a)], [], [].
       unfold run_benchmarks, run_benchmarks_from, through_report,
         through_loop, bind, call, start. cbn [w trace y data key].
       rewrite Hd. cbn [w trace y data key]. rewrite Hm. cbn.
       repeat split; try reflexivity; try lia; try constructor. }
  rewrite (run_after_setup a w0 dev w1 m w2 Hd Hm).
  destruct (loop_log m dev a (iterrows (export_formats L)) (entered a w2))
    as [blocks [new [Ht [Hy [Hw [Hl HF]]]]]].
  unfold iterrows in *. rewrite iterrows_from_snd, iterrows_length in *.
  rewrite bind_run.
  destruct (loop L m dev a (iterrows_from 0 (export_formats L)) (entered a w2))
    as [[[] | e] s1]; cbn [snd] in *.
  - pose proof (tail_effect m dev a s1) as Hq. unfold wp in Hq.
    assert (Hfin : forall s' : St,
               (exists evs', trace s' = trace s1 ++ evs'
                             /\ y s' = y s1 /\ data s' = data s1
                             /\ key s' = key s1 /\ quiet evs') ->
               exists pre blocks0 post,
                 trace s' = pre ++ concat blocks0 ++ post
                 /\ quiet pre /\ quiet post
                 /\ warned (concat blocks0) = failed_names (y s')
                 /\ length blocks0 <= length (export_formats L)
                 /\ Forall2 turn_calls
                      (firstn (length blocks0) (export_formats L)) blocks0).
    { intros s' [evs' [Ht' [Hy' [_ [_ Hq']]]]].
      exists (trace (entered a w2)), blocks, evs'.
      rewrite Ht', Ht, Hy', Hy, Hw, <- app_assoc.
      destruct Hq' as [Q1 [Q2 Q3]].
      repeat split; try assumption; reflexivity. }
    destruct ((df <- report L m dev a;; floor_check L (hard_fail a) df) s1)
      as [[[] | e] s2]; cbn [snd]; apply Hfin; exact Hq.
  - exists (trace (entered a w2)), blocks, [].
    rewrite Ht, Hy, Hw, app_nil_r.
    repeat split; try assumption; reflexivity.
Qed.

Lemma loop_split m dev a rows_ : forall (s : St) e s',
  loop L m dev a rows_ s = (Raise e, s') ->
  exists pre i r rest s0,
    rows_ = pre ++ (i, r) :: rest
    /\ loop L m dev a pre s = (Ret tt, s0)
    /\ iteration L m dev a i r s0 = (Raise e, s').
Proof.
  induction rows_ as [| [i r] rest IH]; intros s e s' H.
  - discriminate H.
  - rewrite loop_cons in H.
    destruct (iteration L m dev a i r s) as [[[] | e1] s1] eqn:E.
    + destruct (IH s1 e s' H) as [pre [i' [r' [rest' [s0 [-> [Hl Hi]]]]]]].
      exists ((i, r) :: pre), i', r', rest', s0.
      split; [reflexivity |]. split; [| exact Hi].
      rewrite loop_cons, E. exact Hl.
    + injection H as <- <-. exists [], i, r, rest, s. auto.
Qed.

Lemma loop_app m dev a pre : forall rest (s s0 : St),
  loop L m dev a pre s = (Ret tt, s0) ->
  loop L m dev a (pre ++ rest) s = loop L m dev a rest s0.
Proof.
  induction pre as [| [i r] pre IH]; intros rest s s0 H.
  - injection H as <-. reflexivity.
  - cbn [app]. rewrite loop_cons in *.
    destruct (iteration L m dev a i r s) as [[[] | e1] s1]; [| discriminate H].
    apply IH. exact H.
Qed.

Lemma iterrows_from_split t : forall k pre i r rest,
  iterrows_from k t = pre ++ (i, r) :: rest ->
  i = k + length pre
  /\ nth_error t (length pre) = Some r
  /\ pre = iterrows_from k (firstn (length pre) t).
Proof.
  induction t as [| x t' IH]; intros k pre i r rest H.
  - destruct pre; discriminate H.
  - destruct pre as [| p pre']; cbn in H.
    + injection H as <- <- _. cbn. auto.
    + injection H as <- H. destruct (IH (S k) pre' i r rest H) as [-> [Hn Hp]].
      cbn [length nth_error firstn iterrows_from].
      split; [lia |]. split; [exact Hn |]. rewrite <- Hp. reflexivity.
Qed.

Lemma iteration_raise_rows m dev a i r (s s' : St) e :
  bound_ok s ->
  iteration L m dev a i r s = (Raise e, s') -> y s' = y s.
Proof.
  intros Hb. pose proof (attempt_rows L m dev a i r s Hb) as H.
  unfold wp, iteration, try_except_Exception in *.
  destruct (attempt L m dev a i r s) as [[[] | e0] s1]; [discriminate |].
  destruct H as [_ Hy].
  destruct (is_Exception e0).
  - unfold handler.
    destruct (truthy (hard_fail a)); [destruct (is_AssertionError e0) |];
      cbn; intro E; try discriminate E; injection E as _ <-; exact Hy.
  - intro E. injection E as _ <-. exact Hy.
Qed.

(** *** The amended claim on exceptions

    It is stated here because its last part is about the whole run. *)

(** C6, as amended.  When [hard_fail] is falsy, an exception of the
    attempt that is an instance of Exception is caught: the turn of the loop
    returns normally, having logged a warning and appended the row of the
    format with size, metric and speed all None, and the loop goes on with
    the remaining rows.  An exception that is not an instance of Exception
    (KeyboardInterrupt, SystemExit) is not caught: the turn of the loop and
    the loop raise it in the state the attempt left, without a warning or a
    row, and when the run reaches this turn the run ends with it. *)
Theorem C6_exceptions_are_downgraded m dev a i r rest (s s' : St) e :
  truthy (hard_fail a) = false ->
  attempt L m dev a i r s = (Raise e, s') ->
  (is_Exception e = true ->
   iteration L m dev a i r s = (Ret tt, after_failure r e s')
   /\ trace (after_failure r e s') = trace s' ++ [EvWarning (name r) (msg e)]
   /\ y (after_failure r e s') = y s' ++ [mkRow (name r) Failed None None None]
   /\ loop L m dev a ((i, r) :: rest) s
      = loop L m dev a rest (after_failure r e s'))
  /\ (is_Exception e = false ->
      iteration L m dev a i r s = (Raise e, s')
      /\ loop L m dev a ((i, r) :: rest) s = (Raise e, s')
      /\ (forall pre (w0 w1 w2 : world),
            torch_device L (device_of (device a)) w0 = (Ret dev, w1) ->
            YOLO L (a_model a) w1 = (Ret m, w2) ->
            iterrows (export_formats L) = pre ++ (i, r) :: rest ->
            loop L m dev a pre (entered a w2) = (Ret tt, s) ->
            run_benchmarks L a w0 = (Raise e, s'))).
Proof.
  intros Hf E. split; intro He.
  - assert (It := iteration_caught L m dev a i r s s' e E He (or_introl Hf)).
    split; [exact It |]. split; [reflexivity |]. split; [reflexivity |].
    rewrite loop_cons, It. reflexivity.
  - assert (It := iteration_uncaught L m dev a i r s s' e E He).
    assert (Lo : loop L m dev a ((i, r) :: rest) s = (Raise e, s')).
    { rewrite loop_cons, It. reflexivity. }
    split; [exact It |]. split; [exact Lo |].
    intros pre w0 w1 w2 Hd Hm Hs Hl.
    rewrite (run_after_setup a w0 dev w1 m w2 Hd Hm), bind_run, Hs.
    rewrite (loop_app m dev a pre _ _ _ Hl), Lo. reflexivity.
Qed.

(** *** Further properties *)

(** X1. Once the device and the model are made, the results follow the
    table.  When the loop is completed, they hold one row per format, in
    the order of the table, each measured or failed, whatever the report and
    the floor do afterwards.  When the loop is aborted, the run ends with
    the exception of the turn that raised, the one of the format at some
    index [n] of the table, the turns before it having returned, and the
    results hold exactly the rows of the [n] formats before it. *)
Theorem X1_results_follow_a_prefix_of_the_table a (w0 : world) dev w1 m w2 :
  torch_device L (device_of (device a)) w0 = (Ret dev, w1) ->
  YOLO L (a_model a) w1 = (Ret m, w2) ->
  (forall s1,
      loop L m dev a (iterrows (export_formats L)) (entered a w2)
      = (Ret tt, s1) ->
      Forall2 recorded_for (export_formats L)
              (y (snd (run_benchmarks L a w0))))
  /\ (forall e s1,
        loop L m dev a (iterrows (export_formats L)) (entered a w2)
        = (Raise e, s1) ->
        run_benchmarks L a w0 = (Raise e, s1)
        /\ exists n r s0,
             nth_error (export_formats L) n = Some r
             /\ loop L m dev a (iterrows (firstn n (export_formats L)))
                     (entered a w2)
                = (Ret tt, s0)
             /\ iteration L m dev a n r s0 = (Raise e, s1)
             /\ Forall2 recorded_for (firstn n (export_formats L)) (y s1)).
Proof.
  intros Hd Hm. rewrite (run_after_setup a w0 dev w1 m w2 Hd Hm).
  split.
  - intros s1 H. rewrite bind_run, H.
    apply loop_rows in H; [| left; split; reflexivity].
    destruct H as [_ [new [Hy HF]]]. cbn in Hy.
    unfold iterrows in HF. rewrite iterrows_from_snd in HF.
    pose proof (tail_effect m dev a s1) as Hq. unfold wp in Hq.
    destruct ((df <- report L m dev a;; floor_check L (hard_fail a) df) s1)
      as [[[] | e] s2]; cbn [snd];
      destruct Hq as [evs [_ [Hy' _]]]; rewrite Hy', Hy; exact HF.
  - intros e s1 H. rewrite bind_run, H. split; [reflexivity |].
    destruct (loop_split m dev a _ _ _ _ H)
      as [pre [i [r [rest [s0 [Hs [Hl Hi]]]]]]].
    unfold iterrows in Hs.
    destruct (iterrows_from_split _ _ _ _ _ _ Hs) as [Hn [Hr Hp]].
    cbn in Hn. subst i.
    exists (length pre), r, s0.
    split; [exact Hr |]. unfold iterrows. rewrite <- Hp.
    split; [exact Hl |]. split; [exact Hi |].
    apply loop_rows in Hl; [| left; split; reflexivity].
    destruct Hl as [Hb [new [Hy HF]]]. cbn in Hy.
    rewrite (iteration_raise_rows m dev a _ r s0 s1 e Hb Hi), Hy.
    rewrite Hp, iterrows_from_snd in HF. exact HF.
Qed.

(** X2. A format is never marked failed silently, and no warning is
    logged for a measured format.  A turn of the loop either appends the
    failed row of its format and logs one warning, which names that format,
    or logs no warning and appends a measured row of its format or nothing.
    However a run ends, the formats its warnings name are, in order, the
    names of the failed rows of the results. *)
Theorem X2_one_warning_per_failed_row :
  (forall m dev a i r (s : St),
      exists evs new,
        trace (snd (iteration L m dev a i r s)) = trace s ++ evs
        /\ y (snd (iteration L m dev a i r s)) = y s ++ new
        /\ turn_record r evs new)
  /\ (forall a (w0 : world),
        warned (trace (snd (run_benchmarks L a w0)))
        = failed_names (y (snd (run_benchmarks L a w0)))).
Proof.
  split.
  - intros m dev a i r s.
    destruct (iteration_calls m dev a i r s) as [evs [new [Ht [Hy [Hr _]]]]].
    exists evs, new. auto.
  - intros a w0.
    destruct (run_log a w0) as [pre [blocks [post [Ht [Hp [Hq [Hw _]]]]]]].
    rewrite Ht, !warned_app, Hw.
    rewrite (quiet_warned pre (proj1 Hp)), (quiet_warned post (proj1 Hq)).
    cbn [app]. apply app_nil_r.
Qed.

(** X3. A turn of the loop calls the exporter at most once, with the
    format argument of its row and never for the '-' of PyTorch, and the
    validator at most once.  However a run ends, its log is what precedes
    the loop, then one such block of events per format the loop reached, in
    the order of the table, then what follows the loop; nothing is exported
    or validated outside these blocks. *)
Theorem X3_at_most_one_export_and_validation_per_format :
  (forall m dev a i r (s : St),
      exists evs,
        trace (snd (iteration L m dev a i r s)) = trace s ++ evs
        /\ turn_calls r evs)
  /\ (forall a (w0 : world),
        exists pre blocks post,
          trace (snd (run_benchmarks L a w0)) = pre ++ concat blocks ++ post
          /\ quiet pre /\ quiet post
          /\ length blocks <= length (export_formats L)
          /\ Forall2 turn_calls
               (firstn (length blocks) (export_formats L)) blocks).
Proof.
  split.
  - intros m dev a i r s.
    destruct (iteration_calls m dev a i r s) as [evs [new [Ht [_ [_ Hc]]]]].
    exists evs. auto.
  - intros a w0.
    destruct (run_log a w0) as [pre [blocks [post [Ht [Hp [Hq [_ [Hl HF]]]]]]]].
    exists pre, blocks, post. auto.
Qed.

(** X4. A report is only printed for a model whose task is "detect",
    "segment" or "classify", and its fourth column is named after the metric
    of that task; the data set named in the completion line is the one of
    the task too. *)
Theorem X4_report_names_the_metric_of_the_task a (w0 : world) dev w1 m w2
    df (s1 : St) :
  torch_device L (device_of (device a)) w0 = (Ret dev, w1) ->
  YOLO L (a_model a) w1 = (Ret m, w2) ->
  through_report L a (start w0) = (Ret df, s1) ->
  exists d k,
    task_data_key (task m) = Some (d, k)
    /\ data s1 = Some d /\ key s1 = Some k
    /\ columns df = full_columns k
    /\ In (EvInfoComplete (ckpt_path m) d (imgsz a)) (trace s1).
Proof.
  intros Hd Hm H. unfold through_report in H. rewrite bind_run in H.
  unfold through_loop in H. rewrite bind_run in H.
  unfold call at 1, start in H. cbn [w trace y data key] in H.
  rewrite Hd in H. rewrite bind_run in H.
  unfold call at 1 in H. cbn [w trace y data key app] in H.
  rewrite Hm in H. rewrite bind_run in H.
  pose proof (loop_effect m dev a (iterrows (export_formats L))
                (entered a w2) (or_introl (conj eq_refl eq_refl))) as Hl.
  unfold wp, entered in Hl.
  destruct (loop L m dev a (iterrows (export_formats L)) _) as [[[] | e] s0];
    [| discriminate H].
  destruct Hl as [_ [_ [_ [_ [_ [_ [_ [_ [Hok _]]]]]]]]].
  unfold ret in H. cbn [fst snd] in H.
  apply report_shape in H.
  destruct H as [k [d [w3 [Hk [Hdata [_ [Hdf Hs1]]]]]]].
  exists d, k.
  destruct Hok as [[Hn _] | [d' [k' [Ht [Hd' Hk']]]]]; [congruence |].
  rewrite Hdata in Hd'. rewrite Hk in Hk'.
  injection Hd' as <-. injection Hk' as <-.
  split; [exact Ht |]. rewrite Hs1, Hdf. cbn [data key columns trace].
  repeat split; auto.
  apply in_or_app. right. cbn. auto.
Qed.


Lemma failed_rows_are_null (t : list format_row) :
  Forall (fun row => r_status row = Failed /\ all_null row)
         (map failed_row t).
Proof.
  apply Forall_forall. intros row Hin. apply in_map_iff in Hin.
  destruct Hin as [r [<- _]]. repeat split.
Qed.

(** X5. When the task of the model is none of "detect", "segment" and
    "classify", no format is ever measured: however the run ends, every row
    of the results is a failed row, and the run never returns normally (at
    the latest, the report stops at the unbound metric name). *)
Theorem X5_unknown_task_measures_nothing a (w0 : world) dev w1 m w2 :
  torch_device L (device_of (device a)) w0 = (Ret dev, w1) ->
  YOLO L (a_model a) w1 = (Ret m, w2) ->
  task_data_key (task m) = None ->
  Forall (fun row => r_status row = Failed /\ all_null row)
         (y (snd (run_benchmarks L a w0)))
  /\ exists e, fst (run_benchmarks L a w0) = Raise e.
Proof.
  intros Hd Hm Hnone. rewrite (run_after_setup a w0 dev w1 m w2 Hd Hm).
  pose proof (loop_effect m dev a (iterrows (export_formats L))
                (entered a w2) (or_introl (conj eq_refl eq_refl))) as Hl.
  unfold wp in Hl. rewrite bind_run.
  destruct (loop L m dev a (iterrows (export_formats L)) (entered a w2))
    as [[[] | e] s1].
  - destruct Hl as [evs [new [_ [Hy [_ [_ [_ [_ [Hok Hnew]]]]]]]]].
    assert (Hk : key s1 = None).
    { destruct Hok as [[_ Hk] | [d [k [Ht _]]]]; [exact Hk | congruence]. }
    rewrite bind_run.
    destruct (report_unbound m dev a s1 Hk) as [e [s' [Hr [Hy' _]]]].
    rewrite Hr. cbn [fst snd]. split; [| exists e; reflexivity].
    rewrite Hy', Hy, (Hnew Hnone). cbn [y entered app].
    apply failed_rows_are_null.
  - destruct Hl as [n [_ [evs [new [_ [Hy [_ [_ [_ [_ [_ Hnew]]]]]]]]]]].
    cbn [fst snd]. split; [| exists e; reflexivity].
    rewrite Hy, (Hnew Hnone). cbn [y entered app].
    apply failed_rows_are_null.
Qed.

Lemma loop_all_unsupported m dev a rows_ : forall (s : St),
  forallb (fun ir => unsupported L dev (fst ir) (snd ir)) rows_ = true ->
  loop L m dev a rows_ s
  = (Ret tt,
     mkSt (w s) (trace s ++ map (unsupported_warning L dev) rows_)
          (y s ++ map (fun ir => failed_row (snd ir)) rows_)
          (data s) (key s)).
Proof.
  induction rows_ as [| [i r] rest IH]; intros s H.
  - cbn. rewrite !app_nil_r. destruct s; reflexivity.
  - cbn [forallb fst snd] in H. apply andb_true_iff in H.
    destruct H as [Hu Hrest].
    rewrite loop_cons.
    rewrite (iteration_caught L m dev a i r s s
               (mkExn AssertionError (unsupported_text L dev i r))
               (attempt_unsupported L m dev a i r s Hu) eq_refl
               (or_intror eq_refl)).
    rewrite (IH _ Hrest). unfold after_failure.
    cbn [w trace y data key map fst snd msg unsupported_warning].
    rewrite <- !app_assoc. reflexivity.
Qed.

(** X6. When every row of the table is an unsupported combination for
    the device, and in particular when the table is empty, the loop records
    a failed row per format without calling the library, and the run then
    ends with the UnboundLocalError of [key] instead of printing a
    report. *)
Theorem X6_nothing_supported_ends_in_unbound_key a (w0 : world) dev w1 m w2
    w3 :
  torch_device L (device_of (device a)) w0 = (Ret dev, w1) ->
  YOLO L (a_model a) w1 = (Ret m, w2) ->
  forallb (fun ir => unsupported L dev (fst ir) (snd ir))
          (iterrows (export_formats L)) = true ->
  check_yolo L dev w2 = (Ret tt, w3) ->
  run_benchmarks L a w0
  = (Raise (unbound "key"),
     mkSt w3
          ([EvTorchDevice (device_of (device a)); EvYOLO (a_model a)]
           ++ map (unsupported_warning L dev) (iterrows (export_formats L))
           ++ [EvInfoBlank; EvCheckYolo dev])
          (map failed_row (export_formats L)) None None).
Proof.
  intros Hd Hm Hall Hc. rewrite (run_after_setup a w0 dev w1 m w2 Hd Hm).
  rewrite bind_run, (loop_all_unsupported m dev a _ _ Hall).
  rewrite bind_run.
  destruct (report_unbound m dev a
              (mkSt w2 (trace (entered a w2)
                        ++ map (unsupported_warning L dev)
                             (iterrows (export_formats L)))
                    (y (entered a w2)
                     ++ map (fun ir => failed_row (snd ir))
                          (iterrows (export_formats L)))
                    None None) eq_refl) as [e [s' [Hr [_ Hs]]]].
  cbn [w entered data key] in *. rewrite Hr.
  destruct (Hs w3 Hc) as [-> ->]. cbn [trace y entered app].
  rewrite <- (map_map snd failed_row).
  unfold iterrows. rewrite iterrows_from_snd.
  rewrite <- ?app_assoc. reflexivity.
Qed.


(** The four leading assertions let a supported row through. *)
Lemma checks_pass {B} dev i r (K : M St B) (s : St) :
  unsupported L dev i r = false ->
  (py_assert (negb ((i =? 9)%nat || (i =? 10)%nat))
             "inference not supported" ;;;
   py_assert (negb (i =? 5)%nat || (platform_system L =? "Darwin"))
             "inference only supported on macOS>=10.13" ;;;
   (if contains "cpu" (dev_type dev)
    then py_assert (cpu r) "inference not supported on CPU"
    else ret tt) ;;;
   (if contains "cuda" (dev_type dev)
    then py_assert (gpu r) "inference not supported on GPU"
    else ret tt) ;;;
   K) s
  = K s.
Proof.
  unfold unsupported. intro H.
  destruct (i =? 9)%nat, (i =? 10)%nat, (i =? 5)%nat,
           (platform_system L =? "Darwin"),
           (contains "cpu" (dev_type dev)), (cpu r),
           (contains "cuda" (dev_type dev)), (gpu r);
    simpl in H; try discriminate H; reflexivity.
Qed.

Ltac run_step :=
  rewrite bind_run; cbn [w trace y data key fst snd].

Ltac by_task Ht :=
  unfold task_data_key in Ht;
  repeat match type of Ht with
         | (if ?c then _ else _) = _ => destruct c
         end;
  try discriminate Ht; injection Ht as <- <-.

(** X7. A format whose export returns a file name that does not contain
    the suffix of the format is a failure of the attempt: after the export
    and the loading of the exported file, the assertion 'export failed'
    stops it, and nothing is validated or measured. *)
Theorem X7_wrong_suffix_is_export_failed m dev a i r (s : St) filename w1
    export w2 :
  unsupported L dev i r = false ->
  (format r =? "-") = false ->
  model_export L m (imgsz a) (format r) (half a) dev (w s)
  = (Ret filename, w1) ->
  YOLO L filename w1 = (Ret export, w2) ->
  contains (suffix r) filename = false ->
  attempt L m dev a i r s
  = (Raise (mkExn AssertionError "export failed"),
     mkSt w2
          (trace s ++ [EvExport m (imgsz a) (format r) (half a) dev;
                       EvYOLO filename])
          (y s) (data s) (key s)).
Proof.
  intros Hu Hf He Hy Hc. unfold attempt. rewrite (checks_pass _ _ _ _ _ Hu).
  rewrite Hf. run_step. run_step. unfold call at 1.
  cbn [w trace y data key]. rewrite He. run_step. unfold call at 1.
  cbn [w trace y data key]. rewrite Hy. unfold ret at 1.
  cbn [fst snd]. run_step. rewrite Hc. cbn.
  rewrite <- app_assoc. reflexivity.
Qed.

(** X8. The measured row.  For a supported format that has to be
    exported, when the export, the loading, the validation and the sizing
    all succeed and the validation reports the metric of the task and the
    inference speed, the attempt calls the exporter, loads the file,
    validates the exported model (not the original one) on the data set of
    the task, sizes the exported file, and appends the row with the size
    rounded to 1 digit, the metric to 4 and the speed to 2. *)
Theorem X8_measured_row_of_an_exported_format m dev a i r (s : St) filename
    w1 export w2 d k results w3 metric sp size w4 :
  unsupported L dev i r = false ->
  (format r =? "-") = false ->
  model_export L m (imgsz a) (format r) (half a) dev (w s)
  = (Ret filename, w1) ->
  YOLO L filename w1 = (Ret export, w2) ->
  contains (suffix r) filename = true ->
  task_data_key (task m) = Some (d, k) ->
  model_val L export d (imgsz a) (half a) dev w2 = (Ret results, w3) ->
  lookup (results_dict results) k = Some metric ->
  lookup (speed results) "inference" = Some sp ->
  file_size L filename w3 = (Ret size, w4) ->
  attempt L m dev a i r s
  = (Ret tt,
     mkSt w4
          (trace s ++ [EvExport m (imgsz a) (format r) (half a) dev;
                       EvYOLO filename;
                       EvVal export d (imgsz a) (half a) dev;
                       EvFileSize filename])
          (y s ++ [mkRow (name r) Passed
                         (Some (py_round L size 1))
                         (Some (py_round L metric 4))
                         (Some (py_round L sp 2))])
          (Some d) (Some k)).
Proof.
  intros Hu Hf He Hy Hc Ht Hv Hm Hs Hz.
  unfold attempt. rewrite (checks_pass _ _ _ _ _ Hu).
  rewrite Hf. run_step. run_step. unfold call at 1.
  cbn [w trace y data key]. rewrite He. run_step. unfold call at 1.
  cbn [w trace y data key]. rewrite Hy. unfold ret at 1.
  cbn [fst snd]. run_step. rewrite Hc. unfold py_assert, ret at 1.
  run_step.
  by_task Ht; unfold assign_data_key at 1; run_step; unfold read_data at 1;
    cbn [w trace y data key]; run_step; unfold call at 1;
    cbn [w trace y data key]; rewrite Hv; run_step; unfold read_key at 1;
    cbn [w trace y data key]; run_step; unfold getitem at 1; rewrite Hm;
    unfold ret at 1; run_step; unfold getitem at 1; rewrite Hs;
    unfold ret at 1; run_step; unfold call at 1;
    cbn [w trace y data key]; rewrite Hz; unfold append_row;
    cbn [w trace y data key]; rewrite <- !app_assoc; reflexivity.
Qed.


(** X9. The row of PyTorch.  For the format '-', nothing is exported or
    loaded: the file is the checkpoint of the model, which must contain the
    suffix, the model itself is validated, and the checkpoint is sized. *)
Theorem X9_pytorch_row_validates_the_model_itself m dev a i r (s : St)
    d k results w1 metric sp size w2 :
  unsupported L dev i r = false ->
  (format r =? "-") = true ->
  contains (suffix r) (ckpt_path m) = true ->
  task_data_key (task m) = Some (d, k) ->
  model_val L m d (imgsz a) (half a) dev (w s) = (Ret results, w1) ->
  lookup (results_dict results) k = Some metric ->
  lookup (speed results) "inference" = Some sp ->
  file_size L (ckpt_path m) w1 = (Ret size, w2) ->
  attempt L m dev a i r s
  = (Ret tt,
     mkSt w2
          (trace s ++ [EvVal m d (imgsz a) (half a) dev;
                       EvFileSize (ckpt_path m)])
          (y s ++ [mkRow (name r) Passed
                         (Some (py_round L size 1))
                         (Some (py_round L metric 4))
                         (Some (py_round L sp 2))])
          (Some d) (Some k)).
Proof.
  intros Hu Hf Hc Ht Hv Hm Hs Hz.
  unfold attempt. rewrite (checks_pass _ _ _ _ _ Hu).
  rewrite Hf. run_step. unfold ret at 1. cbn [fst snd]. run_step.
  rewrite Hc. unfold py_assert, ret at 1. run_step.
  by_task Ht; unfold assign_data_key at 1; run_step; unfold read_data at 1;
    cbn [w trace y data key]; run_step; unfold call at 1;
    cbn [w trace y data key]; rewrite Hv; run_step; unfold read_key at 1;
    cbn [w trace y data key]; run_step; unfold getitem at 1; rewrite Hm;
    unfold ret at 1; run_step; unfold getitem at 1; rewrite Hs;
    unfold ret at 1; run_step; unfold call at 1;
    cbn [w trace y data key]; rewrite Hz; unfold append_row;
    cbn [w trace y data key]; rewrite <- !app_assoc; reflexivity.
Qed.

(** X10. A validation that does not report the metric of the task is a
    failure of the format, whether the format is the '-' of PyTorch or one
    that was exported: reading the metric raises KeyError before the file is
    sized, and with [hard_fail] off the turn of the loop records the failed
    row with the quoted metric name as the text of its warning. *)
Theorem X10_missing_metric_is_a_format_failure m dev a i r (s : St)
    filename export w1 evs d k results w2 :
  unsupported L dev i r = false ->
  staged L m dev a r s filename export w1 evs ->
  contains (suffix r) filename = true ->
  task_data_key (task m) = Some (d, k) ->
  model_val L export d (imgsz a) (half a) dev w1 = (Ret results, w2) ->
  lookup (results_dict results) k = None ->
  attempt L m dev a i r s
  = (Raise (mkExn KeyError ("'" ++ k ++ "'")),
     mkSt w2 (trace s ++ evs ++ [EvVal export d (imgsz a) (half a) dev])
          (y s) (Some d) (Some k))
  /\ (truthy (hard_fail a) = false ->
      iteration L m dev a i r s
      = (Ret tt,
         mkSt w2
              (trace s ++ evs ++ [EvVal export d (imgsz a) (half a) dev;
                                  EvWarning (name r) ("'" ++ k ++ "'")])
              (y s ++ [failed_row r]) (Some d) (Some k))).
Proof.
  intros Hu Hst Hc Ht Hv Hm.
  assert (E : attempt L m dev a i r s
              = (Raise (mkExn KeyError ("'" ++ k ++ "'")),
                 mkSt w2
                      (trace s ++ evs ++ [EvVal export d (imgsz a) (half a) dev])
                      (y s) (Some d) (Some k))).
  { unfold attempt. rewrite (checks_pass _ _ _ _ _ Hu).
    destruct Hst as [[Hf [-> [-> [-> ->]]]] | [Hf [w0 [He [Hy ->]]]]];
      rewrite Hf.
    - run_step. unfold ret at 1. cbn [fst snd]. run_step.
      rewrite Hc. unfold py_assert, ret at 1. run_step.
      by_task Ht; unfold assign_data_key at 1; run_step; unfold read_data at 1;
        cbn [w trace y data key]; run_step; unfold call at 1;
        cbn [w trace y data key]; rewrite Hv; run_step; unfold read_key at 1;
        cbn [w trace y data key]; run_step; unfold getitem at 1; rewrite Hm;
        reflexivity.
    - run_step. run_step. unfold call at 1.
      cbn [w trace y data key]. rewrite He. run_step. unfold call at 1.
      cbn [w trace y data key]. rewrite Hy. unfold ret at 1.
      cbn [fst snd]. run_step. rewrite Hc. unfold py_assert, ret at 1.
      run_step.
      by_task Ht; unfold assign_data_key at 1; run_step; unfold read_data at 1;
        cbn [w trace y data key]; run_step; unfold call at 1;
        cbn [w trace y data key]; rewrite Hv; run_step; unfold read_key at 1;
        cbn [w trace y data key]; run_step; unfold getitem at 1; rewrite Hm;
        rewrite <- !app_assoc; reflexivity. }
  split; [exact E |]. intro Hhf.
  rewrite (iteration_caught L m dev a i r s _ _ E eq_refl (or_introl Hhf)).
  unfold after_failure. cbn [w trace y data key msg].
  rewrite <- !app_assoc. reflexivity.
Qed.

Lemma handler_truthy hf1 hf2 r e (s : St) :
  truthy hf1 = truthy hf2 -> handler hf1 r e s = handler hf2 r e s.
Proof. intro H. unfold handler. rewrite H. reflexivity. Qed.

Lemma loop_truthy m dev a hf1 hf2 rows_ : forall (s : St),
  truthy hf1 = truthy hf2 ->
  loop L m dev (with_hard_fail a hf1) rows_ s
  = loop L m dev (with_hard_fail a hf2) rows_ s.
Proof.
  induction rows_ as [| [i r] rest IH]; intros s H; [reflexivity |].
  rewrite !loop_cons.
  assert (E : iteration L m dev (with_hard_fail a hf1) i r s
              = iteration L m dev (with_hard_fail a hf2) i r s).
  { unfold iteration, try_except_Exception.
    change (attempt L m dev (with_hard_fail a hf1) i r s)
      with (attempt L m dev (with_hard_fail a hf2) i r s).
    destruct (attempt L m dev (with_hard_fail a hf2) i r s) as [[[] | e] s1];
      [reflexivity |].
    destruct (is_Exception e); [| reflexivity].
    apply handler_truthy. exact H. }
  rewrite E.
  destruct (iteration L m dev (with_hard_fail a hf2) i r s) as [[[] | e] s1];
    [apply IH; exact H | reflexivity].
Qed.

(** X11. A [hard_fail] for which no floor is checked (anything but a
    non-empty string) matters through its truth value only: two runs whose
    [hard_fail] have the same truth value are the same run.  So the empty
    string is [False], and 1 is [True]. *)
Theorem X11_only_the_truth_of_hard_fail_matters a hf1 hf2 (w0 : world) :
  truthy hf1 = truthy hf2 ->
  truthy hf1 && is_str hf1 = false ->
  truthy hf2 && is_str hf2 = false ->
  run_benchmarks L (with_hard_fail a hf1) w0
  = run_benchmarks L (with_hard_fail a hf2) w0.
Proof.
  intros Ht H1 H2.
  unfold run_benchmarks. rewrite !run_benchmarks_from_split.
  rewrite !bind_run.
  assert (E : through_loop L (with_hard_fail a hf1) (start w0)
              = through_loop L (with_hard_fail a hf2) (start w0)).
  { unfold through_loop. rewrite !bind_run.
    change (device (with_hard_fail a hf1)) with (device a).
    change (device (with_hard_fail a hf2)) with (device a).
    change (a_model (with_hard_fail a hf1)) with (a_model a).
    change (a_model (with_hard_fail a hf2)) with (a_model a).
    destruct (call _ (torch_device L (device_of (device a))) (start w0))
      as [[dev | e] s1]; [| reflexivity].
    rewrite !bind_run.
    destruct (call _ (YOLO L (a_model a)) s1) as [[m | e] s2]; [| reflexivity].
    rewrite !bind_run. rewrite (loop_truthy m dev a hf1 hf2 _ s2 Ht).
    reflexivity. }
  rewrite E.
  destruct (through_loop L (with_hard_fail a hf2) (start w0))
    as [[md | e] s1]; [| reflexivity].
  rewrite !bind_run.
  change (report L (fst md) (snd md) (with_hard_fail a hf1) s1)
    with (report L (fst md) (snd md) (with_hard_fail a hf2) s1).
  destruct (report L (fst md) (snd md) (with_hard_fail a hf2) s1)
    as [[df | e] s2]; [| reflexivity].
  cbn [hard_fail with_hard_fail].
  rewrite !floor_check_skipped by assumption. reflexivity.
Qed.


(** X12. The device and the model are made outside the [try]: an
    exception of [torch.device] or of [YOLO], of whatever class and whatever
    [hard_fail] is, ends the run at once, with empty results and before any
    format is tried. *)
Theorem X12_device_and_model_failures_end_the_run a (w0 : world) :
  (forall e w1,
     torch_device L (device_of (device a)) w0 = (Raise e, w1) ->
     run_benchmarks L a w0
     = (Raise e,
        mkSt w1 [EvTorchDevice (device_of (device a))] [] None None))
  /\ (forall dev w1 e w2,
        torch_device L (device_of (device a)) w0 = (Ret dev, w1) ->
        YOLO L (a_model a) w1 = (Raise e, w2) ->
        run_benchmarks L a w0
        = (Raise e,
           mkSt w2 [EvTorchDevice (device_of (device a));
                    EvYOLO (a_model a)] [] None None)).
Proof.
  split.
  - intros e w1 Hd. unfold run_benchmarks. rewrite run_benchmarks_from_split.
    rewrite bind_run. unfold through_loop. rewrite bind_run.
    unfold call at 1, start. cbn [w trace y data key]. rewrite Hd.
    reflexivity.
  - intros dev w1 e w2 Hd Hm. unfold run_benchmarks.
    rewrite run_benchmarks_from_split.
    rewrite bind_run. unfold through_loop. rewrite bind_run.
    unfold call at 1, start. cbn [w trace y data key]. rewrite Hd.
    rewrite bind_run. unfold call at 1. cbn [w trace y data key].
    rewrite Hm. reflexivity.
Qed.

(** X13. A floor is only compared with measured metrics: when the report
    is printed but every row of the results is a failed row, a run with a
    floor expression returns normally, whatever the floor is. *)
Theorem X13_floor_passes_when_nothing_was_measured a (w0 : world) expr df
    (s1 : St) floor w2 :
  hard_fail a = HFStr expr -> expr <> "" ->
  through_report L a (start w0) = (Ret df, s1) ->
  py_eval L expr (y s1) (w s1) = (Ret floor, w2) ->
  Forall all_null (y s1) ->
  fst (run_benchmarks L a w0) = Ret tt.
Proof.
  intros Hhf Hne Hrep He Hnull.
  destruct (run_with_floor L a w0 expr df s1 floor w2 Hhf Hne Hrep He)
    as [Hrun _].
  rewrite Hrun. cbn [fst].
  replace (all_measured_above floor (y s1)) with true; [reflexivity |].
  symmetry. apply all_measured_above_true.
  intros x [row [Hin Hm]]. rewrite Forall_forall in Hnull.
  destruct (Hnull row Hin) as [_ [Hmn _]]. congruence.
Qed.

(** X14. The floor expression is evaluated outside any [try]: when [eval]
    raises (a syntax error, an unknown name), the run ends with that
    exception, after the report was printed and without any comparison. *)
Theorem X14_floor_expression_errors_end_the_run a (w0 : world) expr df
    (s1 : St) e w2 :
  hard_fail a = HFStr expr -> expr <> "" ->
  through_report L a (start w0) = (Ret df, s1) ->
  py_eval L expr (y s1) (w s1) = (Raise e, w2) ->
  run_benchmarks L a w0
  = (Raise e, mkSt w2 (trace s1 ++ [EvEval expr]) (y s1) (data s1) (key s1)).
Proof.
  intros Hhf Hne Hrep He.
  unfold run_benchmarks, run_benchmarks_from. rewrite bind_run, Hrep, Hhf.
  unfold through_report in Hrep. rewrite bind_run in Hrep.
  destruct (through_loop L a (start w0)) as [[md | e0] s0] eqn:Hloop;
    [| discriminate Hrep].
  apply through_loop_rows in Hloop. destruct Hloop as [Hb _].
  apply report_shape in Hrep.
  destruct Hrep as [k [d [w1 [Hk [Hd [_ [Hdf Hs1]]]]]]].
  assert (Hin : In k metric_keys).
  { destruct Hb as [[_ Hn] | [d' [k' [_ [Hk' Hin]]]]]; [congruence |].
    rewrite Hk in Hk'. injection Hk' as <-. exact Hin. }
  assert (Hk1 : key s1 = Some k) by (rewrite Hs1; exact Hk).
  unfold floor_check.
  replace (truthy (HFStr expr)) with true
    by (cbn; destruct (String.eqb_spec expr ""); [contradiction | reflexivity]).
  cbn [is_str andb]. rewrite bind_run. unfold read_key at 1. rewrite Hk1.
  rewrite bind_run. unfold df_getitem_array. rewrite Hdf. cbn [columns rows].
  rewrite (positions_metric k Hin). unfold ret at 1.
  rewrite bind_run. unfold read_y at 1. rewrite bind_run.
  unfold call. rewrite He. rewrite ?Hk1. reflexivity.
Qed.

End MoreFacts.

(** *** The further properties on sample runs *)

Lemma C6_witness :
  attempt broken_library sample_model cpu_dev (sample_args (HFBool false))
    2 onnx_row (start 0)
  = (Raise (mkExn (LibraryError "RuntimeError") "export stopped"),
     broken_state)
  /\ iteration broken_library sample_model cpu_dev
       (sample_args (HFBool false)) 2 onnx_row (start 0)
     = (Ret tt,
        after_failure onnx_row
          (mkExn (LibraryError "RuntimeError") "export stopped") broken_state)
  /\ iteration interrupted_library sample_model cpu_dev
       (sample_args (HFBool false)) 1 onnx_row (start 0)
     = (Raise (mkExn KeyboardInterrupt "export stopped"), interrupted_state).
Proof.
  assert (H1 : attempt broken_library sample_model cpu_dev
                 (sample_args (HFBool false)) 2 onnx_row (start 0)
               = (Raise (mkExn (LibraryError "RuntimeError") "export stopped"),
                  broken_state)) by (vm_compute; reflexivity).
  assert (H2 : attempt interrupted_library sample_model cpu_dev
                 (sample_args (HFBool false)) 1 onnx_row (start 0)
               = (Raise (mkExn KeyboardInterrupt "export stopped"),
                  interrupted_state)) by (vm_compute; reflexivity).
  split; [exact H1 |]. split.
  - exact (proj1 (proj1 (C6_exceptions_are_downgraded
                           broken_library sample_model cpu_dev
                           (sample_args (HFBool false)) 2 onnx_row []
                           (start 0) broken_state
                           (mkExn (LibraryError "RuntimeError")
                                  "export stopped")
                           eq_refl H1) eq_refl)).
  - exact (proj1 (proj2 (C6_exceptions_are_downgraded
                           interrupted_library sample_model cpu_dev
                           (sample_args (HFBool false)) 1 onnx_row []
                           (start 0) interrupted_state
                           (mkExn KeyboardInterrupt "export stopped")
                           eq_refl H2) eq_refl)).
Defined.

Lemma X1_witness :
  loop good_library (mkModel "detect" "yolov8n.pt" 1) cpu_dev low_args
       (iterrows (export_formats good_library)) (entered low_args 2)
  = (Ret tt, good_loop_state)
  /\ Forall2 recorded_for (export_formats good_library)
             (y (snd (run_benchmarks good_library low_args 0))).
Proof.
  assert (H : loop good_library (mkModel "detect" "yolov8n.pt" 1) cpu_dev
                low_args (iterrows (export_formats good_library))
                (entered low_args 2)
              = (Ret tt, good_loop_state)) by (vm_compute; reflexivity).
  split; [exact H |].
  exact (proj1 (X1_results_follow_a_prefix_of_the_table
                  good_library low_args 0 cpu_dev 1
                  (mkModel "detect" "yolov8n.pt" 1) 2 eq_refl eq_refl)
           good_loop_state H).
Defined.

Lemma X4_witness :
  through_report good_library low_args (start 0) = (Ret good_df, good_state)
  /\ exists d k,
       task_data_key (task sample_model) = Some (d, k)
       /\ data good_state = Some d /\ key good_state = Some k
       /\ columns good_df = full_columns k
       /\ In (EvInfoComplete (ckpt_path sample_model) d (imgsz low_args))
             (trace good_state).
Proof.
  assert (H : through_report good_library low_args (start 0)
              = (Ret good_df, good_state)) by (vm_compute; reflexivity).
  split; [exact H |].
  exact (X4_report_names_the_metric_of_the_task
           good_library low_args 0 cpu_dev 1 sample_model 2 good_df
           good_state eq_refl eq_refl H).
Defined.

Lemma X5_witness :
  task_data_key (task pose_model) = None
  /\ Forall (fun row => r_status row = Failed /\ all_null row)
            (y (snd (run_benchmarks pose_library
                       (sample_args (HFBool false)) 0)))
  /\ exists e,
       fst (run_benchmarks pose_library (sample_args (HFBool false)) 0)
       = Raise e.
Proof.
  split; [reflexivity |].
  exact (X5_unknown_task_measures_nothing
           pose_library (sample_args (HFBool false)) 0 cpu_dev 1 pose_model 2
           eq_refl eq_refl eq_refl).
Defined.

Lemma X6_witness :
  unsupported gpu_only_library cpu_dev 0 tensorrt_row = true
  /\ run_benchmarks gpu_only_library (sample_args (HFBool false)) 0
     = (Raise (unbound "key"),
        mkSt 3
             [EvTorchDevice (DevName "cpu"); EvYOLO "yolov8n.pt";
              EvWarning "TensorRT" "inference not supported on CPU";
              EvInfoBlank; EvCheckYolo cpu_dev]
             [failed_row tensorrt_row] None None).
Proof.
  split; [reflexivity |].
  exact (X6_nothing_supported_ends_in_unbound_key
           gpu_only_library (sample_args (HFBool false)) 0 cpu_dev 1
           sample_model 2 3 eq_refl eq_refl eq_refl eq_refl).
Defined.

Lemma X7_witness :
  contains ".onnx" "model.bin" = false
  /\ attempt misnamed_library sample_model cpu_dev
       (sample_args (HFBool false)) 2 onnx_row (start 0)
     = (Raise (mkExn AssertionError "export failed"),
        mkSt 2 [EvExport sample_model 160 "onnx" false cpu_dev;
                EvYOLO "model.bin"] [] None None).
Proof.
  split; [reflexivity |].
  exact (X7_wrong_suffix_is_export_failed
           misnamed_library sample_model cpu_dev (sample_args (HFBool false))
           2 onnx_row (start 0) "model.bin" 1 (mkModel "detect" "model.bin" 1)
           2 eq_refl eq_refl eq_refl eq_refl eq_refl).
Defined.

Lemma X8_witness :
  attempt good_library sample_model cpu_dev (sample_args (HFBool false))
    2 onnx_row (start 0)
  = (Ret tt,
     mkSt 4
          [EvExport sample_model 160 "onnx" false cpu_dev;
           EvYOLO "yolov8n.onnx";
           EvVal (mkModel "detect" "yolov8n.onnx" 1) "coco128.yaml" 160
                 false cpu_dev;
           EvFileSize "yolov8n.onnx"]
          [mkRow "ONNX" Passed (Some (6 # 1)%Q) (Some (1 # 2)%Q)
                 (Some (12 # 1)%Q)]
          (Some "coco128.yaml") (Some "metrics/mAP50-95(B)")).
Proof.
  exact (X8_measured_row_of_an_exported_format
           good_library sample_model cpu_dev (sample_args (HFBool false))
           2 onnx_row (start 0) "yolov8n.onnx" 1
           (mkModel "detect" "yolov8n.onnx" 1) 2
           "coco128.yaml" "metrics/mAP50-95(B)" good_results 3
           (1 # 2)%Q (12 # 1)%Q (6 # 1)%Q 4
           eq_refl eq_refl eq_refl eq_refl eq_refl eq_refl eq_refl eq_refl
           eq_refl eq_refl).
Defined.

Lemma X9_witness :
  attempt good_library sample_model cpu_dev (sample_args (HFBool false))
    0 pytorch_row (start 0)
  = (Ret tt,
     mkSt 2
          [EvVal sample_model "coco128.yaml" 160 false cpu_dev;
           EvFileSize "yolov8n.pt"]
          [mkRow "PyTorch" Passed (Some (6 # 1)%Q) (Some (1 # 2)%Q)
                 (Some (12 # 1)%Q)]
          (Some "coco128.yaml") (Some "metrics/mAP50-95(B)")).
Proof.
  exact (X9_pytorch_row_validates_the_model_itself
           good_library sample_model cpu_dev (sample_args (HFBool false))
           0 pytorch_row (start 0)
           "coco128.yaml" "metrics/mAP50-95(B)" good_results 1
           (1 # 2)%Q (12 # 1)%Q (6 # 1)%Q 2
           eq_refl eq_refl eq_refl eq_refl eq_refl eq_refl eq_refl eq_refl).
Defined.

Lemma X10_witness :
  lookup (results_dict no_metric_results) "metrics/mAP50-95(B)" = None
  /\ iteration no_metric_library sample_model cpu_dev
       (sample_args (HFBool false)) 1 onnx_row (start 0)
     = (Ret tt,
        mkSt 3
             [EvExport sample_model 160 "onnx" false cpu_dev;
              EvYOLO "yolov8n.onnx";
              EvVal (mkModel "detect" "yolov8n.onnx" 1) "coco128.yaml" 160
                    false cpu_dev;
              EvWarning "ONNX" "'metrics/mAP50-95(B)'"]
             [failed_row onnx_row]
             (Some "coco128.yaml") (Some "metrics/mAP50-95(B)")).
Proof.
  split; [reflexivity |].
  exact (proj2 (X10_missing_metric_is_a_format_failure
                  no_metric_library sample_model cpu_dev
                  (sample_args (HFBool false)) 1 onnx_row (start 0)
                  "yolov8n.onnx" (mkModel "detect" "yolov8n.onnx" 1) 2
                  [EvExport sample_model 160 "onnx" false cpu_dev;
                   EvYOLO "yolov8n.onnx"]
                  "coco128.yaml" "metrics/mAP50-95(B)" no_metric_results 3
                  eq_refl
                  (or_intror
                     (conj eq_refl
                        (ex_intro _ 1 (conj eq_refl (conj eq_refl eq_refl)))))
                  eq_refl eq_refl eq_refl eq_refl) eq_refl).
Defined.

Lemma X11_witness :
  truthy (HFStr "") = truthy (HFBool false)
  /\ run_benchmarks good_library (with_hard_fail low_args (HFStr "")) 0
     = run_benchmarks good_library (with_hard_fail low_args (HFBool false)) 0.
Proof.
  split; [reflexivity |].
  exact (X11_only_the_truth_of_hard_fail_matters
           good_library low_args (HFStr "") (HFBool false) 0
           eq_refl eq_refl eq_refl).
Defined.

Lemma X12_witness :
  run_benchmarks no_device_library (sample_args (HFBool false)) 0
  = (Raise (mkExn (LibraryError "RuntimeError") "Invalid device string"),
     mkSt 1 [EvTorchDevice (DevName "cpu")] [] None None).
Proof.
  exact (proj1 (X12_device_and_model_failures_end_the_run
                  no_device_library (sample_args (HFBool false)) 0)
           (mkExn (LibraryError "RuntimeError") "Invalid device string") 1
           eq_refl).
Defined.

Lemma X13_witness :
  through_report refusing_library low_args (start 0)
  = (Ret refusing_df, refusing_state)
  /\ Forall all_null (y refusing_state)
  /\ fst (run_benchmarks refusing_library low_args 0) = Ret tt.
Proof.
  assert (H : through_report refusing_library low_args (start 0)
              = (Ret refusing_df, refusing_state))
    by (vm_compute; reflexivity).
  assert (Hn : Forall all_null (y refusing_state)).
  { repeat constructor. }
  assert (Hne : "0.3" <> "") by discriminate.
  split; [exact H |]. split; [exact Hn |].
  exact (X13_floor_passes_when_nothing_was_measured
           refusing_library low_args 0 "0.3" refusing_df refusing_state
           (3 # 10)%Q (S (w refusing_state)) eq_refl Hne H eq_refl Hn).
Defined.

Lemma X14_witness :
  through_report bad_floor_library low_args (start 0)
  = (Ret bad_floor_df, bad_floor_state)
  /\ fst (run_benchmarks bad_floor_library low_args 0)
     = Raise (mkExn (LibraryError "SyntaxError") "invalid syntax").
Proof.
  assert (H : through_report bad_floor_library low_args (start 0)
              = (Ret bad_floor_df, bad_floor_state))
    by (vm_compute; reflexivity).
  assert (Hne : "0.3" <> "") by discriminate.
  split; [exact H |].
  rewrite (X14_floor_expression_errors_end_the_run
             bad_floor_library low_args 0 "0.3" bad_floor_df bad_floor_state
             (mkExn (LibraryError "SyntaxError") "invalid syntax")
             (S (w bad_floor_state)) eq_refl Hne H eq_refl).
  reflexivity.
Defined.

End BenchmarksFacts.

(* ===================================================================== *)
(** ** Properties of the command-line script                              *)
(* ===================================================================== *)

Module YoloFacts.

Import Yolo.

(** *** The parser *)

Lemma lookup_In {V} (d : list (string * V)) k v :
  lookup d k = Some v -> In (k, v) d.
Proof.
  induction d as [| [k' v'] rest IH]; cbn; [discriminate |].
  destruct (String.eqb_spec k' k) as [-> | _].
  - intro H. injection H as ->. left. reflexivity.
  - intro H. right. apply IH. exact H.
Qed.

Lemma get_option_tuples_In p arg a o e :
  In (Some a, o, e) (get_option_tuples p arg) ->
  In (o, a) (option_string_actions p).
Proof.
  unfold get_option_tuples.
  destruct arg as [| c0 [| c1 rest]]; try (intros []).
  destruct (Ascii.eqb c0 "-"); [| intros []].
  destruct (Ascii.eqb c1 "-").
  - destruct (split_eq _) as [[pre ex] |]; intro H;
      apply in_flat_map in H; destruct H as [[o' a'] [Hin H]];
      cbn [fst snd] in H;
      destruct (String.prefix _ o'); cbn in H; try contradiction;
      destruct H as [H | []]; injection H as -> -> _; exact Hin.
  - intro H. apply in_flat_map in H. destruct H as [[o' a'] [Hin H]].
    cbn [fst snd] in H.
    destruct (String.eqb o' _); [| destruct (String.prefix _ o')];
      cbn in H; try contradiction;
      destruct H as [H | []]; injection H as -> -> _; exact Hin.
Qed.

(** A token read as an option of the parser carries one of its option
    strings and the action declared for it. *)
Lemma parse_optional_In p arg a o e :
  parse_optional p arg = Ret (Some (Some a, o, e)) ->
  In (o, a) (option_string_actions p).
Proof.
  unfold parse_optional. destruct arg as [| c rest]; [discriminate |].
  destruct (negb (Ascii.eqb c "-")); [discriminate |].
  destruct (lookup (option_string_actions p) (String c rest)) as [a0 |] eqn:El.
  - intro H. injection H as -> <- _. apply lookup_In. exact El.
  - destruct (String.eqb rest ""); [discriminate |].
    destruct (split_eq (String c rest)) as [[o' e'] |].
    + destruct (lookup (option_string_actions p) o') as [a1 |] eqn:El'.
      * intro H. injection H as -> <- _. apply lookup_In. exact El'.
      * destruct (get_option_tuples p (String c rest)) as [| t [| t' l]] eqn:Eg.
        -- destruct (negative_number _); [discriminate |].
           destruct (has_char _ _); discriminate.
        -- intro H. injection H as ->.
           apply (get_option_tuples_In p (String c rest) a o e).
           rewrite Eg. left. reflexivity.
        -- discriminate.
    + destruct (get_option_tuples p (String c rest)) as [| t [| t' l]] eqn:Eg.
      * destruct (negative_number _); [discriminate |].
        destruct (has_char _ _); discriminate.
      * intro H. injection H as ->.
        apply (get_option_tuples_In p (String c rest) a o e).
        rewrite Eg. left. reflexivity.
      * discriminate.
Qed.

Lemma classify_In p argv : forall ts,
  classify p argv = Ret ts ->
  Forall (fun t => match t with
                   | TOpt (Some a, o, _) => In (o, a) (option_string_actions p)
                   | _ => True
                   end) ts.
Proof.
  induction argv as [| arg rest IH]; intros ts H; cbn in H.
  - injection H as <-. constructor.
  - destruct (String.eqb arg "--").
    + injection H as <-. constructor; [exact I |].
      apply Forall_forall. intros t Ht. apply in_map_iff in Ht.
      destruct Ht as [v [<- _]]. exact I.
    + destruct (parse_optional p arg) as [ot | e] eqn:Ep; [| discriminate H].
      destruct (classify p rest) as [ts' | e]; [| discriminate H].
      injection H as <-. constructor; [| apply IH; reflexivity].
      destruct ot as [[[[a |] o] ex] |]; try exact I.
      apply (parse_optional_In p arg a o ex). exact Ep.
Qed.

#[local] Arguments get_values : simpl never.

(** A value that is not [--] is stored as it is. *)
Lemma get_values_other v : v <> "--" -> get_values [v] = Str v.
Proof.
  intro Hv. unfold get_values. cbn [remove_first].
  destruct (String.eqb_spec v "--"); [contradiction | reflexivity].
Qed.

Lemma plain_not_dashes v : plain v = true -> v <> "--".
Proof. intros Hp ->. discriminate Hp. Qed.

Lemma get_values_plain v : plain v = true -> get_values [v] = Str v.
Proof. intro Hp. apply get_values_other, plain_not_dashes, Hp. Qed.

Lemma lookup_setattr_other ns d v dest :
  String.eqb d dest = false ->
  lookup (setattr ns d v) dest = lookup ns dest.
Proof.
  intro Hd. induction ns as [| [k x] rest IH]; cbn.
  - rewrite Hd. reflexivity.
  - destruct (String.eqb_spec k d) as [-> | Hk]; cbn.
    + rewrite Hd. reflexivity.
    + destruct (String.eqb k dest); [reflexivity | exact IH].
Qed.

Ltac consume_case IH H :=
  apply IH in H; [| cbn in *; lia];
  let He := fresh "He" in let HF := fresh "HF" in let Hl := fresh "Hl" in
  destruct H as [He [HF Hl]];
  first
    [ discriminate He
    | split; [exact He |];
      split; [repeat (first [exact HF | constructor; [exact I |]]) |];
      let dest := fresh "dest" in let Hd := fresh "Hd" in
      intros dest Hd; cbn in Hd;
      apply orb_false_iff in Hd; destruct Hd as [? Hd];
      rewrite Hl;
      [ apply lookup_setattr_other; assumption
      | cbn; exact Hd ] ].

(** When the second pass returns a namespace, no token was left over, no
    token was the help option or an option the parser does not have, and the
    attributes no option stored are as they were. *)
Lemma consume_ret n : forall ts, length ts <= n ->
  forall ns ex ns',
    consume ts ns ex = Ret ns' ->
    ex = false
    /\ Forall store_or_arg ts
    /\ (forall dest, existsb (stores dest) ts = false ->
                     lookup ns' dest = lookup ns dest).
Proof.
  induction n as [| n IH]; intros ts Hlen ns ex ns' H.
  - destruct ts; [| cbn in Hlen; lia].
    cbn in H. destruct ex; [discriminate H |]. injection H as <-.
    repeat split; constructor.
  - destruct ts as [| t rest].
    { cbn in H. destruct ex; [discriminate H |]. injection H as <-.
      repeat split; constructor. }
    cbn [length] in Hlen.
    destruct t as [v | | [[[[| d] |] o] [ex' |]]]; cbn in H.
    all: try discriminate H.
    all: try (consume_case IH H; fail).
    all: try (destruct (String.eqb o "-h" && negb (String.eqb ex' "") && all_h ex'); discriminate H).
    destruct rest as [| [v1 | | ot] rest1]; try discriminate H.
    consume_case IH H.
Qed.

Lemma classify_option_first (o : string) a rest :
  String.eqb o "--" = false ->
  parse_optional yolo_parser o = Ret (Some (Some a, o, None)) ->
  classify yolo_parser (o :: rest)
  = match classify yolo_parser rest with
    | Raise e => Raise e
    | Ret ts => Ret (TOpt (Some a, o, None) :: ts)
    end.
Proof.
  intros H1 H2. cbn [classify]. rewrite H1, H2. reflexivity.
Qed.

Lemma classify_plain p v rest :
  plain v = true ->
  classify p (v :: rest)
  = match classify p rest with
    | Raise e => Raise e
    | Ret ts => Ret (TArg v :: ts)
    end.
Proof.
  intro Hp. cbn [classify]. destruct v as [| c v'].
  - reflexivity.
  - cbn in Hp. apply negb_true_iff in Hp.
    cbn [String.eqb]. rewrite Hp. cbn [andb].
    unfold parse_optional. rewrite Hp. reflexivity.
Qed.

Lemma parse_one_option (o dest v : string) :
  String.eqb o "--" = false ->
  parse_optional yolo_parser o = Ret (Some (Some (Store dest), o, None)) ->
  plain v = true ->
  parse yolo_parser [o; v]
  = Ret (setattr (defaults yolo_parser) dest (Str v)).
Proof.
  intros H1 H2 Hp. unfold parse.
  rewrite (classify_option_first o (Store dest) [v] H1 H2).
  rewrite (classify_plain yolo_parser v [] Hp).
  cbn [classify consume]. rewrite (get_values_plain v Hp). reflexivity.
Qed.

Lemma store_options o d :
  In (o, Store d) (option_string_actions yolo_parser) ->
  (d = "mode" /\ o = "--mode") \/ (d = "cfg" /\ o = "--cfg").
Proof.
  cbn. intros [H | [H | [H | [H | []]]]]; try discriminate H;
    injection H as <- <-; auto.
Qed.

Section Script.

Context {world model : Type}.
Variable L : library world model.

Local Notation "'St'" := (st world).

(** Everything before the dispatch leaves the operations alone. *)
Lemma setup_trace args (s : St) :
  exists evs, trace (snd (setup L args s)) = trace s ++ evs
              /\ existsb is_op evs = false.
Proof.
  unfold setup, bind, call, getitem. cbn [w trace].
  destruct (check_yaml L (cfg args) (w s)) as [[file | e] w1]; cbn [w trace snd].
  2: { exists [EvCheckYaml (cfg args)]. split; reflexivity. }
  destruct (yaml_load L file true w1) as [[ov | e] w2]; cbn [w trace snd].
  2: { exists [EvCheckYaml (cfg args); EvYamlLoad file true].
       rewrite <- app_assoc. split; reflexivity. }
  destruct (lookup ov "model") as [v |]; cbn [w trace snd ret raise].
  2: { exists [EvCheckYaml (cfg args); EvYamlLoad file true].
       rewrite <- app_assoc. split; reflexivity. }
  exists [EvCheckYaml (cfg args); EvYamlLoad file true; EvYOLO v].
  destruct (YOLO L v w2) as [[m | e] w3]; cbn [w trace snd];
    rewrite <- !app_assoc; split; reflexivity.
Qed.

Lemma dispatch_unrecognized m args (s : St) :
  unrecognized (mode args) = true -> dispatch L m args s = (Ret tt, s).
Proof.
  unfold unrecognized, dispatch. intro H.
  destruct (is_str (mode args) "train"); [discriminate H |].
  destruct (is_str (mode args) "predict"); [discriminate H |].
  destruct (is_str (mode args) "val"); [discriminate H |].
  destruct (is_str (mode args) "export"); [discriminate H |].
  reflexivity.
Qed.

Lemma script_unrecognized args (s : St) :
  unrecognized (mode args) = true ->
  script L args s
  = match setup L args s with
    | (Ret _, s') => (Ret tt, s')
    | (Raise e, s') => (Raise e, s')
    end.
Proof.
  intro H. unfold script, bind.
  destruct (setup L args s) as [[m | e] s']; [| reflexivity].
  apply dispatch_unrecognized. exact H.
Qed.

Lemma main_parsed argv a (w0 : world) :
  parse_args argv = Ret a -> main L argv w0 = script L a (mkSt w0 []).
Proof. intro H. unfold main, bind, lift. rewrite H. reflexivity. Qed.

(** *** The claims *)

(** C5. With a mode that is none of "train", "predict", "val" and "export",
    the dispatch returns at once in the state it was entered in, and the
    whole script invokes none of the four operations of the model. *)
Theorem C5_unrecognized_mode_invokes_nothing argv a (w0 : world) :
  parse_args argv = Ret a ->
  unrecognized (mode a) = true ->
  (forall m (s : St), dispatch L m a s = (Ret tt, s))
  /\ existsb is_op (trace (snd (main L argv w0))) = false.
Proof.
  intros Hp Hu. split.
  - intros m s. apply dispatch_unrecognized. exact Hu.
  - rewrite (main_parsed argv a w0 Hp), (script_unrecognized a _ Hu).
    destruct (setup_trace a (mkSt w0 [])) as [evs [Ht Hn]].
    destruct (setup L a (mkSt w0 [])) as [[m | e] s']; cbn [snd] in *;
      rewrite Ht; exact Hn.
Qed.

(** C10. With an unrecognized mode the script still does everything that
    comes before the dispatch, and only that: it ends as the set-up ends,
    and when the configuration is found, loads, has a 'model' entry and the
    model is built, it returns normally after exactly these three calls, in
    this order, the model being built from the 'model' entry. *)
Theorem C10_setup_runs_before_the_dispatch argv a (w0 : world) :
  parse_args argv = Ret a ->
  unrecognized (mode a) = true ->
  main L argv w0
  = match setup L a (mkSt w0 []) with
    | (Ret _, s') => (Ret tt, s')
    | (Raise e, s') => (Raise e, s')
    end
  /\ (forall file w1 overrides w2 v mdl w3,
        check_yaml L (cfg a) w0 = (Ret file, w1) ->
        yaml_load L file true w1 = (Ret overrides, w2) ->
        lookup overrides "model" = Some v ->
        YOLO L v w2 = (Ret mdl, w3) ->
        main L argv w0
        = (Ret tt,
           mkSt w3 [EvCheckYaml (cfg a); EvYamlLoad file true; EvYOLO v])).
Proof.
  intros Hp Hu.
  assert (E : main L argv w0
              = match setup L a (mkSt w0 []) with
                | (Ret _, s') => (Ret tt, s')
                | (Raise e, s') => (Raise e, s')
                end).
  { rewrite (main_parsed argv a w0 Hp). apply script_unrecognized. exact Hu. }
  split; [exact E |].
  intros file w1 overrides w2 v mdl w3 H1 H2 H3 H4. rewrite E.
  unfold setup, bind, call, getitem. cbn [w trace].
  rewrite H1. cbn [w trace]. rewrite H2. cbn [w trace]. rewrite H3.
  unfold ret. cbn [w trace]. rewrite H4. reflexivity.
Qed.

End Script.

(** C8. The parser of the script declares two options that store a value,
    [--mode] and [--cfg].  Without arguments the mode is "train" and the
    configuration is "cfg.yaml"; either option followed by a value sets its
    attribute and leaves the other at its default.  Whenever a command line
    is accepted, every token that was read as an option was read as
    [--mode] or as [--cfg], and an attribute no token stored has its
    default. *)
Theorem C8_cli_options_and_defaults :
  store_dests yolo_parser = ["mode"; "cfg"]
  /\ parse_args [] = Ret (mkCli (Str "train") (Str "cfg.yaml"))
  /\ (forall v, plain v = true ->
        parse_args ["--mode"; v] = Ret (mkCli (Str v) (Str "cfg.yaml")))
  /\ (forall v, plain v = true ->
        parse_args ["--cfg"; v] = Ret (mkCli (Str "train") (Str v)))
  /\ (forall argv a,
        parse_args argv = Ret a ->
        exists ts,
          classify yolo_parser argv = Ret ts
          /\ Forall mode_or_cfg ts
          /\ (existsb (stores "mode") ts = false -> mode a = Str "train")
          /\ (existsb (stores "cfg") ts = false -> cfg a = Str "cfg.yaml")).
Proof.
  split; [reflexivity |]. split; [reflexivity |].
  split; [| split].
  - intros v Hp. unfold parse_args.
    rewrite (parse_one_option "--mode" "mode" v eq_refl eq_refl Hp).
    reflexivity.
  - intros v Hp. unfold parse_args.
    rewrite (parse_one_option "--cfg" "cfg" v eq_refl eq_refl Hp).
    reflexivity.
  - intros argv a H. unfold parse_args, parse in H.
    destruct (classify yolo_parser argv) as [ts | e] eqn:Ec; [| discriminate H].
    destruct (consume ts (defaults yolo_parser) false) as [ns | e] eqn:En;
      [| discriminate H].
    exists ts. split; [reflexivity |].
    apply (consume_ret (length ts) ts (le_n _)) in En.
    destruct En as [_ [HF Hl]].
    pose proof (classify_In yolo_parser argv ts Ec) as HI.
    split; [| split].
    + rewrite Forall_forall in *. intros t Ht.
      specialize (HF t Ht). specialize (HI t Ht).
      destruct t as [v | | [[[[| d] |] o] ex]]; cbn in *; try exact I;
        try contradiction.
      destruct (store_options o d HI) as [[-> ->] | [-> ->]]; auto.
    + intro Hm. unfold getattr in H. rewrite (Hl "mode" Hm) in H.
      cbn in H. destruct (lookup ns "cfg"); [| discriminate H].
      injection H as <-. reflexivity.
    + intro Hc. unfold getattr in H. rewrite (Hl "cfg" Hc) in H.
      cbn in H. destruct (lookup ns "mode"); [| discriminate H].
      injection H as <-. reflexivity.
Qed.

(** *** The claims on sample command lines *)

Import Samples.

Lemma C5_witness :
  parse_args ["--mode"; "test"] = Ret (mkCli (Str "test") (Str "cfg.yaml"))
  /\ unrecognized (Str "test") = true
  /\ existsb is_op (trace (snd (main yolo_library ["--mode"; "test"] 0)))
     = false.
Proof.
  split; [reflexivity |]. split; [reflexivity |].
  exact (proj2 (C5_unrecognized_mode_invokes_nothing
                  yolo_library ["--mode"; "test"]
                  (mkCli (Str "test") (Str "cfg.yaml")) 0
                  eq_refl eq_refl)).
Defined.

Lemma C8_witness :
  plain "val" = true
  /\ parse_args ["--mode"; "val"] = Ret (mkCli (Str "val") (Str "cfg.yaml"))
  /\ parse_args ["--cfg=a.yaml"] = Ret (mkCli (Str "train") (Str "a.yaml"))
  /\ mode (mkCli (Str "train") (Str "a.yaml")) = Str "train".
Proof.
  split; [reflexivity |].
  split;
    [exact (proj1 (proj2 (proj2 C8_cli_options_and_defaults)) "val" eq_refl) |].
  split; [reflexivity |].
  destruct (proj2 (proj2 (proj2 (proj2 C8_cli_options_and_defaults)))
              ["--cfg=a.yaml"] (mkCli (Str "train") (Str "a.yaml")) eq_refl)
    as [ts [Hc [_ [Hm _]]]].
  apply Hm. injection Hc as <-. reflexivity.
Defined.

Lemma C10_witness :
  parse_args ["--mode"; "test"] = Ret (mkCli (Str "test") (Str "cfg.yaml"))
  /\ unrecognized (Str "test") = true
  /\ main yolo_library ["--mode"; "test"] 0
     = (Ret tt,
        mkSt 3 [EvCheckYaml (Str "cfg.yaml"); EvYamlLoad "cfg.yaml" true;
                EvYOLO (YStr "yolov8n.pt")]).
Proof.
  split; [reflexivity |]. split; [reflexivity |].
  exact (proj2 (C10_setup_runs_before_the_dispatch
                  yolo_library ["--mode"; "test"]
                  (mkCli (Str "test") (Str "cfg.yaml")) 0
                  eq_refl eq_refl)
           "cfg.yaml" 1
           [("model", YStr "yolov8n.pt"); ("yaml_file", YStr "cfg.yaml")] 2
           (YStr "yolov8n.pt") 2 3 eq_refl eq_refl eq_refl eq_refl).
Defined.

(** *** Beyond the claims *)

Lemma lookup_setattr_same ns d v : lookup (setattr ns d v) d = Some v.
Proof.
  induction ns as [| [k x] rest IH]; cbn.
  - rewrite String.eqb_refl. reflexivity.
  - destruct (String.eqb_spec k d) as [-> | Hk]; cbn.
    + rewrite String.eqb_refl. reflexivity.
    + destruct (String.eqb_spec k d); [contradiction | exact IH].
Qed.

Lemma setattr_has_key ns d v x : has_key ns x -> has_key (setattr ns d v) x.
Proof.
  unfold has_key. intro H. destruct (String.eqb_spec d x) as [-> | Hd].
  - rewrite lookup_setattr_same. discriminate.
  - rewrite lookup_setattr_other; [exact H |].
    destruct (String.eqb_spec d x); [contradiction | reflexivity].
Qed.

Ltac keep_case IH H :=
  apply IH in H; [| cbn in *; lia | auto using setattr_has_key]; exact H.

(** The second pass never removes an attribute. *)
Lemma consume_keeps n x : forall ts, length ts <= n ->
  forall ns ex ns',
    consume ts ns ex = Ret ns' -> has_key ns x -> has_key ns' x.
Proof.
  induction n as [| n IH]; intros ts Hlen ns ex ns' H Hk.
  - destruct ts; [| cbn in Hlen; lia].
    cbn in H. destruct ex; [discriminate H |]. injection H as <-. exact Hk.
  - destruct ts as [| t rest].
    { cbn in H. destruct ex; [discriminate H |]. injection H as <-. exact Hk. }
    cbn [length] in Hlen.
    destruct t as [v | | [[[[| d] |] o] [ex' |]]]; cbn in H.
    all: try discriminate H.
    all: try (keep_case IH H; fail).
    all: try (destruct (String.eqb o "-h" && negb (String.eqb ex' "")
                        && all_h ex'); discriminate H).
    destruct rest as [| [v1 | | ot] rest1]; try discriminate H.
    keep_case IH H.
Qed.

Lemma parse_optional_raise p arg e :
  parse_optional p arg = Raise e -> e = mkExn SystemExit "2".
Proof.
  unfold parse_optional. destruct arg as [| c rest]; [discriminate |].
  destruct (negb (Ascii.eqb c "-")); [discriminate |].
  destruct (lookup (option_string_actions p) (String c rest)); [discriminate |].
  destruct (String.eqb rest ""); [discriminate |].
  destruct (match split_eq (String c rest) with
            | Some (o, explicit_arg) =>
                match lookup (option_string_actions p) o with
                | Some a => Some (Some a, o, Some explicit_arg)
                | None => None
                end
            | None => None
            end); [discriminate |].
  destruct (get_option_tuples p (String c rest)) as [| t [| t' l]].
  - destruct (negative_number _); [discriminate |].
    destruct (has_char _ _); discriminate.
  - discriminate.
  - intro H. injection H as <-. reflexivity.
Qed.

Lemma classify_raise p argv : forall e,
  classify p argv = Raise e -> e = mkExn SystemExit "2".
Proof.
  induction argv as [| arg rest IH]; intros e H; cbn in H; [discriminate H |].
  destruct (String.eqb arg "--"); [discriminate H |].
  destruct (parse_optional p arg) as [ot | e'] eqn:Ep.
  - destruct (classify p rest) as [ts | e'']; [discriminate H |].
    injection H as <-. apply IH. reflexivity.
  - injection H as <-. apply (parse_optional_raise p arg). exact Ep.
Qed.

Ltac exit_case IH H := apply IH in H; [exact H | cbn in *; lia].

Lemma consume_raise n : forall ts, length ts <= n ->
  forall ns ex e, consume ts ns ex = Raise e -> is_exit e.
Proof.
  induction n as [| n IH]; intros ts Hlen ns ex e H.
  - destruct ts; [| cbn in Hlen; lia].
    cbn in H. destruct ex; [| discriminate H]. injection H as <-.
    right. reflexivity.
  - destruct ts as [| t rest].
    { cbn in H. destruct ex; [| discriminate H]. injection H as <-.
      right. reflexivity. }
    cbn [length] in Hlen.
    destruct t as [v | | [[[[| d] |] o] [ex' |]]]; cbn in H.
    all: try (exit_case IH H; fail).
    all: try (destruct (String.eqb o "-h" && negb (String.eqb ex' "")
                        && all_h ex')).
    all: try (injection H as <-; first [left; reflexivity | right; reflexivity]).
    destruct rest as [| [v1 | | ot] rest1].
    all: try (injection H as <-; right; reflexivity).
    exit_case IH H.
Qed.

(** X17. Whatever the command line, [parse_args] either returns both
    attributes or leaves through SystemExit with status 0 (help) or 2 (usage
    error); in the second case the script has not touched the library: no
    configuration is read and no model is built. *)
Theorem X17_a_rejected_command_line_exits_before_any_call
    {world model : Type} (L : library world model) argv e (w0 : world) :
  parse_args argv = Raise e ->
  cls e = SystemExit
  /\ (msg e = "0" \/ msg e = "2")
  /\ main L argv w0 = (Raise e, mkSt w0 []).
Proof.
  intro H.
  assert (Hex : is_exit e).
  { unfold parse_args, parse in H.
    destruct (classify yolo_parser argv) as [ts | e'] eqn:Ec.
    - destruct (consume ts (defaults yolo_parser) false) as [ns | e''] eqn:En.
      + exfalso.
        assert (Hm : has_key ns "mode").
        { apply (consume_keeps (length ts) "mode" ts (le_n _) _ _ _ En).
          discriminate. }
        assert (Hc : has_key ns "cfg").
        { apply (consume_keeps (length ts) "cfg" ts (le_n _) _ _ _ En).
          discriminate. }
        unfold getattr, has_key in *.
        destruct (lookup ns "mode"); [| contradiction].
        destruct (lookup ns "cfg"); [discriminate H | contradiction].
      + injection H as <-.
        apply (consume_raise (length ts) ts (le_n _) _ _ _ En).
    - injection H as <-. right. apply (classify_raise yolo_parser argv).
      exact Ec. }
  split; [destruct Hex as [-> | ->]; reflexivity |].
  split; [destruct Hex as [-> | ->]; auto |].
  unfold main, bind, lift. rewrite H. reflexivity.
Qed.

(** X18. The form [--mode=value] takes the value as it is (empty,
    beginning with a dash, containing [=]) unless the value is [--]; and
    the same for [--cfg].  With [--mode=--] or [--cfg=--] the command line
    is accepted as well, but the attribute is the empty list, not a string:
    such a mode is none of the four the dispatch compares with. *)
Theorem X18_glued_value_is_stored_unless_it_is_the_double_dash (v : string) :
  (v <> "--" ->
   parse_args [("--mode=" ++ v)%string] = Ret (mkCli (Str v) (Str "cfg.yaml"))
   /\ parse_args [("--cfg=" ++ v)%string] = Ret (mkCli (Str "train") (Str v)))
  /\ parse_args ["--mode=--"] = Ret (mkCli (StrList []) (Str "cfg.yaml"))
  /\ parse_args ["--cfg=--"] = Ret (mkCli (Str "train") (StrList []))
  /\ unrecognized (StrList []) = true.
Proof.
  split; [| repeat split; reflexivity].
  intro Hv.
  assert (Em : parse_args [("--mode=" ++ v)%string]
               = Ret (mkCli (get_values [v]) (Str "cfg.yaml")))
    by reflexivity.
  assert (Ec : parse_args [("--cfg=" ++ v)%string]
               = Ret (mkCli (Str "train") (get_values [v])))
    by reflexivity.
  rewrite Em, Ec, (get_values_other v Hv). split; reflexivity.
Qed.

Lemma filter_none {A} (f : A -> bool) l :
  existsb f l = false -> filter f l = [].
Proof.
  induction l as [| x rest IH]; cbn; [reflexivity |].
  intro H. apply orb_false_iff in H. destruct H as [Hx Hr].
  rewrite Hx. apply IH. exact Hr.
Qed.

Lemma dispatch_operation {world model : Type} (L : library world model)
    m a op (s : st world) :
  operation_of (mode a) = Some op ->
  dispatch L m a s = invoke L op m (cfg a) s.
Proof.
  unfold operation_of, dispatch. intro H.
  destruct (is_str (mode a) "train"); [injection H as <-; reflexivity |].
  destruct (is_str (mode a) "predict"); [injection H as <-; reflexivity |].
  destruct (is_str (mode a) "val"); [injection H as <-; reflexivity |].
  destruct (is_str (mode a) "export"); [injection H as <-; reflexivity |].
  discriminate H.
Qed.

(** X15. With one of the four modes, the script sets up and then invokes
    the operation of that mode, once and no other, on the model it built and
    with the path given as [--cfg] (not the file [check_yaml] resolved it
    to); the script ends as the operation ends, with its exception if it
    raises. *)
Theorem X15_each_mode_invokes_its_operation {world model : Type}
    (L : library world model) argv a (w0 : world) op m s1 r w' :
  parse_args argv = Ret a ->
  operation_of (mode a) = Some op ->
  setup L a (mkSt w0 []) = (Ret m, s1) ->
  run_op L op m (cfg a) (w s1) = (r, w') ->
  main L argv w0 = (r, mkSt w' (trace s1 ++ [EvOp op (cfg a)]))
  /\ filter is_op (trace (snd (main L argv w0))) = [EvOp op (cfg a)].
Proof.
  intros Hp Hop Hs Hr.
  assert (E : main L argv w0 = (r, mkSt w' (trace s1 ++ [EvOp op (cfg a)]))).
  { rewrite (main_parsed L argv a w0 Hp). unfold script, bind. rewrite Hs.
    rewrite (dispatch_operation L m a op s1 Hop).
    unfold invoke, call. rewrite Hr. reflexivity. }
  split; [exact E |]. rewrite E. cbn [snd trace].
  destruct (setup_trace L a (mkSt w0 [])) as [evs [Ht Hn]].
  rewrite Hs in Ht. cbn [snd trace app] in Ht. rewrite Ht.
  rewrite filter_app, (filter_none is_op evs Hn). reflexivity.
Qed.

(** X16. A configuration without a 'model' entry stops the script with
    KeyError whatever the mode is: the file was checked and loaded, but no
    model is built and no operation is invoked. *)
Theorem X16_missing_model_entry_is_a_key_error {world model : Type}
    (L : library world model) argv a (w0 : world) file w1 overrides w2 :
  parse_args argv = Ret a ->
  check_yaml L (cfg a) w0 = (Ret file, w1) ->
  yaml_load L file true w1 = (Ret overrides, w2) ->
  lookup overrides "model" = None ->
  main L argv w0
  = (Raise (mkExn KeyError "'model'"),
     mkSt w2 [EvCheckYaml (cfg a); EvYamlLoad file true]).
Proof.
  intros Hp H1 H2 H3. rewrite (main_parsed L argv a w0 Hp).
  unfold script, setup, bind, call, getitem. cbn [w trace].
  rewrite H1. cbn [w trace]. rewrite H2. cbn [w trace]. rewrite H3.
  reflexivity.
Qed.

(** Without a [--], every token is classified on its own. *)
Lemma classify_app p argv : forall argv' ts ts',
  forallb (fun a => negb (String.eqb a "--")) argv = true ->
  classify p argv = Ret ts ->
  classify p argv' = Ret ts' ->
  classify p (argv ++ argv') = Ret (ts ++ ts')
  /\ Forall (fun t => t <> TDashDash) ts.
Proof.
  induction argv as [| arg rest IH]; intros argv' ts ts' Hn H H'.
  - cbn in H. injection H as <-. split; [exact H' | constructor].
  - cbn [forallb] in Hn. apply andb_true_iff in Hn. destruct Hn as [Ha Hn].
    apply negb_true_iff in Ha. cbn [classify app] in *. rewrite Ha in *.
    destruct (parse_optional p arg) as [ot |]; [| discriminate H].
    destruct (classify p rest) as [ts0 |] eqn:Er; [| discriminate H].
    injection H as <-.
    destruct (IH argv' ts0 ts' Hn eq_refl H') as [-> HF].
    split; [reflexivity |].
    constructor; [destruct ot; discriminate | exact HF].
Qed.

Ltac app_case IH H HF :=
  rewrite ?app_comm_cons;
  apply IH; [cbn in *; lia | | exact H];
  repeat match goal with
         | HF' : Forall _ (_ :: _) |- _ => inversion_clear HF'
         end; repeat first [assumption | constructor].

(** A command line that was accepted, followed by one more option and
    its value, is accepted too, the new value being stored last. *)
Lemma consume_app n d o v : forall ts, length ts <= n ->
  Forall (fun t => t <> TDashDash) ts ->
  forall ns ex ns1,
    consume ts ns ex = Ret ns1 ->
    consume (ts ++ [TOpt (Some (Store d), o, None); TArg v]) ns ex
    = Ret (setattr ns1 d (get_values [v])).
Proof.
  induction n as [| n IH]; intros ts Hlen HF ns ex ns1 H.
  - destruct ts; [| cbn in Hlen; lia].
    cbn in H. destruct ex; [discriminate H |]. injection H as <-. reflexivity.
  - destruct ts as [| t rest].
    { cbn in H. destruct ex; [discriminate H |]. injection H as <-.
      reflexivity. }
    cbn [length] in Hlen.
    destruct t as [v0 | | [[[[| d0] |] o0] [ex' |]]]; cbn in H |- *.
    all: try discriminate H.
    all: try (app_case IH H HF; fail).
    all: try (destruct (String.eqb o0 "-h" && negb (String.eqb ex' "")
                        && all_h ex'); discriminate H).
    destruct rest as [| [v1 | | ot] rest1]; try discriminate H.
    cbn [app]. app_case IH H HF.
Qed.

Lemma classify_pair (o dest v : string) :
  String.eqb o "--" = false ->
  parse_optional yolo_parser o = Ret (Some (Some (Store dest), o, None)) ->
  plain v = true ->
  classify yolo_parser [o; v]
  = Ret [TOpt (Some (Store dest), o, None); TArg v].
Proof.
  intros H1 H2 Hp.
  rewrite (classify_option_first o (Store dest) [v] H1 H2).
  rewrite (classify_plain yolo_parser v [] Hp). reflexivity.
Qed.

Lemma parse_append (o dest v : string) argv ns :
  String.eqb o "--" = false ->
  parse_optional yolo_parser o = Ret (Some (Some (Store dest), o, None)) ->
  plain v = true ->
  forallb (fun a => negb (String.eqb a "--")) argv = true ->
  parse yolo_parser argv = Ret ns ->
  parse yolo_parser (argv ++ [o; v]) = Ret (setattr ns dest (Str v)).
Proof.
  intros H1 H2 Hp Hn H. unfold parse in *.
  destruct (classify yolo_parser argv) as [ts |] eqn:Ec; [| discriminate H].
  destruct (classify_app yolo_parser argv [o; v] ts _ Hn Ec
              (classify_pair o dest v H1 H2 Hp)) as [-> HF].
  rewrite <- (get_values_plain v Hp).
  apply (consume_app (length ts) dest o v ts (le_n _) HF). exact H.
Qed.

(** X19. Options given again override: when a command line without [--]
    is accepted, the same command line followed by [--mode v] (or
    [--cfg v]), [v] not beginning with a dash, is accepted too, with [v] as
    the mode (the configuration) and the other attribute unchanged. *)
Theorem X19_a_later_option_overrides argv a v :
  forallb (fun t => negb (String.eqb t "--")) argv = true ->
  parse_args argv = Ret a ->
  plain v = true ->
  parse_args (argv ++ ["--mode"; v]) = Ret (mkCli (Str v) (cfg a))
  /\ parse_args (argv ++ ["--cfg"; v]) = Ret (mkCli (mode a) (Str v)).
Proof.
  intros Hn H Hp. unfold parse_args in *.
  destruct (parse yolo_parser argv) as [ns |] eqn:E; [| discriminate H].
  rewrite (parse_append "--mode" "mode" v argv ns eq_refl eq_refl Hp Hn E).
  rewrite (parse_append "--cfg" "cfg" v argv ns eq_refl eq_refl Hp Hn E).
  unfold getattr in *.
  rewrite !lookup_setattr_same.
  rewrite (lookup_setattr_other ns "mode" (Str v) "cfg" eq_refl).
  rewrite (lookup_setattr_other ns "cfg" (Str v) "mode" eq_refl).
  destruct (lookup ns "mode") as [m |]; [| discriminate H].
  destruct (lookup ns "cfg") as [c |]; [| discriminate H].
  injection H as <-. split; reflexivity.
Qed.

(** *** The further properties on sample command lines *)

Lemma X15_witness :
  parse_args ["--mode"; "val"; "--cfg"; "my.yaml"]
  = Ret (mkCli (Str "val") (Str "my.yaml"))
  /\ main yolo_library ["--mode"; "val"; "--cfg"; "my.yaml"] 0
     = (Ret tt,
        mkSt 4 [EvCheckYaml (Str "my.yaml"); EvYamlLoad "my.yaml" true;
                EvYOLO (YStr "yolov8n.pt"); EvOp Val (Str "my.yaml")]).
Proof.
  split; [reflexivity |].
  exact (proj1 (X15_each_mode_invokes_its_operation
                  yolo_library ["--mode"; "val"; "--cfg"; "my.yaml"]
                  (mkCli (Str "val") (Str "my.yaml")) 0 Val 2
                  (mkSt 3 [EvCheckYaml (Str "my.yaml");
                           EvYamlLoad "my.yaml" true;
                           EvYOLO (YStr "yolov8n.pt")])
                  (Ret tt) 4 eq_refl eq_refl eq_refl eq_refl)).
Defined.

Lemma X16_witness :
  lookup (V := yaml) [("task", YStr "detect")] "model" = None
  /\ main empty_cfg_library [] 0
     = (Raise (mkExn KeyError "'model'"),
        mkSt 2 [EvCheckYaml (Str "cfg.yaml"); EvYamlLoad "cfg.yaml" true]).
Proof.
  split; [reflexivity |].
  exact (X16_missing_model_entry_is_a_key_error
           empty_cfg_library [] (mkCli (Str "train") (Str "cfg.yaml")) 0
           "cfg.yaml" 1
           [("task", YStr "detect")] 2 eq_refl eq_refl eq_refl eq_refl).
Defined.

Lemma X17_witness :
  parse_args ["--epochs"; "3"] = Raise (mkExn SystemExit "2")
  /\ parse_args ["--mode"; "--"; "val"] = Raise (mkExn SystemExit "2")
  /\ parse_args ["--mode"; "val"; "--"] = Raise (mkExn SystemExit "2")
  /\ parse_args ["-h"] = Raise (mkExn SystemExit "0")
  /\ main yolo_library ["--epochs"; "3"] 0
     = (Raise (mkExn SystemExit "2"), mkSt 0 []).
Proof.
  split; [reflexivity |]. split; [reflexivity |]. split; [reflexivity |].
  split; [reflexivity |].
  exact (proj2 (proj2 (X17_a_rejected_command_line_exits_before_any_call
                         yolo_library ["--epochs"; "3"]
                         (mkExn SystemExit "2") 0 eq_refl))).
Defined.

Lemma X18_witness :
  "-x=1" <> "--"
  /\ parse_args ["--mode=-x=1"] = Ret (mkCli (Str "-x=1") (Str "cfg.yaml")).
Proof.
  assert (H : "-x=1" <> "--") by discriminate.
  split; [exact H |].
  exact (proj1 (proj1 (X18_glued_value_is_stored_unless_it_is_the_double_dash
                         "-x=1") H)).
Defined.

Lemma X19_witness :
  parse_args ["--mode"; "train"; "--cfg=a.yaml"]
  = Ret (mkCli (Str "train") (Str "a.yaml"))
  /\ parse_args (["--mode"; "train"; "--cfg=a.yaml"] ++ ["--mode"; "val"])
     = Ret (mkCli (Str "val") (Str "a.yaml")).
Proof.
  split; [reflexivity |].
  exact (proj1 (X19_a_later_option_overrides
                  ["--mode"; "train"; "--cfg=a.yaml"]
                  (mkCli (Str "train") (Str "a.yaml")) "val"
                  eq_refl eq_refl eq_refl)).
Defined.

Lemma prefix_cons c o d s :
  String.prefix (String c o) (String d s) = true ->
  c = d /\ String.prefix o s = true.
Proof.
  cbn. destruct (ascii_dec c d) as [-> |]; [auto | discriminate].
Qed.

Ltac peel H side :=
  match type of H with
  | String.prefix ?o _ = true =>
      destruct o as [| ? ?];
      [ side | apply prefix_cons in H; destruct H as [-> H] ]
  end.

Lemma prefixes_of_mode o :
  String.prefix o "--mode" = true -> 3 <= String.length o ->
  o = "--m" \/ o = "--mo" \/ o = "--mod" \/ o = "--mode".
Proof.
  intros H Hl.
  peel H ltac:(cbn in Hl; lia). peel H ltac:(cbn in Hl; lia).
  peel H ltac:(cbn in Hl; lia).
  peel H ltac:(auto). peel H ltac:(auto). peel H ltac:(auto).
  match type of H with
  | String.prefix ?o' _ = true =>
      destruct o'; [auto 6 | cbn in H; discriminate H]
  end.
Qed.

Lemma prefixes_of_cfg o :
  String.prefix o "--cfg" = true -> 3 <= String.length o ->
  o = "--c" \/ o = "--cf" \/ o = "--cfg".
Proof.
  intros H Hl.
  peel H ltac:(cbn in Hl; lia). peel H ltac:(cbn in Hl; lia).
  peel H ltac:(cbn in Hl; lia).
  peel H ltac:(auto). peel H ltac:(auto).
  match type of H with
  | String.prefix ?o' _ = true =>
      destruct o'; [auto 6 | cbn in H; discriminate H]
  end.
Qed.

Lemma classify_cons_option p (o : string) ot rest :
  String.eqb o "--" = false ->
  parse_optional p o = Ret (Some ot) ->
  classify p (o :: rest)
  = match classify p rest with
    | Raise e => Raise e
    | Ret ts => Ret (TOpt ot :: ts)
    end.
Proof.
  intros H1 H2. cbn [classify]. rewrite H1, H2. reflexivity.
Qed.

Lemma classify_abbreviated (o full : string) a v :
  String.eqb o "--" = false ->
  parse_optional yolo_parser o = Ret (Some (Some a, full, None)) ->
  plain v = true ->
  classify yolo_parser [o; v] = Ret [TOpt (Some a, full, None); TArg v].
Proof.
  intros H1 H2 Hp.
  rewrite (classify_cons_option yolo_parser o _ [v] H1 H2).
  rewrite (classify_plain yolo_parser v [] Hp). reflexivity.
Qed.

(** X20. Options may be abbreviated: any prefix of [--mode] (of [--cfg])
    that goes at least one letter beyond the two dashes is read as the
    option itself. *)
Theorem X20_abbreviated_options_are_accepted o v :
  3 <= String.length o ->
  plain v = true ->
  (String.prefix o "--mode" = true ->
   parse_args [o; v] = Ret (mkCli (Str v) (Str "cfg.yaml")))
  /\ (String.prefix o "--cfg" = true ->
      parse_args [o; v] = Ret (mkCli (Str "train") (Str v))).
Proof.
  intros Hl Hp. split; intro H.
  - destruct (prefixes_of_mode o H Hl) as [-> | [-> | [-> | ->]]];
      unfold parse_args, parse;
      match goal with
      | |- context [classify yolo_parser [?o'; v]] =>
          rewrite (classify_abbreviated o' "--mode" (Store "mode") v eq_refl
                     eq_refl Hp)
      end;
      cbn [consume]; rewrite (get_values_plain v Hp); reflexivity.
  - destruct (prefixes_of_cfg o H Hl) as [-> | [-> | ->]];
      unfold parse_args, parse;
      match goal with
      | |- context [classify yolo_parser [?o'; v]] =>
          rewrite (classify_abbreviated o' "--cfg" (Store "cfg") v eq_refl
                     eq_refl Hp)
      end;
      cbn [consume]; rewrite (get_values_plain v Hp); reflexivity.
Qed.

Lemma X20_witness :
  String.prefix "--mo" "--mode" = true
  /\ parse_args ["--mo"; "predict"]
     = Ret (mkCli (Str "predict") (Str "cfg.yaml")).
Proof.
  split; [reflexivity |].
  exact (proj1 (X20_abbreviated_options_are_accepted "--mo" "predict"
                  ltac:(cbn; lia) eq_refl) eq_refl).
Defined.

End YoloFacts.
